(** * Cattle-farm monitoring backend: request handlers and their datastore

    A shallow embedding of the Express handlers of the backend

      - [post_gps]            the POST /gps route (location ingestion),
      - [createVirtualFence]  the fence-creation controller,
      - [updateRemoteConfig]  the remote-config controller (command enqueue),
      - [handleAlert]         the device alert route,

    over an explicit model of what they touch: the request body as the JSON
    primitives it carries, the relational tables as lists of rows, the
    console, the in-process location emitter, the mail transport and the
    clock.  Handlers are written in a state-and-exception monad so that the
    order of the statements, the early returns and the try/catch blocks of
    the JavaScript can be read off the definitions. *)

From Stdlib Require Import String List ZArith QArith Bool Lia DecimalString.
Import ListNotations.
Local Open Scope string_scope.
Local Open Scope list_scope.
Local Open Scope Z_scope.

(** ** JavaScript values *)

(** Numbers.  Finite numbers are rationals (every JSON number literal is one)
    and arithmetic on them is exact; the infinities are not represented. *)
Inductive Num : Type :=
| NaN
| Fin (q : Q).

(** The primitives a parsed JSON body or query string can hold.  Objects and
    arrays are outside the model. *)
Inductive JsVal : Type :=
| JUndefined
| JNull
| JBool (b : bool)
| JNum (n : Num)
| JStr (s : string).

(** A value bound to a statement parameter: a request primitive, or a [Date]
    built by the handler ([None] is the invalid date). *)
Inductive SqlVal : Type :=
| SJs (v : JsVal)
| SDate (t : option Z).

Definition num (z : Z) : JsVal := JNum (Fin (inject_Z z)).

(** ToBoolean *)
Definition truthy (v : JsVal) : bool :=
  match v with
  | JUndefined | JNull => false
  | JBool b => b
  | JNum NaN => false
  | JNum (Fin q) => negb (Qeq_bool q 0)
  | JStr s => negb (String.eqb s "")
  end.

(** [a || b] *)
Definition js_or (a b : JsVal) : JsVal := if truthy a then a else b.

(** [v == null] *)
Definition loose_null (v : JsVal) : bool :=
  match v with
  | JUndefined | JNull => true
  | _ => false
  end.

(** [typeof v !== 'undefined'] *)
Definition defined (v : JsVal) : bool :=
  match v with
  | JUndefined => false
  | _ => true
  end.

(** A destructuring default [{ x = null }]: only [undefined] is replaced. *)
Definition default_null (v : JsVal) : JsVal :=
  match v with
  | JUndefined => JNull
  | _ => v
  end.

Definition num_lt (a b : Num) : bool :=
  match a, b with
  | Fin x, Fin y => negb (Qle_bool y x)
  | _, _ => false
  end.

Definition num_mul (a b : Num) : Num :=
  match a, b with
  | Fin x, Fin y => Fin (x * y)
  | _, _ => NaN
  end.

Definition num_add (a b : Num) : Num :=
  match a, b with
  | Fin x, Fin y => Fin (x + y)
  | _, _ => NaN
  end.

(** Truncation toward zero, as the [Date] constructor does to its argument. *)
Definition truncate (q : Q) : Z := Z.quot (Qnum q) (Zpos (Qden q)).

Definition MAX_TIME : Z := 8640000000000000.

(** [new Date(n)]: TimeClip of the number. *)
Definition Date_of (n : Num) : option Z :=
  match n with
  | NaN => None
  | Fin q =>
      let t := truncate q in
      if (Z.abs t <=? MAX_TIME) then Some t else None
  end.

(** ** Requests, rows and responses *)

(** Body of POST /gps. *)
Record GpsBody : Type := {
  latitude : JsVal;
  longitude : JsVal;
  animal_id : JsVal;
  collar_id : JsVal;
  altitude_meters : JsVal;
  accuracy_meters : JsVal;
  speed_kmh : JsVal;
  heading_degrees : JsVal;
  recorded_at : JsVal;
  battery_level : JsVal;
  signal_quality : JsVal;
  temperature_celsius : JsVal;
  update_id : JsVal;
  id : JsVal
}.

(** The twelve columns the route binds in animal_locations. *)
Record LocationCols : Type := {
  l_animal_id : JsVal;
  l_collar_id : JsVal;
  l_latitude : Num;
  l_longitude : Num;
  l_altitude_meters : JsVal;
  l_accuracy_meters : JsVal;
  l_speed_kmh : JsVal;
  l_heading_degrees : JsVal;
  l_recorded_at : SqlVal;
  l_battery_level : JsVal;
  l_signal_quality : JsVal;
  l_temperature_celsius : JsVal
}.

(** A row of animal_locations: the auto-increment id and the bound columns. *)
Record HistoryRow : Type := {
  h_id : Z;
  h_cols : LocationCols
}.

(** A row of current_locations.  [c_other] stands for whatever further
    columns the table has; no statement of the route names them. *)
Record CurrentRow : Type := {
  c_animal_id : JsVal;
  c_collar_id : JsVal;
  c_latitude : Num;
  c_longitude : Num;
  c_recorded_at : SqlVal;
  c_battery_level : JsVal;
  c_signal_quality : JsVal;
  c_temperature_celsius : JsVal;
  c_other : list (string * SqlVal)
}.

(** Payload of a 'location' event. *)
Record LocationEvent : Type := {
  ev_animal_id : JsVal;
  ev_collar_id : JsVal;
  ev_latitude : Num;
  ev_longitude : Num;
  ev_recorded_at : SqlVal;
  ev_battery_level : JsVal;
  ev_signal_quality : JsVal;
  ev_temperature_celsius : JsVal
}.

(** Body of the fence controllers. *)
Record FenceBody : Type := {
  name : JsVal;
  description : JsVal;
  center_latitude : JsVal;
  center_longitude : JsVal;
  radius_meters : JsVal;
  fence_type : JsVal;
  is_active : JsVal
}.

Record FenceRow : Type := {
  f_id : Z;
  f_farm_id : Z;
  f_name : JsVal;
  f_description : JsVal;
  f_center_latitude : JsVal;
  f_center_longitude : JsVal;
  f_radius_meters : JsVal;
  f_fence_type : JsVal;
  f_is_active : bool;
  f_created_by : Z
}.

(** Body of POST /settings/remote-config. *)
Record RemoteConfigBody : Type := {
  sensorThreshold : JsVal;
  soundEnabled : JsVal;
  lightsEnabled : JsVal;
  wifiSSID : JsVal;
  wifiPassword : JsVal;
  device_id : JsVal;
  expires_hours : JsVal
}.

Inductive CommandType : Type := control | wifi_update.

Inductive CommandStatus : Type := pending | delivered | acknowledged.

(** The object handed to [JSON.stringify] for the payload column. *)
Inductive CommandPayload : Type :=
| ControlPayload (sound lights : option bool)
| WifiPayload (ssid password : JsVal).

Record CommandRow : Type := {
  cmd_id : Z;
  cmd_device_id : JsVal;
  cmd_type : CommandType;
  cmd_payload : CommandPayload;
  cmd_expires_at : option Z;
  cmd_status : CommandStatus
}.

(** Payload of the device alert route (query string or body). *)
Record AlertPayload : Type := {
  a_farm_id : JsVal;
  a_animal_id : JsVal;
  a_collar_id : JsVal;
  a_fence_id : JsVal;
  a_alert_type : JsVal;
  a_alert : JsVal;
  a_severity : JsVal;
  a_title : JsVal;
  a_message : JsVal;
  a_distance : JsVal;
  a_motion : JsVal;
  a_alert_data : JsVal;
  a_lat : JsVal;
  a_location_latitude : JsVal;
  a_lon : JsVal;
  a_location_longitude : JsVal;
  a_triggered_at : JsVal;
  a_status : JsVal;
  a_auto_generated : JsVal
}.

(** The fourteen columns bound in alerts. *)
Record AlertCols : Type := {
  al_farm_id : Num;
  al_animal_id : JsVal;
  al_collar_id : JsVal;
  al_fence_id : JsVal;
  al_alert_type : string;
  al_severity : string;
  al_title : JsVal;
  al_message : JsVal;
  al_alert_data : JsVal;
  al_location_latitude : JsVal;
  al_location_longitude : JsVal;
  al_triggered_at : JsVal;
  al_status : string;
  al_auto_generated : Num
}.

Record AlertRow : Type := {
  al_id : Z;
  al_cols : AlertCols
}.

Record Mail : Type := {
  mail_to : JsVal;
  mail_subject : string;
  mail_text : string
}.

(** The statements the handlers pass to [executeQuery]. *)
Inductive Query : Type :=
| InsertLocation (cols : LocationCols)
| UpdateLocation (cols : LocationCols) (updateId : JsVal)
| UpsertCurrent (row : CurrentRow)
| UpsertRawCurrent (lat lon : Num) (now : SqlVal)
| InsertFence (row : FenceRow)
| InsertCommand (device : JsVal) (type : CommandType)
                (payload : CommandPayload) (expiresAt : option Z)
| UpdateSettings (assignments : list (string * JsVal))
| InsertAlert (cols : AlertCols).

Record OkPacket : Type := {
  insertId : Z;
  affectedRows : Z
}.

(** What [executeQuery] resolves to, as its callers read it. *)
Record QueryResult : Type := {
  success : bool;
  data : option OkPacket;
  error : JsVal
}.

Inductive ResponseData : Type :=
| NoData
| Inserted (cmds : list (CommandType * JsVal))
| FenceId (i : Z)
| SettingsEcho (threshold sound lights : JsVal).

Record Response : Type := {
  r_status : Z;
  r_success : bool;
  r_message : string;
  r_id : JsVal;
  r_error : JsVal;
  r_data : ResponseData
}.

Inductive LogLine : Type :=
| Warn (msg : string)
| Error (msg : string).

(** ** The datastore *)

Record Db : Type := {
  animal_locations : list HistoryRow;
  animal_locations_next : Z;
  current_locations : list CurrentRow;
  virtual_fences : list FenceRow;
  virtual_fences_next : Z;
  device_commands : list CommandRow;
  device_commands_next : Z;
  system_settings : list (list (string * SqlVal));
  alerts : list AlertRow;
  alerts_next : Z
}.

(** How one call of [executeQuery] goes: the statement runs, or the call
    resolves to [{ success: false, error }], or it rejects. *)
Inductive Fault : Type :=
| FOk
| FFail (msg : string)
| FThrow (msg : string).

Record Env : Type := {
  SMTP_USER : JsVal;
  SMTP_PASS : JsVal;
  ALERT_EMAIL_TO : JsVal
}.

(** Everything a handler can read or change.  [w_faults] lists, for the
    calls of [executeQuery] to come, the time each takes and how it ends;
    calls beyond the list succeed at once. *)
Record World : Type := {
  w_db : Db;
  w_now : Z;
  w_faults : list (Z * Fault);
  w_queries : list Query;
  w_console : list LogLine;
  w_emitted : list LocationEvent;
  w_listener_fault : option string;
  w_env : Env;
  w_smtp_fault : option string;
  w_outbox : list Mail
}.

Definition with_db (d : Db) (w : World) : World :=
  {| w_db := d; w_now := w_now w; w_faults := w_faults w;
     w_queries := w_queries w; w_console := w_console w;
     w_emitted := w_emitted w; w_listener_fault := w_listener_fault w;
     w_env := w_env w; w_smtp_fault := w_smtp_fault w;
     w_outbox := w_outbox w |}.

Definition with_console (c : list LogLine) (w : World) : World :=
  {| w_db := w_db w; w_now := w_now w; w_faults := w_faults w;
     w_queries := w_queries w; w_console := c;
     w_emitted := w_emitted w; w_listener_fault := w_listener_fault w;
     w_env := w_env w; w_smtp_fault := w_smtp_fault w;
     w_outbox := w_outbox w |}.

Definition with_emitted (e : list LocationEvent) (w : World) : World :=
  {| w_db := w_db w; w_now := w_now w; w_faults := w_faults w;
     w_queries := w_queries w; w_console := w_console w;
     w_emitted := e; w_listener_fault := w_listener_fault w;
     w_env := w_env w; w_smtp_fault := w_smtp_fault w;
     w_outbox := w_outbox w |}.

Definition with_outbox (o : list Mail) (w : World) : World :=
  {| w_db := w_db w; w_now := w_now w; w_faults := w_faults w;
     w_queries := w_queries w; w_console := w_console w;
     w_emitted := w_emitted w; w_listener_fault := w_listener_fault w;
     w_env := w_env w; w_smtp_fault := w_smtp_fault w;
     w_outbox := o |}.

(** The world once a call of [executeQuery] with statement [q] has been
    started and has taken its time. *)
Definition issued (q : Query) (w : World) : World :=
  {| w_db := w_db w;
     w_now := w_now w + Z.max 0 (fst (hd (0, FOk) (w_faults w)));
     w_faults := tl (w_faults w);
     w_queries := w_queries w ++ [q]; w_console := w_console w;
     w_emitted := w_emitted w; w_listener_fault := w_listener_fault w;
     w_env := w_env w; w_smtp_fault := w_smtp_fault w;
     w_outbox := w_outbox w |}.

Definition next_fault (w : World) : Fault := snd (hd (0, FOk) (w_faults w)).

Definition no_faults (w : World) : Prop :=
  Forall (fun p => snd p = FOk) (w_faults w).

(** ** The handler monad: state, and exceptions that keep the state *)

Inductive Outcome (A : Type) : Type :=
| Returned (a : A)
| Thrown (msg : string).
Arguments Returned {A} a.
Arguments Thrown {A} msg.

Definition M (A : Type) : Type := World -> Outcome A * World.

Definition ret {A} (a : A) : M A := fun w => (Returned a, w).

Definition bind {A B} (m : M A) (k : A -> M B) : M B :=
  fun w =>
    match m w with
    | (Returned a, w') => k a w'
    | (Thrown e, w') => (Thrown e, w')
    end.

Definition throw {A} (msg : string) : M A := fun w => (Thrown msg, w).

(** [try { m } catch (e) { h e }] *)
Definition try_catch {A} (m : M A) (h : string -> M A) : M A :=
  fun w =>
    match m w with
    | (Returned a, w') => (Returned a, w')
    | (Thrown e, w') => h e w'
    end.

Notation "x <- m ;; k" := (bind m (fun x => k))
  (at level 61, m at next level, right associativity).
Notation "m ;;; k" := (bind m (fun _ => k))
  (at level 61, right associativity).

Definition console_warn (msg : string) : M unit :=
  fun w => (Returned tt, with_console (w_console w ++ [Warn msg]) w).

Definition console_error (msg : string) : M unit :=
  fun w => (Returned tt, with_console (w_console w ++ [Error msg]) w).

(** [new Date()] *)
Definition new_Date : M SqlVal := fun w => (Returned (SDate (Some (w_now w))), w).

Definition get_now : M Z := fun w => (Returned (w_now w), w).

Definition getenv : M Env := fun w => (Returned (w_env w), w).

(** [gpsEmitter.emit('location', ev)]: listeners run synchronously, and one
    that throws makes [emit] throw. *)
Definition emit_location (ev : LocationEvent) : M unit :=
  fun w =>
    let w' := with_emitted (w_emitted w ++ [ev]) w in
    match w_listener_fault w with
    | None => (Returned tt, w')
    | Some e => (Thrown e, w')
    end.

(** [sendEmail]: resolves once the transport took the mail, or rejects. *)
Definition sendEmail (m : Mail) : M unit :=
  fun w =>
    match w_smtp_fault w with
    | None => (Returned tt, with_outbox (w_outbox w ++ [m]) w)
    | Some e => (Thrown e, w)
    end.

Definition respond (status : Z) (ok : bool) (msg : string) : Response :=
  {| r_status := status; r_success := ok; r_message := msg;
     r_id := JUndefined; r_error := JUndefined; r_data := NoData |}.

Definition with_id (i : JsVal) (r : Response) : Response :=
  {| r_status := r_status r; r_success := r_success r;
     r_message := r_message r; r_id := i; r_error := r_error r;
     r_data := r_data r |}.

Definition with_error (e : JsVal) (r : Response) : Response :=
  {| r_status := r_status r; r_success := r_success r;
     r_message := r_message r; r_id := r_id r; r_error := e;
     r_data := r_data r |}.

Definition with_data (d : ResponseData) (r : Response) : Response :=
  {| r_status := r_status r; r_success := r_success r;
     r_message := r_message r; r_id := r_id r; r_error := r_error r;
     r_data := d |}.

(** ** Concrete instances of the host conversions and of the table key *)

(** A reading of decimal digit strings, enough to run the handlers on
    concrete requests. *)
Fixpoint digits_value (acc : Z) (s : string) : option Z :=
  match s with
  | EmptyString => Some acc
  | String c rest =>
      let n := Z.of_nat (Ascii.nat_of_ascii c) in
      if andb (48 <=? n) (n <=? 57)
      then digits_value (10 * acc + (n - 48)) rest
      else None
  end.

Definition decimal_to_number (s : string) : Num :=
  match s with
  | EmptyString => Fin 0
  | _ => match digits_value 0 s with
         | Some z => Fin (inject_Z z)
         | None => NaN
         end
  end.

(** A rendering of numbers, enough to run the handlers on concrete
    requests: integers in decimal, other rationals as a quotient. *)
Definition integer_to_string (n : Num) : string :=
  match n with
  | NaN => "NaN"
  | Fin q =>
      let z := NilZero.string_of_int (Z.to_int (Qnum q)) in
      match Qden q with
      | xH => z
      | d => (z ++ "/" ++ NilZero.string_of_uint (Pos.to_uint d))%string
      end
  end.

(** current_locations keyed by the animal id, as the reserved row
    [animal_id = 0] of the raw feed suggests. *)
Definition animal_key (animal collar : JsVal) : option Z :=
  match animal with
  | JNum (Fin q) => Some (truncate q)
  | _ => None
  end.

Definition animal_key_eqb (a b : option Z) : bool :=
  match a, b with
  | Some x, Some y => Z.eqb x y
  | None, None => true
  | _, _ => false
  end.

(** ** Sample requests and worlds *)

Definition absent_gps : GpsBody :=
  {| latitude := JUndefined; longitude := JUndefined;
     animal_id := JUndefined; collar_id := JUndefined;
     altitude_meters := JUndefined; accuracy_meters := JUndefined;
     speed_kmh := JUndefined; heading_degrees := JUndefined;
     recorded_at := JUndefined; battery_level := JUndefined;
     signal_quality := JUndefined; temperature_celsius := JUndefined;
     update_id := JUndefined; id := JUndefined |}.

(** [{ latitude: 40.1, longitude: -73.9, animal_id: 7 }] *)
Definition report_7 : GpsBody :=
  {| latitude := JNum (Fin (401 # 10)); longitude := JNum (Fin (-739 # 10));
     animal_id := num 7; collar_id := JUndefined;
     altitude_meters := num 12; accuracy_meters := JUndefined;
     speed_kmh := JUndefined; heading_degrees := JUndefined;
     recorded_at := JUndefined; battery_level := num 80;
     signal_quality := JUndefined; temperature_celsius := JUndefined;
     update_id := JUndefined; id := JUndefined |}.

(** [{ latitude: 40.2, longitude: -73.9, animal_id: 7 }] *)
Definition report_7_moved : GpsBody :=
  {| latitude := JNum (Fin (402 # 10)); longitude := JNum (Fin (-739 # 10));
     animal_id := num 7; collar_id := JUndefined;
     altitude_meters := JUndefined; accuracy_meters := JUndefined;
     speed_kmh := JUndefined; heading_degrees := JUndefined;
     recorded_at := JUndefined; battery_level := JUndefined;
     signal_quality := JUndefined; temperature_celsius := JUndefined;
     update_id := JUndefined; id := JUndefined |}.

(** [{ latitude: 40.1, longitude: -73.9 }] *)
Definition raw_point : GpsBody :=
  {| latitude := JNum (Fin (401 # 10)); longitude := JNum (Fin (-739 # 10));
     animal_id := JUndefined; collar_id := JUndefined;
     altitude_meters := JUndefined; accuracy_meters := JUndefined;
     speed_kmh := JUndefined; heading_degrees := JUndefined;
     recorded_at := JUndefined; battery_level := JUndefined;
     signal_quality := JUndefined; temperature_celsius := JUndefined;
     update_id := JUndefined; id := JUndefined |}.

(** [{ update_id: 3, latitude: 40.2, longitude: -73.9, animal_id: 7 }] *)
Definition correction_3 : GpsBody :=
  {| latitude := JNum (Fin (402 # 10)); longitude := JNum (Fin (-739 # 10));
     animal_id := num 7; collar_id := JUndefined;
     altitude_meters := JUndefined; accuracy_meters := JUndefined;
     speed_kmh := JUndefined; heading_degrees := JUndefined;
     recorded_at := JUndefined; battery_level := JUndefined;
     signal_quality := JUndefined; temperature_celsius := JUndefined;
     update_id := num 3; id := JUndefined |}.

Definition no_cols : LocationCols :=
  {| l_animal_id := num 7; l_collar_id := JNull;
     l_latitude := Fin (400 # 10); l_longitude := Fin (-739 # 10);
     l_altitude_meters := JNull; l_accuracy_meters := JNull;
     l_speed_kmh := JNull; l_heading_degrees := JNull;
     l_recorded_at := SDate (Some 1699999000000);
     l_battery_level := JNull; l_signal_quality := JNull;
     l_temperature_celsius := JNull |}.

Definition empty_db : Db :=
  {| animal_locations := []; animal_locations_next := 1;
     current_locations := [];
     virtual_fences := []; virtual_fences_next := 1;
     device_commands := []; device_commands_next := 1;
     system_settings := [[("sensor_threshold", SJs (num 10))]];
     alerts := []; alerts_next := 1 |}.

(** A store whose animal_locations holds the row with id 3. *)
Definition db_with_row_3 : Db :=
  {| animal_locations := [{| h_id := 3; h_cols := no_cols |}];
     animal_locations_next := 4;
     current_locations := [];
     virtual_fences := []; virtual_fences_next := 1;
     device_commands := []; device_commands_next := 1;
     system_settings := [[("sensor_threshold", SJs (num 10))]];
     alerts := []; alerts_next := 1 |}.

Definition no_mail_env : Env :=
  {| SMTP_USER := JUndefined; SMTP_PASS := JUndefined;
     ALERT_EMAIL_TO := JUndefined |}.

Definition mail_env : Env :=
  {| SMTP_USER := JStr "farm@example.org"; SMTP_PASS := JStr "secret";
     ALERT_EMAIL_TO := JStr "owner@example.org" |}.

(** A world over [d] at a fixed time, whose calls of [executeQuery] go as
    [faults] says. *)
Definition world_of (d : Db) (faults : list (Z * Fault)) : World :=
  {| w_db := d; w_now := 1700000000000; w_faults := faults;
     w_queries := []; w_console := []; w_emitted := [];
     w_listener_fault := None; w_env := no_mail_env;
     w_smtp_fault := None; w_outbox := [] |}.

(** [{ name: "Equator paddock", center_latitude: 0, center_longitude: 30.1,
      radius_meters: 500 }] *)
Definition equator_fence : FenceBody :=
  {| name := JStr "Equator paddock"; description := JUndefined;
     center_latitude := num 0; center_longitude := JNum (Fin (301 # 10));
     radius_meters := num 500; fence_type := JUndefined;
     is_active := JUndefined |}.

(** [{ name: "North paddock", center_latitude: 40.1, center_longitude: -73.9,
      radius_meters: 500 }] *)
Definition north_fence : FenceBody :=
  {| name := JStr "North paddock"; description := JUndefined;
     center_latitude := JNum (Fin (401 # 10));
     center_longitude := JNum (Fin (-739 # 10));
     radius_meters := num 500; fence_type := JUndefined;
     is_active := JUndefined |}.

(** [{ soundEnabled: true, wifiSSID: "barn", wifiPassword: "hunter2" }],
    without device id. *)
Definition global_wifi_request : RemoteConfigBody :=
  {| sensorThreshold := JUndefined; soundEnabled := JBool true;
     lightsEnabled := JUndefined; wifiSSID := JStr "barn";
     wifiPassword := JStr "hunter2"; device_id := JUndefined;
     expires_hours := JUndefined |}.

(** [{ device_id: "collar-12", soundEnabled: true, lightsEnabled: false,
      wifiSSID: "barn", wifiPassword: "hunter2" }] *)
Definition device_request : RemoteConfigBody :=
  {| sensorThreshold := JUndefined; soundEnabled := JBool true;
     lightsEnabled := JBool false; wifiSSID := JStr "barn";
     wifiPassword := JStr "hunter2"; device_id := JStr "collar-12";
     expires_hours := JUndefined |}.

Fixpoint filler (n : nat) : string :=
  match n with
  | O => EmptyString
  | S n' => String (Ascii.ascii_of_nat 120) (filler n')
  end.

(** An alert whose type, severity and title all exceed the column sizes. *)
Definition long_alert : AlertPayload :=
  {| a_farm_id := JUndefined; a_animal_id := num 7;
     a_collar_id := JUndefined; a_fence_id := JUndefined;
     a_alert_type := JStr (filler 120); a_alert := JUndefined;
     a_severity := JStr (filler 40); a_title := JStr (filler 300);
     a_message := JUndefined; a_distance := num 12; a_motion := JUndefined;
     a_alert_data := JUndefined; a_lat := JUndefined;
     a_location_latitude := JUndefined; a_lon := JUndefined;
     a_location_longitude := JUndefined; a_triggered_at := JUndefined;
     a_status := JUndefined; a_auto_generated := JUndefined |}.

(** A world whose mail transport is configured and rejects every mail. *)
Definition world_with_broken_mail (d : Db) : World :=
  {| w_db := d; w_now := 1700000000000; w_faults := [];
     w_queries := []; w_console := []; w_emitted := [];
     w_listener_fault := None; w_env := mail_env;
     w_smtp_fault := Some "ECONNREFUSED"; w_outbox := [] |}.

(** A command for "collar-12" that expired at 1699999999999, in each state,
    and one that is still good. *)
Definition stale_command (st : CommandStatus) : CommandRow :=
  {| cmd_id := 4; cmd_device_id := JStr "collar-12"; cmd_type := control;
     cmd_payload := ControlPayload (Some true) None;
     cmd_expires_at := Some 1699999999999; cmd_status := st |}.

Definition fresh_command : CommandRow :=
  {| cmd_id := 5; cmd_device_id := JStr "collar-12"; cmd_type := control;
     cmd_payload := ControlPayload None (Some true);
     cmd_expires_at := Some 1700000360000; cmd_status := pending |}.


(** ** Further sample requests *)

(** [{ name: "Far north", center_latitude: 91, center_longitude: 30.1,
      radius_meters: 500 }] *)
Definition far_north_fence : FenceBody :=
  {| name := JStr "Far north"; description := JUndefined;
     center_latitude := num 91; center_longitude := JNum (Fin (301 # 10));
     radius_meters := num 500; fence_type := JUndefined;
     is_active := JUndefined |}.

(** [{ name: "Typo", center_latitude: "north", center_longitude: 30.1,
      radius_meters: 500, is_active: 0 }] *)
Definition typo_fence : FenceBody :=
  {| name := JStr "Typo"; description := JUndefined;
     center_latitude := JStr "north"; center_longitude := JNum (Fin (301 # 10));
     radius_meters := num 500; fence_type := JUndefined;
     is_active := num 0 |}.


(** [{ sensorThreshold: 35, soundEnabled: false }], without device id. *)
Definition settings_request : RemoteConfigBody :=
  {| sensorThreshold := num 35; soundEnabled := JBool false;
     lightsEnabled := JUndefined; wifiSSID := JUndefined;
     wifiPassword := JUndefined; device_id := JUndefined;
     expires_hours := JUndefined |}.

(** [{ wifiSSID: "barn", wifiPassword: "hunter2", device_id: 0 }] *)
Definition wifi_device_zero : RemoteConfigBody :=
  {| sensorThreshold := JUndefined; soundEnabled := JUndefined;
     lightsEnabled := JUndefined; wifiSSID := JStr "barn";
     wifiPassword := JStr "hunter2"; device_id := num 0;
     expires_hours := JUndefined |}.

(** [global_wifi_request] without its wifi fields. *)
Definition global_sound_request : RemoteConfigBody :=
  {| sensorThreshold := JUndefined; soundEnabled := JBool true;
     lightsEnabled := JUndefined; wifiSSID := JUndefined;
     wifiPassword := JUndefined; device_id := JUndefined;
     expires_hours := JUndefined |}.

(** ** Requests as the authentication middleware sees them *)

(** The user object of a session or of a token payload. *)
Record User : Type := {
  user_id : JsVal;
  user_email : JsVal;
  user_role : JsVal;
  user_name : JsVal
}.

(** [req.session.user] when there is a session with a user, and the
    Authorization header when the request has one. *)
Record AuthRequest : Type := {
  session_user : option User;
  authorization : option string
}.

(** The variables of [process.env] the middleware and the protected
    controllers read. *)
Record ProcessEnv : Type := {
  NODE_ENV : JsVal;
  DEV_AUTH_BYPASS : JsVal;
  DEV_ALLOW_PUBLIC_DASHBOARD : JsVal;
  DEV_ALLOW_TRUNCATE : JsVal;
  JWT_SECRET : JsVal
}.

(** What a middleware does with a request: it calls [next()], with
    [req.user] set or not, or it answers itself. *)
Inductive AuthResult : Type :=
| Next (user : option User)
| Reject (r : Response).

Definition TEMP_DISABLE_AUTH : bool := false.

Definition space : Ascii.ascii := Ascii.ascii_of_nat 32.

(** What follows the first space of [s], if there is one. *)
Fixpoint after_space (s : string) : option string :=
  match s with
  | EmptyString => None
  | String c rest =>
      if Ascii.eqb c space then Some rest else after_space rest
  end.

(** [s] up to its first space. *)
Fixpoint until_space (s : string) : string :=
  match s with
  | EmptyString => EmptyString
  | String c rest =>
      if Ascii.eqb c space then EmptyString else String c (until_space rest)
  end.

(** [s.split(' ')[1]] *)
Definition second_word (s : string) : option string :=
  option_map until_space (after_space s).

(** [s] holds no space. *)
Fixpoint no_space (s : string) : bool :=
  match s with
  | EmptyString => true
  | String c rest => negb (Ascii.eqb c space) && no_space rest
  end.

(** [authHeader && authHeader.split(' ')[1]]: [None] is undefined. *)
Definition token_of (authHeader : option string) : option string :=
  match authHeader with
  | None => None
  | Some EmptyString => Some EmptyString
  | Some h => second_word h
  end.

(** [!token] *)
Definition no_token (token : option string) : bool :=
  match token with
  | None => true
  | Some t => String.eqb t ""
  end.

(** [v === s] for a string literal [s]. *)
Definition is_string (s : string) (v : JsVal) : bool :=
  match v with
  | JStr x => String.eqb x s
  | _ => false
  end.

Definition dev_user (name : string) : User :=
  {| user_id := num 1; user_email := JStr "dev@localhost";
     user_role := JStr "viewer"; user_name := JStr name |}.

(** ** Sample users, requests and environments *)

Definition admin_user : User :=
  {| user_id := num 2; user_email := JStr "owner@example.org";
     user_role := JStr "admin"; user_name := JStr "Owner" |}.

Definition production_env : ProcessEnv :=
  {| NODE_ENV := JStr "production"; DEV_AUTH_BYPASS := JStr "true";
     DEV_ALLOW_PUBLIC_DASHBOARD := JStr "true";
     DEV_ALLOW_TRUNCATE := JUndefined; JWT_SECRET := JStr "s3cret" |}.

Definition dev_env : ProcessEnv :=
  {| NODE_ENV := JStr "development"; DEV_AUTH_BYPASS := JStr "true";
     DEV_ALLOW_PUBLIC_DASHBOARD := JUndefined;
     DEV_ALLOW_TRUNCATE := JUndefined; JWT_SECRET := JStr "s3cret" |}.

(** A verifier that accepts the one token "good" as the admin's. *)
Definition sample_verify (token : string) (secret : JsVal) : option User :=
  if String.eqb token "good" then Some admin_user else None.

Definition bearer_good : AuthRequest :=
  {| session_user := None; authorization := Some "Bearer good" |}.

Definition anonymous : AuthRequest :=
  {| session_user := None; authorization := None |}.

(** ** The tables of the device-control and alert-lifecycle routes *)

(** The columns of alerts that record who acknowledged and who resolved an
    alert, and when; they are kept by alert id beside the rows the alert
    route inserts.  An alert without an entry has them all NULL. *)
Record AlertMark : Type := {
  mark_id : Z;
  acknowledged_at : SqlVal;
  acknowledged_by : JsVal;
  resolved_at : SqlVal;
  resolved_by : JsVal
}.

(** The columns of animals that the location routes read. *)
Record AnimalRow : Type := {
  an_id : Z;
  an_name : JsVal;
  an_tag_number : JsVal
}.

(** The world together with the device_controls table (control_key,
    control_value), the acknowledgement columns of alerts and the animals
    table. *)
Record Site : Type := {
  site_world : World;
  device_controls : list (string * JsVal);
  alert_marks : list AlertMark;
  animals : list AnimalRow
}.

(** [{ success, state }] or [{ success, message }] of the control routes. *)
Record ControlResponse : Type := {
  cr_status : Z;
  cr_success : bool;
  cr_state : option string;
  cr_message : option string
}.

(** The statements of the control and alert-lifecycle routes. *)
Inductive Statement : Type :=
| SelectSystemEnabled
| CreateDeviceControls
| UpsertSystemEnabled (state : string)
| TruncateAlerts
| DeleteAlerts
| SelectAlert (alert : JsVal)
| AcknowledgeAlert (by_user alert : JsVal)
| ResolveAlert (by_user alert : JsVal)
| SelectFence (fence : JsVal) (farm : Z)
| UpdateFence (name description latitude longitude radius type : JsVal)
              (active : bool) (fence : JsVal) (farm : Z)
| DeleteFence (fence : JsVal) (farm : Z)
| SelectAnimal (animal : JsVal).

(** What [executeQuery] resolves to for them: [data] is the list of rows of
    a SELECT, one value per row. *)
Record StatementResult : Type := {
  st_success : bool;
  st_rows : list JsVal;
  st_error : JsVal
}.

Definition blank_mark (i : Z) : AlertMark :=
  {| mark_id := i; acknowledged_at := SJs JNull; acknowledged_by := JNull;
     resolved_at := SJs JNull; resolved_by := JNull |}.

Definition mark_of (i : Z) (marks : list AlertMark) : AlertMark :=
  match find (fun m => mark_id m =? i) marks with
  | Some m => m
  | None => blank_mark i
  end.

Definition put_mark (m : AlertMark) (marks : list AlertMark) : list AlertMark :=
  m :: filter (fun x => negb (mark_id x =? mark_id m)) marks.

Definition acknowledged_mark (now : Z) (by_user : JsVal) (m : AlertMark) : AlertMark :=
  {| mark_id := mark_id m; acknowledged_at := SDate (Some now);
     acknowledged_by := by_user;
     resolved_at := resolved_at m; resolved_by := resolved_by m |}.

Definition resolved_mark (now : Z) (by_user : JsVal) (m : AlertMark) : AlertMark :=
  {| mark_id := mark_id m; acknowledged_at := acknowledged_at m;
     acknowledged_by := acknowledged_by m;
     resolved_at := SDate (Some now); resolved_by := by_user |}.

(** [SET status = st] on a row of alerts. *)
Definition with_status (st : string) (r : AlertRow) : AlertRow :=
  {| al_id := al_id r;
     al_cols :=
       {| al_farm_id := al_farm_id (al_cols r);
          al_animal_id := al_animal_id (al_cols r);
          al_collar_id := al_collar_id (al_cols r);
          al_fence_id := al_fence_id (al_cols r);
          al_alert_type := al_alert_type (al_cols r);
          al_severity := al_severity (al_cols r);
          al_title := al_title (al_cols r);
          al_message := al_message (al_cols r);
          al_alert_data := al_alert_data (al_cols r);
          al_location_latitude := al_location_latitude (al_cols r);
          al_location_longitude := al_location_longitude (al_cols r);
          al_triggered_at := al_triggered_at (al_cols r);
          al_status := st;
          al_auto_generated := al_auto_generated (al_cols r) |} |}.

(** Folding the letters A to Z to lower case.  [toLowerCase] of the host
    folds further letters, none of them to a letter of "off", which is all
    the routes compare the result with. *)
Definition lower_char (c : Ascii.ascii) : Ascii.ascii :=
  let n := Ascii.nat_of_ascii c in
  if (Nat.leb 65 n && Nat.leb n 90)%bool then Ascii.ascii_of_nat (n + 32) else c.

Fixpoint toLowerCase (s : string) : string :=
  match s with
  | EmptyString => EmptyString
  | String c rest => String (lower_char c) (toLowerCase rest)
  end.

(** INSERT ... ON DUPLICATE KEY UPDATE on the unique control_key. *)
Fixpoint upsert_control (key : string) (v : JsVal) (rows : list (string * JsVal))
  : list (string * JsVal) :=
  match rows with
  | [] => [(key, v)]
  | (k, x) :: rest =>
      if String.eqb k key then (k, v) :: rest
      else (k, x) :: upsert_control key v rest
  end.

(** SELECT control_value ... WHERE control_key = key LIMIT 1 *)
Definition select_control (key : string) (rows : list (string * JsVal)) : list JsVal :=
  firstn 1 (map snd (filter (fun kv => String.eqb (fst kv) key) rows)).

Definition with_world (w : World) (s : Site) : Site :=
  {| site_world := w; device_controls := device_controls s;
     alert_marks := alert_marks s; animals := animals s |}.

(** The world once a call of [executeQuery] has been started and has taken
    its time. *)
Definition elapsed (w : World) : World :=
  {| w_db := w_db w;
     w_now := w_now w + Z.max 0 (fst (hd (0, FOk) (w_faults w)));
     w_faults := tl (w_faults w);
     w_queries := w_queries w; w_console := w_console w;
     w_emitted := w_emitted w; w_listener_fault := w_listener_fault w;
     w_env := w_env w; w_smtp_fault := w_smtp_fault w;
     w_outbox := w_outbox w |}.

(** ** The handler monad over a site *)

Definition MS (A : Type) : Type := Site -> Outcome A * Site.

Definition retS {A} (a : A) : MS A := fun s => (Returned a, s).

Definition bindS {A B} (m : MS A) (k : A -> MS B) : MS B :=
  fun s =>
    match m s with
    | (Returned a, s') => k a s'
    | (Thrown e, s') => (Thrown e, s')
    end.

Definition try_catchS {A} (m : MS A) (h : string -> MS A) : MS A :=
  fun s =>
    match m s with
    | (Returned a, s') => (Returned a, s')
    | (Thrown e, s') => h e s'
    end.

(** A handler of the world run on the world of a site. *)
Definition liftS {A} (m : M A) : MS A :=
  fun s =>
    match m (site_world s) with
    | (o, w') => (o, with_world w' s)
    end.

Notation "x <<- m ;; k" := (bindS m (fun x => k))
  (at level 61, m at next level, right associativity).
Notation "m ;;;; k" := (bindS m (fun _ => k))
  (at level 61, right associativity).

Definition control_response (status : Z) (ok : bool) (state : option string)
           (message : option string) : ControlResponse :=
  {| cr_status := status; cr_success := ok; cr_state := state;
     cr_message := message |}.

(** ** Sample sites *)

Definition site_of (w : World) : Site :=
  {| site_world := w; device_controls := []; alert_marks := [];
     animals := [] |}.

Definition sample_alert_cols (st : string) : AlertCols :=
  {| al_farm_id := Fin 1; al_animal_id := num 7; al_collar_id := JNull;
     al_fence_id := JNull; al_alert_type := "device"; al_severity := "medium";
     al_title := JStr "Device Alert"; al_message := JStr "distance=12 motion=";
     al_alert_data := JNull; al_location_latitude := JNull;
     al_location_longitude := JNull; al_triggered_at := JNull;
     al_status := st; al_auto_generated := Fin 1 |}.

(** A store holding the resolved alert 5 and the active alert 6. *)
Definition db_with_alerts : Db :=
  {| animal_locations := []; animal_locations_next := 1;
     current_locations := [];
     virtual_fences := []; virtual_fences_next := 1;
     device_commands := []; device_commands_next := 1;
     system_settings := [];
     alerts := [{| al_id := 5; al_cols := sample_alert_cols "resolved" |};
                {| al_id := 6; al_cols := sample_alert_cols "active" |}];
     alerts_next := 7 |}.

(** ** The current-position lookup *)

(** A row of the SELECT of GET /gps/current and GET /gps/markers: seven
    columns of current_locations and two of the joined animals row, NULL
    when no animal is joined. *)
Record MarkerRow : Type := {
  m_animal_id : JsVal;
  m_collar_id : JsVal;
  m_latitude : Num;
  m_longitude : Num;
  m_recorded_at : SqlVal;
  m_battery_level : JsVal;
  m_signal_quality : JsVal;
  m_animal_name : JsVal;
  m_tag_number : JsVal
}.

(** The three endings of the WHERE clause of GET /gps/current. *)
Inductive CurrentFilter : Type :=
| ByAnimal (animal : JsVal)
| ByCollar (collar : JsVal)
| RawRow.

(** What [executeQuery] resolves to for that SELECT. *)
Record MarkerResult : Type := {
  mk_success : bool;
  mk_rows : list MarkerRow;
  mk_error : JsVal
}.

(** [{ success, data }] or [{ success, message, error }] of GET
    /gps/current; [cu_data = None] is [data: null]. *)
Record CurrentResponse : Type := {
  cu_status : Z;
  cu_success : bool;
  cu_data : option MarkerRow;
  cu_message : option string;
  cu_error : JsVal
}.

Definition marker (r : CurrentRow) (animal_name tag_number : JsVal) : MarkerRow :=
  {| m_animal_id := c_animal_id r; m_collar_id := c_collar_id r;
     m_latitude := c_latitude r; m_longitude := c_longitude r;
     m_recorded_at := c_recorded_at r;
     m_battery_level := c_battery_level r;
     m_signal_quality := c_signal_quality r;
     m_animal_name := animal_name; m_tag_number := tag_number |}.

(** ** Further sample data *)

Definition cow_7 : AnimalRow :=
  {| an_id := 7; an_name := JStr "Bella"; an_tag_number := JStr "RW-0007" |}.

(** [{ latitude: 0, longitude: 30.1 }], a point on the equator. *)
Definition equator_point : GpsBody :=
  {| latitude := num 0; longitude := JNum (Fin (301 # 10));
     animal_id := JUndefined; collar_id := JUndefined;
     altitude_meters := JUndefined; accuracy_meters := JUndefined;
     speed_kmh := JUndefined; heading_degrees := JUndefined;
     recorded_at := JUndefined; battery_level := JUndefined;
     signal_quality := JUndefined; temperature_celsius := JUndefined;
     update_id := JUndefined; id := JUndefined |}.

(** A site whose animals table holds animal 7. *)
Definition farm_of (w : World) : Site :=
  {| site_world := w; device_controls := []; alert_marks := [];
     animals := [cow_7] |}.

(** [{ update_id: 3, longitude: -73.9, animal_id: 7 }], a correction that
    leaves out the latitude. *)
Definition correction_3_no_latitude : GpsBody :=
  {| latitude := JUndefined; longitude := JNum (Fin (-739 # 10));
     animal_id := num 7; collar_id := JUndefined;
     altitude_meters := JUndefined; accuracy_meters := JUndefined;
     speed_kmh := JUndefined; heading_degrees := JUndefined;
     recorded_at := JUndefined; battery_level := JUndefined;
     signal_quality := JUndefined; temperature_celsius := JUndefined;
     update_id := num 3; id := JUndefined |}.

(** The current row of an animal at latitude 40.0. *)
Definition current_row (animal : Z) : CurrentRow :=
  {| c_animal_id := num animal; c_collar_id := JNull;
     c_latitude := Fin (400 # 10); c_longitude := Fin (-739 # 10);
     c_recorded_at := SDate (Some 1699999000000);
     c_battery_level := JNull; c_signal_quality := JNull;
     c_temperature_celsius := JNull; c_other := [] |}.

(** A store whose current_locations holds animals 9 and 7 and whose
    virtual_fences holds fence 2 of farm 1 and fence 3 of farm 4. *)
Definition stocked_db : Db :=
  {| animal_locations := [{| h_id := 3; h_cols := no_cols |}];
     animal_locations_next := 4;
     current_locations := [current_row 9; current_row 7];
     virtual_fences :=
       [{| f_id := 2; f_farm_id := 1; f_name := JStr "South paddock";
           f_description := JStr "by the river";
           f_center_latitude := num 40; f_center_longitude := num (-74);
           f_radius_meters := num 200; f_fence_type := JStr "grazing";
           f_is_active := true; f_created_by := 5 |};
        {| f_id := 3; f_farm_id := 4; f_name := JStr "Neighbour";
           f_description := JNull;
           f_center_latitude := num 41; f_center_longitude := num (-74);
           f_radius_meters := num 300; f_fence_type := JStr "custom";
           f_is_active := true; f_created_by := 6 |}];
     virtual_fences_next := 4;
     device_commands := []; device_commands_next := 1;
     system_settings := [[("sensor_threshold", SJs (num 10))]];
     alerts := []; alerts_next := 1 |}.

(** A world whose mail transport is configured and takes every mail. *)
Definition world_with_mail (d : Db) (faults : list (Z * Fault)) : World :=
  {| w_db := d; w_now := 1700000000000; w_faults := faults;
     w_queries := []; w_console := []; w_emitted := [];
     w_listener_fault := None; w_env := mail_env;
     w_smtp_fault := None; w_outbox := [] |}.

(** Collar ids compared as text. *)
Definition same_text (a b : JsVal) : bool :=
  match a, b with
  | JStr x, JStr y => String.eqb x y
  | _, _ => false
  end.

(** ** Alert payloads whose title is an array *)

(** What a JSON body may hold under [alert] or [title]: a primitive, or an
    array of primitives.  Objects and nested arrays are left out. *)
Inductive TitleField : Type :=
| Plain (v : JsVal)
| Items (elements : list JsVal).

(** [{ animal_id: 7, severity: "high" }], to which a title is added. *)
Definition untitled_alert : AlertPayload :=
  {| a_farm_id := JUndefined; a_animal_id := num 7;
     a_collar_id := JUndefined; a_fence_id := JUndefined;
     a_alert_type := JUndefined; a_alert := JUndefined;
     a_severity := JStr "high"; a_title := JUndefined;
     a_message := JUndefined; a_distance := JUndefined; a_motion := JUndefined;
     a_alert_data := JUndefined; a_lat := JUndefined;
     a_location_latitude := JUndefined; a_lon := JUndefined;
     a_location_longitude := JUndefined; a_triggered_at := JUndefined;
     a_status := JUndefined; a_auto_generated := JUndefined |}.
Section Backend.

(** The host's conversions between strings and numbers (StringToNumber and
    Number::toString of the language); the handlers only call them. *)
Variable StringToNumber : string -> Num.
Variable NumberToString : Num -> string.

(** Modelled from the spec: the unique key of current_locations.  The schema
    is not among the sources; the spec keys a CurrentRecord by its entity key,
    the animal or collar identity of the row, and has exactly one row per
    key.  The key is any function of the two identity columns. *)
Variable Key : Type.
Variable entityKey : JsVal -> JsVal -> Key.
Variable key_eqb : Key -> Key -> bool.
Hypothesis key_eqb_eq : forall a b, key_eqb a b = true <-> a = b.

(** ToNumber, which [Number(v)], [v < n] and [v * n] apply to [v]. *)
Definition to_Number (v : JsVal) : Num :=
  match v with
  | JUndefined => NaN
  | JNull => Fin 0
  | JBool b => Fin (if b then 1 else 0)
  | JNum n => n
  | JStr s => StringToNumber s
  end.

(** ToString, which [String(v)] and template literals apply to [v]. *)
Definition to_String (v : JsVal) : string :=
  match v with
  | JUndefined => "undefined"
  | JNull => "null"
  | JBool b => if b then "true" else "false"
  | JNum n => NumberToString n
  | JStr s => s
  end.

(** [v < n] and [v > n] against a numeric literal. *)
Definition js_lt (v : JsVal) (n : Q) : bool := num_lt (to_Number v) (Fin n).
Definition js_gt (v : JsVal) (n : Q) : bool := num_lt (Fin n) (to_Number v).

(** [WHERE id = ?]: the parameter compared with an integer id as a number. *)
Definition sql_id_matches (rid : Z) (v : JsVal) : bool :=
  match to_Number v with
  | Fin q => Qeq_bool q (inject_Z rid)
  | NaN => false
  end.

Definition row_key (r : CurrentRow) : Key :=
  entityKey (c_animal_id r) (c_collar_id r).

(** ON DUPLICATE KEY UPDATE of the entity upsert: six columns take the new
    values, the rest of the stored row stays. *)
Definition overwrite_position (new old : CurrentRow) : CurrentRow :=
  {| c_animal_id := c_animal_id old;
     c_collar_id := c_collar_id old;
     c_latitude := c_latitude new;
     c_longitude := c_longitude new;
     c_recorded_at := c_recorded_at new;
     c_battery_level := c_battery_level new;
     c_signal_quality := c_signal_quality new;
     c_temperature_celsius := c_temperature_celsius new;
     c_other := c_other old |}.

(** ON DUPLICATE KEY UPDATE of the raw upsert: three columns. *)
Definition overwrite_raw (new old : CurrentRow) : CurrentRow :=
  {| c_animal_id := c_animal_id old;
     c_collar_id := c_collar_id old;
     c_latitude := c_latitude new;
     c_longitude := c_longitude new;
     c_recorded_at := c_recorded_at new;
     c_battery_level := c_battery_level old;
     c_signal_quality := c_signal_quality old;
     c_temperature_celsius := c_temperature_celsius old;
     c_other := c_other old |}.

(** INSERT ... ON DUPLICATE KEY UPDATE: the row with the key of [new] is
    rewritten by [assign], and [new] is added when there is none. *)
Fixpoint upsert (assign : CurrentRow -> CurrentRow -> CurrentRow)
         (new : CurrentRow) (rows : list CurrentRow) : list CurrentRow :=
  match rows with
  | [] => [new]
  | r :: rest =>
      if key_eqb (row_key r) (row_key new)
      then assign new r :: rest
      else r :: upsert assign new rest
  end.

(** The row VALUES (0, NULL, ?, ?, ?) of the raw upsert. *)
Definition raw_row (lat lon : Num) (now : SqlVal) : CurrentRow :=
  {| c_animal_id := num 0;
     c_collar_id := JNull;
     c_latitude := lat;
     c_longitude := lon;
     c_recorded_at := now;
     c_battery_level := JNull;
     c_signal_quality := JNull;
     c_temperature_celsius := JNull;
     c_other := [] |}.

Fixpoint set_column (c : string) (v : SqlVal) (row : list (string * SqlVal))
  : list (string * SqlVal) :=
  match row with
  | [] => [(c, v)]
  | (c', v') :: rest =>
      if String.eqb c' c then (c, v) :: rest
      else (c', v') :: set_column c v rest
  end.

Definition assign_columns (asg : list (string * JsVal))
           (row : list (string * SqlVal)) : list (string * SqlVal) :=
  fold_left (fun r cv => set_column (fst cv) (SJs (snd cv)) r) asg row.

Definition set_locations (rows : list HistoryRow) (next : Z) (d : Db) : Db :=
  {| animal_locations := rows; animal_locations_next := next;
     current_locations := current_locations d;
     virtual_fences := virtual_fences d;
     virtual_fences_next := virtual_fences_next d;
     device_commands := device_commands d;
     device_commands_next := device_commands_next d;
     system_settings := system_settings d;
     alerts := alerts d; alerts_next := alerts_next d |}.

Definition set_current (rows : list CurrentRow) (d : Db) : Db :=
  {| animal_locations := animal_locations d;
     animal_locations_next := animal_locations_next d;
     current_locations := rows;
     virtual_fences := virtual_fences d;
     virtual_fences_next := virtual_fences_next d;
     device_commands := device_commands d;
     device_commands_next := device_commands_next d;
     system_settings := system_settings d;
     alerts := alerts d; alerts_next := alerts_next d |}.

Definition set_fences (rows : list FenceRow) (next : Z) (d : Db) : Db :=
  {| animal_locations := animal_locations d;
     animal_locations_next := animal_locations_next d;
     current_locations := current_locations d;
     virtual_fences := rows;
     virtual_fences_next := next;
     device_commands := device_commands d;
     device_commands_next := device_commands_next d;
     system_settings := system_settings d;
     alerts := alerts d; alerts_next := alerts_next d |}.

Definition set_commands (rows : list CommandRow) (next : Z) (d : Db) : Db :=
  {| animal_locations := animal_locations d;
     animal_locations_next := animal_locations_next d;
     current_locations := current_locations d;
     virtual_fences := virtual_fences d;
     virtual_fences_next := virtual_fences_next d;
     device_commands := rows;
     device_commands_next := next;
     system_settings := system_settings d;
     alerts := alerts d; alerts_next := alerts_next d |}.

Definition set_settings (rows : list (list (string * SqlVal))) (d : Db) : Db :=
  {| animal_locations := animal_locations d;
     animal_locations_next := animal_locations_next d;
     current_locations := current_locations d;
     virtual_fences := virtual_fences d;
     virtual_fences_next := virtual_fences_next d;
     device_commands := device_commands d;
     device_commands_next := device_commands_next d;
     system_settings := rows;
     alerts := alerts d; alerts_next := alerts_next d |}.

Definition set_alerts (rows : list AlertRow) (next : Z) (d : Db) : Db :=
  {| animal_locations := animal_locations d;
     animal_locations_next := animal_locations_next d;
     current_locations := current_locations d;
     virtual_fences := virtual_fences d;
     virtual_fences_next := virtual_fences_next d;
     device_commands := device_commands d;
     device_commands_next := device_commands_next d;
     system_settings := system_settings d;
     alerts := rows; alerts_next := next |}.

(** UPDATE animal_locations SET ... WHERE id = ?: every row the parameter
    addresses gets the bound columns and keeps its id. *)
Definition update_rows (uid : JsVal) (cols : LocationCols)
           (rows : list HistoryRow) : list HistoryRow :=
  map (fun r => if sql_id_matches (h_id r) uid
                then {| h_id := h_id r; h_cols := cols |} else r)
      rows.

Definition packet (i n : Z) : OkPacket := {| insertId := i; affectedRows := n |}.

(** Modelled from the spec: the default of the status column of
    device_commands.  The schema is not among the sources and the INSERT does
    not name the column; by the spec a Command is created in [pending]
    state. *)
Definition default_command_status : CommandStatus := pending.

(** What each statement does to the tables when it runs. *)
Definition run_query (q : Query) (now : Z) (d : Db) : OkPacket * Db :=
  match q with
  | InsertLocation cols =>
      let i := animal_locations_next d in
      (packet i 1,
       set_locations (animal_locations d ++ [{| h_id := i; h_cols := cols |}])
                     (i + 1) d)
  | UpdateLocation cols uid =>
      let hit r := sql_id_matches (h_id r) uid in
      (packet 0 (Z.of_nat (length (filter hit (animal_locations d)))),
       set_locations (update_rows uid cols (animal_locations d))
                     (animal_locations_next d) d)
  | UpsertCurrent row =>
      (packet 0 1,
       set_current (upsert overwrite_position row (current_locations d)) d)
  | UpsertRawCurrent lat lon t =>
      (packet 0 1,
       set_current (upsert overwrite_raw (raw_row lat lon t) (current_locations d)) d)
  | InsertFence row =>
      let i := virtual_fences_next d in
      (packet i 1,
       set_fences
         (virtual_fences d ++
          [{| f_id := i; f_farm_id := f_farm_id row; f_name := f_name row;
              f_description := f_description row;
              f_center_latitude := f_center_latitude row;
              f_center_longitude := f_center_longitude row;
              f_radius_meters := f_radius_meters row;
              f_fence_type := f_fence_type row;
              f_is_active := f_is_active row;
              f_created_by := f_created_by row |}])
         (i + 1) d)
  | InsertCommand dev ty payload expires =>
      let i := device_commands_next d in
      (packet i 1,
       set_commands
         (device_commands d ++
          [{| cmd_id := i; cmd_device_id := dev; cmd_type := ty;
              cmd_payload := payload; cmd_expires_at := expires;
              cmd_status := default_command_status |}])
         (i + 1) d)
  | UpdateSettings asg =>
      (packet 0 (Z.of_nat (length (system_settings d))),
       set_settings
         (map (fun row =>
                 set_column "updated_at" (SDate (Some now)) (assign_columns asg row))
              (system_settings d))
         d)
  | InsertAlert cols =>
      let i := alerts_next d in
      (packet i 1,
       set_alerts (alerts d ++ [{| al_id := i; al_cols := cols |}]) (i + 1) d)
  end.

(** [executeQuery] of the database module.  The module is not among the
    sources, so how a call ends is an input of the model, read from
    [w_faults]: the handlers read [success], [data] and [error] of what the
    call resolves to and also guard it with try/catch, hence a call either
    runs its statement, or resolves to a failure, or rejects.  A failed
    statement changes no table. *)
Definition executeQuery (q : Query) : M QueryResult :=
  fun w =>
    let w1 := issued q w in
    match next_fault w with
    | FOk =>
        let (pkt, d) := run_query q (w_now w1) (w_db w1) in
        (Returned {| success := true; data := Some pkt; error := JUndefined |},
         with_db d w1)
    | FFail e =>
        (Returned {| success := false; data := None; error := JStr e |}, w1)
    | FThrow e => (Thrown e, w1)
    end.

(** [recorded_at ? recorded_at : new Date()] *)
Definition recorded_or_now (recorded_at : JsVal) : M SqlVal :=
  if truthy recorded_at then ret (SJs recorded_at) else new_Date.

(** ** POST /gps *)

Definition post_gps (b : GpsBody) : M Response :=
  try_catch
    (let latitude := latitude b in
     let longitude := longitude b in
     let animal_id := default_null (animal_id b) in
     let collar_id := default_null (collar_id b) in
     let altitude_meters := default_null (altitude_meters b) in
     let accuracy_meters := default_null (accuracy_meters b) in
     let speed_kmh := default_null (speed_kmh b) in
     let heading_degrees := default_null (heading_degrees b) in
     let recorded_at := default_null (recorded_at b) in
     let battery_level := default_null (battery_level b) in
     let signal_quality := default_null (signal_quality b) in
     let temperature_celsius := default_null (temperature_celsius b) in
     let location_cols (t : SqlVal) : LocationCols :=
       {| l_animal_id := animal_id; l_collar_id := collar_id;
          l_latitude := to_Number latitude; l_longitude := to_Number longitude;
          l_altitude_meters := altitude_meters;
          l_accuracy_meters := accuracy_meters;
          l_speed_kmh := speed_kmh; l_heading_degrees := heading_degrees;
          l_recorded_at := t; l_battery_level := battery_level;
          l_signal_quality := signal_quality;
          l_temperature_celsius := temperature_celsius |} in
     let upsert_row (t : SqlVal) : CurrentRow :=
       {| c_animal_id := animal_id; c_collar_id := collar_id;
          c_latitude := to_Number latitude; c_longitude := to_Number longitude;
          c_recorded_at := t; c_battery_level := battery_level;
          c_signal_quality := signal_quality;
          c_temperature_celsius := temperature_celsius;
          c_other := [] |} in
     let event (t : SqlVal) : LocationEvent :=
       {| ev_animal_id := animal_id; ev_collar_id := collar_id;
          ev_latitude := to_Number latitude; ev_longitude := to_Number longitude;
          ev_recorded_at := t; ev_battery_level := battery_level;
          ev_signal_quality := signal_quality;
          ev_temperature_celsius := temperature_celsius |} in
     let updateId := js_or (js_or (update_id b) (id b)) JNull in
     if truthy updateId then
       t <- recorded_or_now recorded_at ;;
       updateRes <- executeQuery (UpdateLocation (location_cols t) updateId) ;;
       if negb (success updateRes) then
         ret (with_error (error updateRes)
                (respond 500 false "Failed to update animal_locations"))
       else
         try_catch
           (t' <- recorded_or_now recorded_at ;;
            _ <- executeQuery (UpsertCurrent (upsert_row t')) ;;
            try_catch
              (emit_location (event t'))
              (fun emitErr =>
                 console_warn "Failed to emit gps location event after update:"))
           (fun upErr =>
              console_warn "Failed to upsert current_locations after gps update:") ;;;
         ret (with_id updateId (respond 200 true "GPS record updated"))
     else if loose_null latitude || loose_null longitude then
       ret (respond 400 false "Missing coordinates")
     else if truthy animal_id || truthy collar_id then
       t <- recorded_or_now recorded_at ;;
       result <- executeQuery (InsertLocation (location_cols t)) ;;
       if negb (success result) then
         ret (with_error (error result) (respond 500 false "Database error"))
       else
         try_catch
           (t' <- recorded_or_now recorded_at ;;
            _ <- executeQuery (UpsertCurrent (upsert_row t')) ;;
            try_catch
              (emit_location (event t'))
              (fun emitErr =>
                 console_warn "Failed to emit gps location event:"))
           (fun upErr =>
              console_warn "Failed to upsert current_locations:") ;;;
         (* [result.insertId || null]: the resolved object carries the packet
            under [data], so the property read here is undefined *)
         ret (with_id (js_or JUndefined JNull)
                (respond 200 true "Animal location saved"))
     else
       try_catch
         (now <- new_Date ;;
          upsertRes <- executeQuery
                         (UpsertRawCurrent (to_Number latitude)
                                           (to_Number longitude) now) ;;
          if negb (success upsertRes) then
            console_warn "Failed to upsert current_locations for raw gps:" ;;;
            ret (with_error (error upsertRes)
                   (respond 500 false "Database error"))
          else
            try_catch
              (emit_location
                 {| ev_animal_id := num 0; ev_collar_id := JNull;
                    ev_latitude := to_Number latitude;
                    ev_longitude := to_Number longitude;
                    ev_recorded_at := now;
                    ev_battery_level := JUndefined;
                    ev_signal_quality := JUndefined;
                    ev_temperature_celsius := JUndefined |})
              (fun emitErr =>
                 console_warn "Failed to emit gps location event (raw):") ;;;
            ret (respond 200 true
                   "GPS coordinates saved (updated current location)"))
         (fun errUp =>
            console_error "Raw GPS upsert error:" ;;;
            ret (respond 500 false "Internal server error")))
    (fun err =>
       console_error "GPS route error:" ;;;
       ret (respond 500 false "Internal server error")).

(** ** createVirtualFence *)

(** [is_active !== false] *)
Definition not_false (v : JsVal) : bool :=
  match v with
  | JBool false => false
  | _ => true
  end.

Definition createVirtualFence (b : FenceBody) : M Response :=
  try_catch
    (let farmId := 1 in
     let createdBy := 1 in
     let name := name b in
     let description := description b in
     let center_latitude := center_latitude b in
     let center_longitude := center_longitude b in
     let radius_meters := radius_meters b in
     let fence_type := fence_type b in
     let is_active := is_active b in
     if negb (truthy name) || negb (truthy center_latitude)
        || negb (truthy center_longitude) || negb (truthy radius_meters) then
       ret (respond 400 false "Name, coordinates, and radius are required")
     else if js_lt center_latitude (inject_Z (-90))
             || js_gt center_latitude (inject_Z 90) then
       ret (respond 400 false "Latitude must be between -90 and 90")
     else if js_lt center_longitude (inject_Z (-180))
             || js_gt center_longitude (inject_Z 180) then
       ret (respond 400 false "Longitude must be between -180 and 180")
     else if js_lt radius_meters (inject_Z 50)
             || js_gt radius_meters (inject_Z 10000) then
       ret (respond 400 false "Radius must be between 50 and 10000 meters")
     else
       result <- executeQuery
                   (InsertFence
                      {| f_id := 0; f_farm_id := farmId; f_name := name;
                         f_description := js_or description JNull;
                         f_center_latitude := center_latitude;
                         f_center_longitude := center_longitude;
                         f_radius_meters := radius_meters;
                         f_fence_type := js_or fence_type (JStr "custom");
                         f_is_active := not_false is_active;
                         f_created_by := createdBy |}) ;;
       if success result then
         match data result with
         | Some pkt =>
             ret (with_data (FenceId (insertId pkt))
                    (respond 201 true "Virtual fence created successfully"))
         | None => throw "Cannot read properties of undefined"
         end
       else throw "Failed to create virtual fence")
    (fun error =>
       console_error "Create virtual fence error:" ;;;
       ret (respond 500 false "Internal server error")).

(** ** updateRemoteConfig *)

(** [insertRes.data && insertRes.data.insertId ? insertRes.data.insertId : null] *)
Definition inserted_id (r : QueryResult) : JsVal :=
  match data r with
  | Some pkt => if insertId pkt =? 0 then JNull else num (insertId pkt)
  | None => JNull
  end.

(** [new Date(now.getTime() + ((expires_hours || dflt) * 60 * 60 * 1000))] *)
Definition expiry (now : Z) (expires_hours : JsVal) (dflt : Z) : option Z :=
  Date_of
    (num_add (Fin (inject_Z now))
       (num_mul
          (num_mul
             (num_mul (to_Number (js_or expires_hours (num dflt)))
                      (Fin (inject_Z 60)))
             (Fin (inject_Z 60)))
          (Fin (inject_Z 1000)))).

Definition accepted_unpersisted (b : RemoteConfigBody) : Response :=
  with_data (SettingsEcho (sensorThreshold b) (soundEnabled b) (lightsEnabled b))
    (respond 200 true
       "Accepted but system settings update may not be persisted (check schema)").

(** A block that may [return] from the handler gives [inl] of the response,
    and [inr] of what it computed when the handler goes on. *)
Definition updateRemoteConfig (b : RemoteConfigBody) : M Response :=
  try_catch
    (let sensorThreshold := sensorThreshold b in
     let soundEnabled := soundEnabled b in
     let lightsEnabled := lightsEnabled b in
     let wifiSSID := wifiSSID b in
     let wifiPassword := wifiPassword b in
     let device_id := device_id b in
     let expires_hours := expires_hours b in
     if truthy device_id then
       now <- get_now ;;
       step1 <-
         (if defined soundEnabled || defined lightsEnabled then
            let controlPayload :=
              ControlPayload
                (if defined soundEnabled then Some (truthy soundEnabled) else None)
                (if defined lightsEnabled then Some (truthy lightsEnabled) else None) in
            let expiresAt := expiry now expires_hours 1 in
            insertRes <- executeQuery
                           (InsertCommand device_id control controlPayload expiresAt) ;;
            if negb (success insertRes) then
              console_error "Failed to enqueue control command:" ;;;
              ret (inl (respond 500 false "Failed to enqueue control command"))
            else ret (inr [(control, inserted_id insertRes)])
          else ret (inr [])) ;;
       match step1 with
       | inl response => ret response
       | inr inserted =>
           step2 <-
             (if truthy wifiSSID || truthy wifiPassword then
                let wifiPayload :=
                  WifiPayload (js_or wifiSSID JNull) (js_or wifiPassword JNull) in
                let expiresAt := expiry now expires_hours 24 in
                insertRes <- executeQuery
                               (InsertCommand device_id wifi_update wifiPayload expiresAt) ;;
                if negb (success insertRes) then
                  console_error "Failed to enqueue wifi_update command:" ;;;
                  ret (inl (respond 500 false "Failed to enqueue wifi_update command"))
                else ret (inr (inserted ++ [(wifi_update, inserted_id insertRes)]))
              else ret (inr inserted)) ;;
           match step2 with
           | inl response => ret response
           | inr inserted =>
               ret (with_data (Inserted inserted)
                      (respond 200 true "Commands enqueued"))
           end
       end
     else
       let updates : list (string * JsVal) :=
         ((if defined soundEnabled
           then [("default_sound_enabled", num (if truthy soundEnabled then 1 else 0))]
           else [])
          ++ (if defined lightsEnabled
              then [("default_lights_enabled", num (if truthy lightsEnabled then 1 else 0))]
              else [])
          ++ (if defined sensorThreshold
              then [("sensor_threshold", sensorThreshold)]
              else []))%list in
       step <-
         (if (0 <? Z.of_nat (length updates)) then
            try_catch
              (upd <- executeQuery (UpdateSettings updates) ;;
               if negb (success upd) then
                 console_warn
                   "system_settings update failed (maybe table/columns missing):" ;;;
                 ret (inl (accepted_unpersisted b))
               else ret (inr tt))
              (fun updErr =>
                 console_warn "Failed updating system_settings:" ;;;
                 ret (inl (accepted_unpersisted b)))
          else ret (inr tt)) ;;
       match step with
       | inl response => ret response
       | inr _ =>
           if truthy wifiSSID || truthy wifiPassword then
             console_warn
               "Global wifi update requested without device_id. Not storing wifi password globally for security. Provide device_id to perform wifi update per-device." ;;;
             ret (respond 400 false
                    "Provide device_id to perform wifi update on a specific device")
           else
             ret (with_data (SettingsEcho sensorThreshold soundEnabled lightsEnabled)
                    (respond 200 true "Remote config updated"))
       end)
    (fun err =>
       console_error "Remote config update error:" ;;;
       ret (respond 500 false "Failed to update remote config")).

(** ** handleAlert *)

Definition MAX_ALERT_TYPE : nat := 100.
Definition MAX_SEVERITY : nat := 32.
Definition MAX_TITLE : nat := 255.

Definition newline : string := String (Ascii.ascii_of_nat 10) "".

(** [s.length > max ? s.substring(0, max) : s] *)
Definition cap (max : nat) (s : string) : string :=
  if Nat.ltb max (String.length s) then substring 0 max s else s.

(** The same on [raw_title], which is whatever the payload held: only a
    string has a [length] that can exceed the limit. *)
Definition cap_title (raw_title : JsVal) : JsVal :=
  match raw_title with
  | JStr s => if Nat.ltb MAX_TITLE (String.length s)
              then JStr (substring 0 MAX_TITLE s) else raw_title
  | _ => raw_title
  end.

Definition title_too_long (raw_title : JsVal) : bool :=
  match raw_title with
  | JStr s => Nat.ltb MAX_TITLE (String.length s)
  | _ => false
  end.

(** [v ? Number(v) : null] *)
Definition number_or_null (v : JsVal) : JsVal :=
  if truthy v then JNum (to_Number v) else JNull.

Definition when (c : bool) (m : M unit) : M unit := if c then m else ret tt.

(** The payload fields before the limits are applied. *)
Definition raw_alert_type (payload : AlertPayload) : string :=
  if truthy (a_alert_type payload) then to_String (a_alert_type payload)
  else (if truthy (a_alert payload) then "device" else "device").

Definition raw_severity (payload : AlertPayload) : string :=
  if truthy (a_severity payload) then to_String (a_severity payload)
  else "medium".

Definition raw_title (payload : AlertPayload) : JsVal :=
  js_or (js_or (a_alert payload) (a_title payload)) (JStr "Device Alert").

Definition raw_message (payload : AlertPayload) : JsVal :=
  js_or (a_message payload)
    (JStr ("distance=" ++ to_String (js_or (a_distance payload) (JStr ""))
           ++ " motion=" ++ to_String (js_or (a_motion payload) (JStr "")))%string).

Definition raw_alert_data (payload : AlertPayload) : JsVal :=
  if truthy (a_alert_data payload)
  then JStr (to_String (a_alert_data payload)) else JNull.

Definition alert_cols (payload : AlertPayload) : AlertCols :=
  {| al_farm_id :=
       if truthy (a_farm_id payload) then to_Number (a_farm_id payload)
       else Fin (inject_Z 1);
     al_animal_id := number_or_null (a_animal_id payload);
     al_collar_id := number_or_null (a_collar_id payload);
     al_fence_id := number_or_null (a_fence_id payload);
     al_alert_type := cap MAX_ALERT_TYPE (raw_alert_type payload);
     al_severity := cap MAX_SEVERITY (raw_severity payload);
     al_title := cap_title (raw_title payload);
     al_message := raw_message payload;
     al_alert_data := raw_alert_data payload;
     al_location_latitude :=
       number_or_null (js_or (a_lat payload) (a_location_latitude payload));
     al_location_longitude :=
       number_or_null (js_or (a_lon payload) (a_location_longitude payload));
     al_triggered_at :=
       if truthy (a_triggered_at payload) then a_triggered_at payload else JNull;
     al_status :=
       if truthy (a_status payload) then to_String (a_status payload)
       else "active";
     al_auto_generated :=
       if defined (a_auto_generated payload)
       then to_Number (a_auto_generated payload) else Fin (inject_Z 1) |}.

Definition alert_mail (to : JsVal) (cols : AlertCols) : Mail :=
  {| mail_to := to;
     mail_subject := ("Cattle Farm Alert: " ++ to_String (al_title cols))%string;
     mail_text :=
       ("Alert: " ++ to_String (al_title cols) ++ newline
        ++ "Severity: " ++ al_severity cols ++ newline
        ++ "Message: " ++ to_String (al_message cols) ++ newline
        ++ "Location: " ++ to_String (al_location_latitude cols)
        ++ ", " ++ to_String (al_location_longitude cols))%string |}.

Definition handleAlert (payload : AlertPayload) : M Response :=
  try_catch
    (let cols := alert_cols payload in
     when (Nat.ltb MAX_ALERT_TYPE (String.length (raw_alert_type payload)))
          (console_warn "Truncated alert_type from") ;;;
     when (Nat.ltb MAX_SEVERITY (String.length (raw_severity payload)))
          (console_warn "Truncated severity from") ;;;
     when (title_too_long (raw_title payload))
          (console_warn "Truncated title from") ;;;
     result <- executeQuery (InsertAlert cols) ;;
     if negb (success result) then
       console_error "Failed to insert alert:" ;;;
       ret (with_error (error result)
              (respond 500 false "Failed to insert alert"))
     else
       let insertedId := inserted_id result in
       env <- getenv ;;
       when (truthy (SMTP_USER env) && truthy (SMTP_PASS env)
             && truthy (ALERT_EMAIL_TO env))
            (try_catch
               (sendEmail (alert_mail (ALERT_EMAIL_TO env) cols))
               (fun mailErr => console_warn "Failed to send alert email:")) ;;;
       ret (with_id insertedId (respond 201 true "Alert recorded")))
    (fun err =>
       console_error "Device alert route error:" ;;;
       ret (respond 500 false "Internal server error")).

(** ** The command poll *)

(** [device_id = ?] on the device column. *)
Definition same_device (a b : JsVal) : bool :=
  match a, b with
  | JStr x, JStr y => String.eqb x y
  | JNum (Fin x), JNum (Fin y) => Qeq_bool x y
  | JBool x, JBool y => Bool.eqb x y
  | _, _ => false
  end.

(** Modelled from the spec: lazy expiry.  No read path of device_commands is
    among the sources; the spec keeps expiry as the predicate
    [now > expiresAt], evaluated at read time. *)
Definition expired (now : Z) (c : CommandRow) : bool :=
  match cmd_expires_at c with
  | Some t => t <? now
  | None => false
  end.

Definition is_acknowledged (c : CommandRow) : bool :=
  match cmd_status c with
  | acknowledged => true
  | _ => false
  end.

(** Modelled from the spec: [poll(deviceId)], the handler of
    GET /commands?device_id=X, which is not among the sources (only the
    device sketch that calls it is).  It returns all non-expired commands of
    the device that are not yet acknowledged. *)
Definition poll (now : Z) (deviceId : JsVal) (cmds : list CommandRow)
  : list CommandRow :=
  filter (fun c => same_device (cmd_device_id c) deviceId
                   && negb (is_acknowledged c)
                   && negb (expired now c))
         cmds.

(** Modelled from the spec: the number of commands pending for a device, as
    a read path over the same queue. *)
Definition pending_count (now : Z) (deviceId : JsVal) (cmds : list CommandRow)
  : nat :=
  length (poll now deviceId cmds).

(** ** Predicates of the statements *)

(** The request carries [update_id] (or [id]): the correction path. *)
Definition is_correction (b : GpsBody) : bool :=
  truthy (js_or (js_or (update_id b) (id b)) JNull).

(** The request names an animal or a collar. *)
Definition attributed (b : GpsBody) : bool :=
  truthy (default_null (animal_id b)) || truthy (default_null (collar_id b)).

Definition has_coordinates (b : GpsBody) : bool :=
  negb (loose_null (latitude b) || loose_null (longitude b)).

(** The key under which the request's position is kept. *)
Definition report_key (b : GpsBody) : Key :=
  entityKey (default_null (animal_id b)) (default_null (collar_id b)).

Definition sentinel_key : Key := entityKey (num 0) JNull.

(** The rows of current_locations stored under key [k]. *)
Definition records_for (k : Key) (rows : list CurrentRow) : list CurrentRow :=
  filter (fun r => key_eqb (row_key r) k) rows.

(** The unique index of current_locations. *)
Definition unique_keys (rows : list CurrentRow) : Prop :=
  NoDup (map row_key rows).

(** The rows of animal_locations a correction with [uid] addresses. *)
Definition rows_with_id (uid : JsVal) (rows : list HistoryRow) : list HistoryRow :=
  filter (fun r => sql_id_matches (h_id r) uid) rows.

(** The columns of animal_locations the request binds, stamped [t]. *)
Definition report_cols (b : GpsBody) (t : SqlVal) : LocationCols :=
  {| l_animal_id := default_null (animal_id b);
     l_collar_id := default_null (collar_id b);
     l_latitude := to_Number (latitude b);
     l_longitude := to_Number (longitude b);
     l_altitude_meters := default_null (altitude_meters b);
     l_accuracy_meters := default_null (accuracy_meters b);
     l_speed_kmh := default_null (speed_kmh b);
     l_heading_degrees := default_null (heading_degrees b);
     l_recorded_at := t;
     l_battery_level := default_null (battery_level b);
     l_signal_quality := default_null (signal_quality b);
     l_temperature_celsius := default_null (temperature_celsius b) |}.

(** The row of current_locations the request binds, stamped [t]. *)
Definition report_row (b : GpsBody) (t : SqlVal) : CurrentRow :=
  {| c_animal_id := default_null (animal_id b);
     c_collar_id := default_null (collar_id b);
     c_latitude := to_Number (latitude b);
     c_longitude := to_Number (longitude b);
     c_recorded_at := t;
     c_battery_level := default_null (battery_level b);
     c_signal_quality := default_null (signal_quality b);
     c_temperature_celsius := default_null (temperature_celsius b);
     c_other := [] |}.

Definition report_event (b : GpsBody) (t : SqlVal) : LocationEvent :=
  {| ev_animal_id := default_null (animal_id b);
     ev_collar_id := default_null (collar_id b);
     ev_latitude := to_Number (latitude b);
     ev_longitude := to_Number (longitude b);
     ev_recorded_at := t;
     ev_battery_level := default_null (battery_level b);
     ev_signal_quality := default_null (signal_quality b);
     ev_temperature_celsius := default_null (temperature_celsius b) |}.

(** The stamp a statement gets in a world: the client's [recorded_at] when it
    is truthy, the clock otherwise. *)
Definition stamp (b : GpsBody) (w : World) : SqlVal :=
  if truthy (default_null (recorded_at b))
  then SJs (default_null (recorded_at b))
  else SDate (Some (w_now w)).


(** ** Running the effects *)

(** The world after statement [q] ran. *)
Definition ran (q : Query) (w : World) : World :=
  with_db (snd (run_query q (w_now (issued q w)) (w_db w))) (issued q w).

Definition ok_result (q : Query) (w : World) : QueryResult :=
  {| success := true;
     data := Some (fst (run_query q (w_now (issued q w)) (w_db w)));
     error := JUndefined |}.

Definition failed_result (e : string) : QueryResult :=
  {| success := false; data := None; error := JStr e |}.

(** The world after [try { emit(ev) } catch { console.warn(msg) }]. *)
Definition published (ev : LocationEvent) (msg : string) (w : World) : World :=
  let w' := with_emitted (w_emitted w ++ [ev]) w in
  match w_listener_fault w with
  | None => w'
  | Some _ => with_console (w_console w' ++ [Warn msg]) w'
  end.

Definition logged (l : LogLine) (w : World) : World :=
  with_console (w_console w ++ [l]) w.


(** The [update_id] (or [id]) the correction path binds. *)
Definition correction_id (b : GpsBody) : JsVal :=
  js_or (js_or (update_id b) (id b)) JNull.

(** The event of the raw path. *)
Definition raw_event (b : GpsBody) (t : SqlVal) : LocationEvent :=
  {| ev_animal_id := num 0; ev_collar_id := JNull;
     ev_latitude := to_Number (latitude b);
     ev_longitude := to_Number (longitude b);
     ev_recorded_at := t;
     ev_battery_level := JUndefined;
     ev_signal_quality := JUndefined;
     ev_temperature_celsius := JUndefined |}.

(** Two requests with the same body, one after the other. *)
Definition twice (b : GpsBody) (w : World) : World :=
  snd (post_gps b (snd (post_gps b w))).

(** The range checks of the controller on numeric input. *)
Definition in_fence_ranges (lat lon rad : Q) : Prop :=
  (inject_Z (-90) <= lat /\ lat <= inject_Z 90
   /\ inject_Z (-180) <= lon /\ lon <= inject_Z 180
   /\ inject_Z 50 <= rad /\ rad <= inject_Z 10000)%Q.


(** The request carries a control field, resp. a wifi field. *)
Definition wants_control (b : RemoteConfigBody) : bool :=
  defined (soundEnabled b) || defined (lightsEnabled b).

Definition wants_wifi (b : RemoteConfigBody) : bool :=
  truthy (wifiSSID b) || truthy (wifiPassword b).

(** The rows of device_commands the two inserts of a request create, under
    id [i], for a request that started at [now]. *)
Definition control_command (b : RemoteConfigBody) (now i : Z) : CommandRow :=
  {| cmd_id := i; cmd_device_id := device_id b; cmd_type := control;
     cmd_payload :=
       ControlPayload
         (if defined (soundEnabled b) then Some (truthy (soundEnabled b)) else None)
         (if defined (lightsEnabled b) then Some (truthy (lightsEnabled b)) else None);
     cmd_expires_at := expiry now (expires_hours b) 1;
     cmd_status := pending |}.


(** The assignments of the UPDATE of system_settings. *)
Definition settings_updates (b : RemoteConfigBody) : list (string * JsVal) :=
  (if defined (soundEnabled b)
   then [("default_sound_enabled", num (if truthy (soundEnabled b) then 1 else 0))]
   else [])
  ++ (if defined (lightsEnabled b)
      then [("default_lights_enabled", num (if truthy (lightsEnabled b) then 1 else 0))]
      else [])
  ++ (if defined (sensorThreshold b)
      then [("sensor_threshold", sensorThreshold b)]
      else []).

Definition HOUR : Z := 3600000.

(** ** Further definitions for the properties of the handlers *)

(** The world with its location subscribers replaced. *)
Definition with_listener (l : option string) (w : World) : World :=
  {| w_db := w_db w; w_now := w_now w; w_faults := w_faults w;
     w_queries := w_queries w; w_console := w_console w;
     w_emitted := w_emitted w; w_listener_fault := l;
     w_env := w_env w; w_smtp_fault := w_smtp_fault w;
     w_outbox := w_outbox w |}.

(** The value a settings row holds in column [c]. *)
Fixpoint get_column (c : string) (row : list (string * SqlVal)) : option SqlVal :=
  match row with
  | [] => None
  | (c', v) :: rest => if String.eqb c' c then Some v else get_column c rest
  end.

(** The checks of [createVirtualFence] in the order it makes them: the four
    required fields, then the three ranges. *)
Definition fence_passes (b : FenceBody) : bool :=
  truthy (name b) && truthy (center_latitude b)
  && truthy (center_longitude b) && truthy (radius_meters b)
  && negb (js_lt (center_latitude b) (inject_Z (-90)))
  && negb (js_gt (center_latitude b) (inject_Z 90))
  && negb (js_lt (center_longitude b) (inject_Z (-180)))
  && negb (js_gt (center_longitude b) (inject_Z 180))
  && negb (js_lt (radius_meters b) (inject_Z 50))
  && negb (js_gt (radius_meters b) (inject_Z 10000)).

(** The row [createVirtualFence] binds, as stored under id [i]. *)
Definition stored_fence (b : FenceBody) (i : Z) : FenceRow :=
  {| f_id := i; f_farm_id := 1; f_name := name b;
     f_description := js_or (description b) JNull;
     f_center_latitude := center_latitude b;
     f_center_longitude := center_longitude b;
     f_radius_meters := radius_meters b;
     f_fence_type := js_or (fence_type b) (JStr "custom");
     f_is_active := not_false (is_active b);
     f_created_by := 1 |}.

(** ** The authentication middleware *)

(** [jwt.verify] of the jsonwebtoken package: the payload of a token that
    verifies under the secret, or [None] when verification fails. *)
Variable jwt_verify : string -> JsVal -> option User.

(** [process.env.NODE_ENV !== 'production'] *)
Definition not_production (env : ProcessEnv) : bool :=
  negb (is_string "production" (NODE_ENV env)).

Definition authenticateToken (env : ProcessEnv) (req : AuthRequest)
  : M AuthResult :=
  let authHeader := authorization req in
  let token := token_of authHeader in
  let devBypass := is_string "true" (DEV_AUTH_BYPASS env) in
  let allowPublicDashboard := is_string "true" (DEV_ALLOW_PUBLIC_DASHBOARD env) in
  match session_user req with
  | Some user => ret (Next (Some user))
  | None =>
      if no_token token then
        if TEMP_DISABLE_AUTH then
          console_warn "⚠️ TEMP_DISABLE_AUTH enabled: skipping token checks and injecting temporary viewer user" ;;;
          ret (Next (Some (dev_user "Dev User (temp)")))
        else if allowPublicDashboard && not_production env then
          console_warn "⚠️ DEV_ALLOW_PUBLIC_DASHBOARD enabled: allowing public access to dashboard endpoints (dev only)" ;;;
          ret (Next (Some (dev_user "Dev Viewer")))
        else if devBypass && not_production env then
          console_warn "⚠️ DEV_AUTH_BYPASS enabled: allowing request without token (dev only) - injecting viewer user" ;;;
          ret (Next (Some (dev_user "Dev User")))
        else ret (Reject (respond 401 false "Access token required"))
      else
        match token with
        | None => ret (Reject (respond 401 false "Access token required"))
        | Some t =>
            match jwt_verify t (JWT_SECRET env) with
            | None =>
                if devBypass && not_production env then
                  console_warn "⚠️ DEV_AUTH_BYPASS enabled: token invalid but allowing request (dev only) - injecting viewer user" ;;;
                  ret (Next (Some (dev_user "Theo")))
                else ret (Reject (respond 403 false "Invalid or expired token"))
            | Some user => ret (Next (Some user))
            end
        end
  end.

(** [optionalAuth]: it always calls [next()]; the result is [req.user]. *)
Definition optionalAuth (env : ProcessEnv) (req : AuthRequest) : option User :=
  match session_user req with
  | Some user => Some user
  | None =>
      let token := token_of (authorization req) in
      if no_token token then None
      else match token with
           | None => None
           | Some t => jwt_verify t (JWT_SECRET env)
           end
  end.

(** [router.post('/remote-config', authenticateToken, updateRemoteConfig)] *)
Definition remote_config_route (env : ProcessEnv) (req : AuthRequest)
           (b : RemoteConfigBody) : M Response :=
  auth <- authenticateToken env req ;;
  match auth with
  | Next _ => updateRemoteConfig b
  | Reject r => ret r
  end.

(** ** The statements of the control and alert-lifecycle routes *)

(** [WHERE id = ?] on alerts. *)
Definition alert_matches (alert : JsVal) (r : AlertRow) : bool :=
  sql_id_matches (al_id r) alert.

Definition set_alert_table (rows : list AlertRow) (next : Z)
           (marks : list AlertMark) (s : Site) : Site :=
  {| site_world :=
       with_db (set_alerts rows next (w_db (site_world s))) (site_world s);
     device_controls := device_controls s;
     alert_marks := marks; animals := animals s |}.

Definition site_alerts (s : Site) : list AlertRow := alerts (w_db (site_world s)).

(** UPDATE alerts SET status = st, ... WHERE id = ?: the rows addressed get
    the status, and their marks are rewritten by [stamp_mark]. *)
Definition update_alerts (st : string) (stamp_mark : AlertMark -> AlertMark)
           (alert : JsVal) (s : Site) : Site :=
  set_alert_table
    (map (fun r => if alert_matches alert r then with_status st r else r)
         (site_alerts s))
    (alerts_next (w_db (site_world s)))
    (fold_right (fun r ms => put_mark (stamp_mark (mark_of (al_id r) ms)) ms)
                (alert_marks s)
                (filter (alert_matches alert) (site_alerts s)))
    s.

(** [WHERE id = ? AND farm_id = ?] on virtual_fences. *)
Definition fence_matches (fence : JsVal) (farm : Z) (r : FenceRow) : bool :=
  sql_id_matches (f_id r) fence && (f_farm_id r =? farm).

Definition site_fences (s : Site) : list FenceRow :=
  virtual_fences (w_db (site_world s)).

Definition set_fence_rows (rows : list FenceRow) (s : Site) : Site :=
  with_world
    (with_db (set_fences rows (virtual_fences_next (w_db (site_world s)))
                         (w_db (site_world s)))
             (site_world s))
    s.

(** The columns UPDATE virtual_fences sets, on a stored row; updated_at is
    not among the columns a fence row carries here. *)
Definition rewritten_fence (name description latitude longitude radius type : JsVal)
           (active : bool) (r : FenceRow) : FenceRow :=
  {| f_id := f_id r; f_farm_id := f_farm_id r; f_name := name;
     f_description := description;
     f_center_latitude := latitude; f_center_longitude := longitude;
     f_radius_meters := radius; f_fence_type := type;
     f_is_active := active; f_created_by := f_created_by r |}.

(** [WHERE id = ?] on animals. *)
Definition animal_matches (animal : JsVal) (r : AnimalRow) : bool :=
  sql_id_matches (an_id r) animal.

(** What each statement does when it runs, and the rows it returns.
    TRUNCATE resets the auto-increment counter of the table, DELETE does
    not; CREATE TABLE IF NOT EXISTS leaves an existing table alone. *)
Definition run_statement (st : Statement) (now : Z) (s : Site)
  : list JsVal * Site :=
  match st with
  | SelectSystemEnabled =>
      (select_control "system_enabled" (device_controls s), s)
  | CreateDeviceControls => ([], s)
  | UpsertSystemEnabled state =>
      ([], {| site_world := site_world s;
              device_controls :=
                upsert_control "system_enabled" (JStr state) (device_controls s);
              alert_marks := alert_marks s; animals := animals s |})
  | TruncateAlerts => ([], set_alert_table [] 1 [] s)
  | DeleteAlerts =>
      ([], set_alert_table [] (alerts_next (w_db (site_world s))) [] s)
  | SelectAlert alert =>
      (map (fun r => num (al_id r)) (filter (alert_matches alert) (site_alerts s)),
       s)
  | AcknowledgeAlert by_user alert =>
      ([], update_alerts "acknowledged" (acknowledged_mark now by_user) alert s)
  | ResolveAlert by_user alert =>
      ([], update_alerts "resolved" (resolved_mark now by_user) alert s)
  | SelectFence fence farm =>
      (map (fun r => num (f_id r))
           (filter (fence_matches fence farm) (site_fences s)),
       s)
  | UpdateFence name description latitude longitude radius type active fence farm =>
      ([], set_fence_rows
             (map (fun r =>
                     if fence_matches fence farm r
                     then rewritten_fence name description latitude longitude
                                          radius type active r
                     else r)
                  (site_fences s))
             s)
  | DeleteFence fence farm =>
      ([], set_fence_rows
             (filter (fun r => negb (fence_matches fence farm r)) (site_fences s))
             s)
  | SelectAnimal animal =>
      (map (fun r => num (an_id r)) (filter (animal_matches animal) (animals s)),
       s)
  end.

(** [executeQuery] on these statements; how the call ends is read from the
    same [w_faults] as for the other statements. *)
Definition executeStatement (st : Statement) : MS StatementResult :=
  fun s =>
    let s1 := with_world (elapsed (site_world s)) s in
    match next_fault (site_world s) with
    | FOk =>
        let (rows, s2) := run_statement st (w_now (site_world s1)) s1 in
        (Returned {| st_success := true; st_rows := rows; st_error := JUndefined |},
         s2)
    | FFail e =>
        (Returned {| st_success := false; st_rows := []; st_error := JStr e |}, s1)
    | FThrow e => (Thrown e, s1)
    end.

(** ** GET and POST /device/control *)

(** [String(v).toLowerCase() === 'off' ? 'off' : 'on'] *)
Definition on_or_off (v : JsVal) : string :=
  if String.eqb (toLowerCase (to_String v)) "off" then "off" else "on".

Definition get_control : MS ControlResponse :=
  try_catchS
    (r <<- executeStatement SelectSystemEnabled ;;
     if st_success r && Nat.ltb 0 (length (st_rows r)) then
       match st_rows r with
       | val :: _ =>
           let state := on_or_off val in
           retS (control_response 200 true (Some state) None)
       | [] => retS (control_response 200 true (Some "on") None)
       end
     else
       (* fallback default: on *)
       retS (control_response 200 true (Some "on") None))
    (fun err =>
       liftS (console_error "Device control GET error:") ;;;;
       retS (control_response 500 false None (Some "Internal server error"))).

(** [state_field] is [req.body.state], undefined when the body or the field
    is missing. *)
Definition post_control (state_field : JsVal) : MS ControlResponse :=
  try_catchS
    (let state :=
       if truthy state_field
          && String.eqb (toLowerCase (to_String state_field)) "off"
       then "off" else "on" in
     _ <<- executeStatement CreateDeviceControls ;;
     upsert <<- executeStatement (UpsertSystemEnabled state) ;;
     if negb (st_success upsert) then
       retS (control_response 500 false None (Some "Failed to set control state"))
     else retS (control_response 200 true (Some state) None))
    (fun err =>
       liftS (console_error "Device control POST error:") ;;;;
       retS (control_response 500 false None (Some "Internal server error"))).

(** ** markAlertRead, resolveAlert and deleteAllAlerts *)

(** [(req.user && req.user.id) ? req.user.id : null] *)
Definition acting_user (user : option User) : JsVal :=
  match user with
  | Some u => if truthy (user_id u) then user_id u else JNull
  | None => JNull
  end.

Definition markAlertRead (user : option User) (alert : JsVal) : MS Response :=
  try_catchS
    (let acknowledgedBy := acting_user user in
     existing <<- executeStatement (SelectAlert alert) ;;
     if negb (st_success existing) || Nat.eqb (length (st_rows existing)) 0 then
       retS (respond 404 false "Alert not found")
     else
       result <<- executeStatement (AcknowledgeAlert acknowledgedBy alert) ;;
       if negb (st_success result) then
         retS (respond 500 false "Failed to mark alert as read")
       else retS (respond 200 true "Alert marked as read"))
    (fun error =>
       liftS (console_error "Mark alert read error:") ;;;;
       retS (respond 500 false "Internal server error")).

Definition resolveAlert (user : option User) (alert : JsVal) : MS Response :=
  try_catchS
    (let resolvedBy := acting_user user in
     existing <<- executeStatement (SelectAlert alert) ;;
     if negb (st_success existing) || Nat.eqb (length (st_rows existing)) 0 then
       retS (respond 404 false "Alert not found")
     else
       upd <<- executeStatement (ResolveAlert resolvedBy alert) ;;
       if negb (st_success upd) then
         retS (respond 500 false "Failed to resolve alert")
       else retS (respond 200 true "Alert resolved"))
    (fun error =>
       liftS (console_error "Resolve alert error:") ;;;;
       retS (respond 500 false "Internal server error")).

(** [req.user && req.user.role === 'admin'] *)
Definition is_admin (user : option User) : bool :=
  match user with
  | Some u => is_string "admin" (user_role u)
  | None => false
  end.

Definition deleteAllAlerts (env : ProcessEnv) (user : option User) : MS Response :=
  try_catchS
    (let isAdmin := is_admin user in
     if negb isAdmin && negb (is_string "true" (DEV_ALLOW_TRUNCATE env)) then
       retS (respond 403 false "Forbidden")
     else
       result <<- executeStatement TruncateAlerts ;;
       if negb (st_success result) then
         result <<- executeStatement DeleteAlerts ;;
         if negb (st_success result) then
           retS (with_error (st_error result)
                   (respond 500 false "Failed to clear alerts"))
         else retS (respond 200 true "All alerts cleared")
       else retS (respond 200 true "All alerts cleared"))
    (fun error =>
       liftS (console_error "Clear alerts error:") ;;;;
       retS (respond 500 false "Internal server error")).

(** The status and the marks of the alert with id [i]. *)
Definition status_of (i : Z) (s : Site) : option string :=
  option_map (fun r => al_status (al_cols r))
             (find (fun r => al_id r =? i) (site_alerts s)).

Definition site_no_faults (s : Site) : Prop := no_faults (site_world s).

(** The site after a lookup and an update of alerts both ran, for the status
    and the stamp of either lifecycle route. *)
Definition lifecycle_site (st : string) (stamp_mark : Z -> AlertMark -> AlertMark)
           (alert : JsVal) (s : Site) : Site :=
  let s1 := with_world (elapsed (site_world s)) s in
  let s2 := with_world (elapsed (site_world s1)) s1 in
  update_alerts st (stamp_mark (w_now (site_world s2))) alert s2.

(** The alerts a lifecycle request addresses. *)
Definition addressed (alert : JsVal) (s : Site) : list AlertRow :=
  filter (alert_matches alert) (site_alerts s).

(** ** updateVirtualFence and deleteVirtualFence *)

Definition updateVirtualFence (fence : JsVal) (b : FenceBody) : MS Response :=
  try_catchS
    (let farmId := 1 in
     let name := name b in
     let description := description b in
     let center_latitude := center_latitude b in
     let center_longitude := center_longitude b in
     let radius_meters := radius_meters b in
     let fence_type := fence_type b in
     let is_active := is_active b in
     if negb (truthy name) || negb (truthy center_latitude)
        || negb (truthy center_longitude) || negb (truthy radius_meters) then
       retS (respond 400 false "Name, coordinates, and radius are required")
     else if js_lt center_latitude (inject_Z (-90))
             || js_gt center_latitude (inject_Z 90) then
       retS (respond 400 false "Latitude must be between -90 and 90")
     else if js_lt center_longitude (inject_Z (-180))
             || js_gt center_longitude (inject_Z 180) then
       retS (respond 400 false "Longitude must be between -180 and 180")
     else if js_lt radius_meters (inject_Z 50)
             || js_gt radius_meters (inject_Z 10000) then
       retS (respond 400 false "Radius must be between 50 and 10000 meters")
     else
       checkResult <<- executeStatement (SelectFence fence farmId) ;;
       if negb (st_success checkResult)
          || Nat.eqb (length (st_rows checkResult)) 0 then
         retS (respond 404 false "Virtual fence not found")
       else
         result <<- executeStatement
                      (UpdateFence name (js_or description JNull)
                                   center_latitude center_longitude
                                   radius_meters
                                   (js_or fence_type (JStr "custom"))
                                   (not_false is_active) fence farmId) ;;
         if st_success result then
           retS (respond 200 true "Virtual fence updated successfully")
         else liftS (throw "Failed to update virtual fence"))
    (fun error =>
       liftS (console_error "Update virtual fence error:") ;;;;
       retS (respond 500 false "Internal server error")).

Definition deleteVirtualFence (fence : JsVal) : MS Response :=
  try_catchS
    (let farmId := 1 in
     checkResult <<- executeStatement (SelectFence fence farmId) ;;
     if negb (st_success checkResult)
        || Nat.eqb (length (st_rows checkResult)) 0 then
       retS (respond 404 false "Virtual fence not found")
     else
       result <<- executeStatement (DeleteFence fence farmId) ;;
       if st_success result then
         retS (respond 200 true "Virtual fence deleted successfully")
       else liftS (throw "Failed to delete virtual fence"))
    (fun error =>
       liftS (console_error "Delete virtual fence error:") ;;;;
       retS (respond 500 false "Internal server error")).

(** ** updateAnimalLocation *)

(** [animal] is [req.params.id]; the body has the fields of the GPS body
    that the controller reads. *)
Definition updateAnimalLocation (animal : JsVal) (b : GpsBody) : MS Response :=
  try_catchS
    (let latitude := latitude b in
     let longitude := longitude b in
     let altitude_meters := default_null (altitude_meters b) in
     let accuracy_meters := default_null (accuracy_meters b) in
     let speed_kmh := default_null (speed_kmh b) in
     let heading_degrees := default_null (heading_degrees b) in
     let recorded_at := default_null (recorded_at b) in
     let battery_level := default_null (battery_level b) in
     let signal_quality := default_null (signal_quality b) in
     let temperature_celsius := default_null (temperature_celsius b) in
     let collar_id := default_null (collar_id b) in
     if negb (truthy latitude) || negb (truthy longitude) then
       retS (respond 400 false "latitude and longitude are required")
     else
       animalCheck <<- executeStatement (SelectAnimal animal) ;;
       if negb (st_success animalCheck)
          || Nat.eqb (length (st_rows animalCheck)) 0 then
         retS (respond 404 false "Animal not found")
       else
         t <<- liftS (recorded_or_now recorded_at) ;;
         insertRes <<- liftS (executeQuery
                        (InsertLocation
                           {| l_animal_id := animal; l_collar_id := collar_id;
                              l_latitude := to_Number latitude;
                              l_longitude := to_Number longitude;
                              l_altitude_meters := altitude_meters;
                              l_accuracy_meters := accuracy_meters;
                              l_speed_kmh := speed_kmh;
                              l_heading_degrees := heading_degrees;
                              l_recorded_at := t;
                              l_battery_level := battery_level;
                              l_signal_quality := signal_quality;
                              l_temperature_celsius := temperature_celsius |})) ;;
         if negb (success insertRes) then
           retS (with_error (error insertRes)
                   (respond 500 false "Failed to save location"))
         else
           (* [insertRes.insertId || null]: the resolved object carries the
              packet under [data], so the property read here is undefined *)
           retS (with_id (js_or JUndefined JNull)
                   (respond 201 true "Location saved")))
    (fun error =>
       liftS (console_error "Update animal location error:") ;;;;
       retS (respond 500 false "Internal server error")).

(** ** GET /gps/current *)

(** How the store compares a value of the collar_id column with a bound
    parameter; the type of that column is not among the sources. *)
Variable collar_id_equal : JsVal -> JsVal -> bool.

(** [cl.animal_id = ?]: NULL equals nothing, other values are compared as
    numbers, as the join with animals.id and the literal 0 have it. *)
Definition animal_id_equal (column param : JsVal) : bool :=
  negb (loose_null column) &&
  match to_Number column, to_Number param with
  | Fin a, Fin b => Qeq_bool a b
  | _, _ => false
  end.

(** LEFT JOIN animals a ON a.id = cl.animal_id: a row for each animal joined,
    and one with NULLs when there is none. *)
Definition joined (beasts : list AnimalRow) (r : CurrentRow) : list MarkerRow :=
  match filter (fun a => negb (loose_null (c_animal_id r))
                         && sql_id_matches (an_id a) (c_animal_id r)) beasts with
  | [] => [marker r JNull JNull]
  | found => map (fun a => marker r (an_name a) (an_tag_number a)) found
  end.

Definition passes (f : CurrentFilter) (r : CurrentRow) : bool :=
  match f with
  | ByAnimal animal => animal_id_equal (c_animal_id r) animal
  | ByCollar collar => collar_id_equal (c_collar_id r) collar
  | RawRow => animal_id_equal (c_animal_id r) (num 0)
  end.

(** The SELECT of the route with its LIMIT 1.  The latitude and longitude of
    a stored row are numbers, so IS NOT NULL holds of every row. *)
Definition select_current (f : CurrentFilter) (s : Site) : list MarkerRow :=
  firstn 1 (flat_map (joined (animals s))
                     (filter (passes f)
                             (current_locations (w_db (site_world s))))).

Definition executeSelectCurrent (f : CurrentFilter) : MS MarkerResult :=
  fun s =>
    let s1 := with_world (elapsed (site_world s)) s in
    match next_fault (site_world s) with
    | FOk =>
        (Returned {| mk_success := true; mk_rows := select_current f s1;
                     mk_error := JUndefined |}, s1)
    | FFail e =>
        (Returned {| mk_success := false; mk_rows := []; mk_error := JStr e |}, s1)
    | FThrow e => (Thrown e, s1)
    end.

(** [animal_id] and [collar_id] are the two fields of [req.query]. *)
Definition get_current (animal_id collar_id : JsVal) : MS CurrentResponse :=
  try_catchS
    (let f := if negb (loose_null animal_id) then ByAnimal animal_id
              else if negb (loose_null collar_id) then ByCollar collar_id
              else RawRow in
     result <<- executeSelectCurrent f ;;
     if negb (mk_success result) then
       retS {| cu_status := 500; cu_success := false; cu_data := None;
               cu_message := Some "Database error";
               cu_error := mk_error result |}
     else
       let row := hd_error (mk_rows result) in
       retS {| cu_status := 200; cu_success := true; cu_data := row;
               cu_message := None; cu_error := JUndefined |})
    (fun err =>
       liftS (console_error "GPS current fetch error:") ;;;;
       retS {| cu_status := 500; cu_success := false; cu_data := None;
               cu_message := Some "Internal server error";
               cu_error := JUndefined |}).

(** A report to POST /gps followed by a lookup of the current position. *)
Definition report_then_lookup (b : GpsBody) (animal_id collar_id : JsVal)
  : MS CurrentResponse :=
  liftS (post_gps b) ;;;; get_current animal_id collar_id.

(** A fence created and then deleted under the id it was given. *)
Definition create_then_delete (b : FenceBody) : MS Response :=
  created <<- liftS (createVirtualFence b) ;;
  match r_data created with
  | FenceId i => deleteVirtualFence (num i)
  | _ => retS created
  end.

(** ** handleAlert on a title that may be an array *)

(** Truthiness of a field: an array is truthy, empty or not. *)
Definition field_truthy (f : TitleField) : bool :=
  match f with
  | Plain v => truthy v
  | Items _ => true
  end.

(** [a || b] *)
Definition field_or (a b : TitleField) : TitleField :=
  if field_truthy a then a else b.

(** [raw_title.length]: the length of a string, the number of elements of an
    array, undefined on a number or a boolean.  [raw_title] is truthy, so it
    is never null or undefined. *)
Definition field_length (f : TitleField) : JsVal :=
  match f with
  | Plain (JStr s) => num (Z.of_nat (String.length s))
  | Plain _ => JUndefined
  | Items l => num (Z.of_nat (length l))
  end.

(** [raw_title.substring(0, MAX_TITLE)]: only a string has the method, and
    calling it on anything else throws a TypeError. *)
Definition field_substring (f : TitleField) : M TitleField :=
  match f with
  | Plain (JStr s) => ret (Plain (JStr (substring 0 MAX_TITLE s)))
  | _ => throw "raw_title.substring is not a function"
  end.

(** [String(v)] of an array: its elements joined by commas, null and
    undefined as the empty string. *)
Definition item_text (v : JsVal) : string :=
  if loose_null v then "" else to_String v.

Fixpoint join_items (l : list JsVal) : string :=
  match l with
  | [] => ""
  | [v] => item_text v
  | v :: rest => (item_text v ++ "," ++ join_items rest)%string
  end.

Definition field_text (f : TitleField) : string :=
  match f with
  | Plain v => to_String v
  | Items l => join_items l
  end.

(** The value the title column takes when the INSERT is given an array; the
    database driver is not among the sources. *)
Variable array_parameter : list JsVal -> JsVal.

Definition field_column (f : TitleField) : JsVal :=
  match f with
  | Plain v => v
  | Items l => array_parameter l
  end.

(** The columns of [alert_cols] with the title bound as [title]. *)
Definition titled_cols (title : JsVal) (payload : AlertPayload) : AlertCols :=
  {| al_farm_id := al_farm_id (alert_cols payload);
     al_animal_id := al_animal_id (alert_cols payload);
     al_collar_id := al_collar_id (alert_cols payload);
     al_fence_id := al_fence_id (alert_cols payload);
     al_alert_type := al_alert_type (alert_cols payload);
     al_severity := al_severity (alert_cols payload);
     al_title := title;
     al_message := al_message (alert_cols payload);
     al_alert_data := al_alert_data (alert_cols payload);
     al_location_latitude := al_location_latitude (alert_cols payload);
     al_location_longitude := al_location_longitude (alert_cols payload);
     al_triggered_at := al_triggered_at (alert_cols payload);
     al_status := al_status (alert_cols payload);
     al_auto_generated := al_auto_generated (alert_cols payload) |}.

(** The mail of [alert_mail] with [title] interpolated as the text [title]. *)
Definition titled_mail (to : JsVal) (title : string) (cols : AlertCols) : Mail :=
  {| mail_to := to;
     mail_subject := ("Cattle Farm Alert: " ++ title)%string;
     mail_text :=
       ("Alert: " ++ title ++ newline
        ++ "Severity: " ++ al_severity cols ++ newline
        ++ "Message: " ++ to_String (al_message cols) ++ newline
        ++ "Location: " ++ to_String (al_location_latitude cols)
        ++ ", " ++ to_String (al_location_longitude cols))%string |}.

(** [handleAlert] with [payload.alert] and [payload.title] given apart, as
    fields that may hold an array; the fields [a_alert] and [a_title] of
    [payload] are not read.  The other fields are primitives as before. *)
Definition handleAlertTitled (alert title : TitleField) (payload : AlertPayload)
  : M Response :=
  try_catch
    (let raw_title := field_or (field_or alert title) (Plain (JStr "Device Alert")) in
     let too_long :=
       js_gt (field_length raw_title) (inject_Z (Z.of_nat MAX_TITLE)) in
     title <- (if too_long then field_substring raw_title else ret raw_title) ;;
     let cols := titled_cols (field_column title) payload in
     when (Nat.ltb MAX_ALERT_TYPE (String.length (raw_alert_type payload)))
          (console_warn "Truncated alert_type from") ;;;
     when (Nat.ltb MAX_SEVERITY (String.length (raw_severity payload)))
          (console_warn "Truncated severity from") ;;;
     when too_long (console_warn "Truncated title from") ;;;
     result <- executeQuery (InsertAlert cols) ;;
     if negb (success result) then
       console_error "Failed to insert alert:" ;;;
       ret (with_error (error result)
              (respond 500 false "Failed to insert alert"))
     else
       let insertedId := inserted_id result in
       env <- getenv ;;
       when (truthy (SMTP_USER env) && truthy (SMTP_PASS env)
             && truthy (ALERT_EMAIL_TO env))
            (try_catch
               (sendEmail (titled_mail (ALERT_EMAIL_TO env) (field_text title) cols))
               (fun mailErr => console_warn "Failed to send alert email:")) ;;;
       ret (with_id insertedId (respond 201 true "Alert recorded")))
    (fun err =>
       console_error "Device alert route error:" ;;;
       ret (respond 500 false "Internal server error")).
(** ** Proof steps shared by the handlers *)

(** Opening a world into its fields, so that the effects compute. *)
Ltac open_world w :=
  destruct w as [db now faults queries console emitted lf env smtp outbox].

(** ** Facts about the upsert *)

Lemma key_eqb_refl k : key_eqb k k = true.
Proof. now apply key_eqb_eq. Qed.

Lemma key_eqb_neq a b : a <> b -> key_eqb a b = false.
Proof.
  intros Hne. destruct (key_eqb a b) eqn:E; [|reflexivity].
  apply key_eqb_eq in E. contradiction.
Qed.

Lemma row_key_overwrite_position new old :
  row_key (overwrite_position new old) = row_key old.
Proof. reflexivity. Qed.

Lemma row_key_overwrite_raw new old :
  row_key (overwrite_raw new old) = row_key old.
Proof. reflexivity. Qed.

Lemma key_eq_dec (a b : Key) : {a = b} + {a <> b}.
Proof.
  destruct (key_eqb a b) eqn:E.
  - left. now apply key_eqb_eq.
  - right. intros H. apply key_eqb_eq in H. congruence.
Qed.

Lemma records_for_absent k rows :
  ~ In k (map row_key rows) -> records_for k rows = [].
Proof.
  induction rows as [|r rows IH]; simpl; intros Hn; [reflexivity|].
  rewrite key_eqb_neq by (intros E; apply Hn; now left).
  apply IH. intros Hin. apply Hn. now right.
Qed.

Lemma records_for_unique k rows :
  unique_keys rows ->
  records_for k rows = [] \/ exists r, records_for k rows = [r].
Proof.
  unfold unique_keys.
  induction rows as [|r rows IH]; simpl; intros Hu; [now left|].
  inversion Hu as [|? ? Hn Hu']; subst.
  destruct (key_eqb (row_key r) k) eqn:E.
  - right. exists r. apply key_eqb_eq in E. subst k.
    now rewrite records_for_absent.
  - now apply IH.
Qed.

Section Upsert.

Variable assign : CurrentRow -> CurrentRow -> CurrentRow.
Hypothesis assign_key : forall new old, row_key (assign new old) = row_key old.

Lemma upsert_keys_present new rows :
  In (row_key new) (map row_key rows) ->
  map row_key (upsert assign new rows) = map row_key rows.
Proof.
  induction rows as [|r rows IH]; simpl; intros Hin; [contradiction|].
  destruct (key_eqb (row_key r) (row_key new)) eqn:E; simpl.
  - now rewrite assign_key.
  - f_equal. apply IH. destruct Hin as [Hr|Hin]; [|exact Hin].
    rewrite Hr, key_eqb_refl in E. discriminate.
Qed.

Lemma upsert_keys_absent new rows :
  ~ In (row_key new) (map row_key rows) ->
  upsert assign new rows = rows ++ [new].
Proof.
  induction rows as [|r rows IH]; simpl; intros Hn; [reflexivity|].
  rewrite key_eqb_neq by (intros E; apply Hn; now left).
  f_equal. apply IH. intros Hin. apply Hn. now right.
Qed.

Lemma upsert_unique_keys new rows :
  unique_keys rows -> unique_keys (upsert assign new rows).
Proof.
  unfold unique_keys. intros Hu.
  destruct (in_dec key_eq_dec (row_key new) (map row_key rows)) as [Hin|Hn].
  - now rewrite upsert_keys_present.
  - rewrite upsert_keys_absent, map_app by exact Hn. simpl.
    apply NoDup_app; [exact Hu | repeat constructor; intros [] | ].
    intros a Ha [Hb|[]]. subst a. contradiction.
Qed.

(** Under the key of the new row the table holds the first stored row
    rewritten, or the new row when none was stored. *)
Lemma records_for_upsert_same new rows :
  records_for (row_key new) (upsert assign new rows) =
  match records_for (row_key new) rows with
  | [] => [new]
  | old :: rest => assign new old :: rest
  end.
Proof.
  induction rows as [|r rows IH]; simpl.
  - now rewrite key_eqb_refl.
  - destruct (key_eqb (row_key r) (row_key new)) eqn:E; simpl.
    + now rewrite assign_key, E.
    + now rewrite E.
Qed.

(** Rows under any other key are left as they were. *)
Lemma records_for_upsert_other k new rows :
  k <> row_key new ->
  records_for k (upsert assign new rows) = records_for k rows.
Proof.
  intros Hk.
  induction rows as [|r rows IH]; simpl.
  - rewrite key_eqb_neq; [reflexivity|congruence].
  - destruct (key_eqb (row_key r) (row_key new)) eqn:E; simpl.
    + rewrite assign_key. apply key_eqb_eq in E.
      rewrite !key_eqb_neq by congruence. reflexivity.
    + now rewrite IH.
Qed.

End Upsert.

Lemma executeQuery_run q w :
  executeQuery q w =
  match next_fault w with
  | FOk => (Returned (ok_result q w), ran q w)
  | FFail e => (Returned (failed_result e), issued q w)
  | FThrow e => (Thrown e, issued q w)
  end.
Proof.
  unfold executeQuery, ok_result, ran.
  destruct (next_fault w); try reflexivity.
  simpl. now destruct (run_query q _ (w_db w)).
Qed.

Lemma publish_run ev msg w :
  try_catch (emit_location ev) (fun _ => console_warn msg) w =
  (Returned tt, published ev msg w).
Proof.
  unfold try_catch, emit_location, published, console_warn.
  now destruct (w_listener_fault w).
Qed.

Lemma recorded_or_now_run b w :
  recorded_or_now (default_null (recorded_at b)) w = (Returned (stamp b w), w).
Proof.
  unfold recorded_or_now, stamp.
  now destruct (truthy (default_null (recorded_at b))).
Qed.

Lemma next_fault_ok w : no_faults w -> next_fault w = FOk.
Proof.
  unfold no_faults, next_fault. intros H.
  destruct (w_faults w) as [|p l]; [reflexivity|].
  now inversion H.
Qed.

Lemma no_faults_issued q w : no_faults w -> no_faults (issued q w).
Proof.
  unfold no_faults. simpl. intros H.
  destruct (w_faults w); simpl; [constructor|now inversion H].
Qed.

Lemma no_faults_ran q w : no_faults w -> no_faults (ran q w).
Proof. intros H. now apply (no_faults_issued q) in H. Qed.

Lemma no_faults_published ev msg w : no_faults w -> no_faults (published ev msg w).
Proof. unfold published, no_faults. now destruct (w_listener_fault w). Qed.

(** ** The three paths of POST /gps, statement by statement *)

(** The attributed path: the insert into animal_locations, then the upsert
    and the event unless the upsert call rejects. *)
Lemma post_gps_attributed b w :
  is_correction b = false -> has_coordinates b = true -> attributed b = true ->
  let q1 := InsertLocation (report_cols b (stamp b w)) in
  post_gps b w =
  match next_fault w with
  | FFail e =>
      (Returned (with_error (JStr e) (respond 500 false "Database error")),
       issued q1 w)
  | FThrow e =>
      (Returned (respond 500 false "Internal server error"),
       logged (Error "GPS route error:") (issued q1 w))
  | FOk =>
      let w1 := ran q1 w in
      let q2 := UpsertCurrent (report_row b (stamp b w1)) in
      let ev := report_event b (stamp b w1) in
      (Returned (with_id JNull (respond 200 true "Animal location saved")),
       match next_fault w1 with
       | FOk => published ev "Failed to emit gps location event:" (ran q2 w1)
       | FFail _ => published ev "Failed to emit gps location event:" (issued q2 w1)
       | FThrow _ => logged (Warn "Failed to upsert current_locations:") (issued q2 w1)
       end)
  end.
Proof.
  unfold is_correction, has_coordinates, attributed. intros Hc Hxy Ha.
  apply negb_true_iff in Hxy.
  unfold post_gps. cbv zeta. rewrite Hc, Hxy, Ha.
  unfold stamp, next_fault, recorded_or_now.
  open_world w.
  destruct faults as [|[d1 f1] [|[d2 f2] rest]];
    try destruct f1; try destruct f2; destruct lf;
    destruct (truthy (default_null (recorded_at b))); reflexivity.
Qed.

(** The correction path: the update of animal_locations, then the upsert and
    the event unless the upsert call rejects. *)
Lemma post_gps_correction b w :
  is_correction b = true ->
  let q1 := UpdateLocation (report_cols b (stamp b w)) (correction_id b) in
  post_gps b w =
  match next_fault w with
  | FFail e =>
      (Returned (with_error (JStr e)
                   (respond 500 false "Failed to update animal_locations")),
       issued q1 w)
  | FThrow e =>
      (Returned (respond 500 false "Internal server error"),
       logged (Error "GPS route error:") (issued q1 w))
  | FOk =>
      let w1 := ran q1 w in
      let q2 := UpsertCurrent (report_row b (stamp b w1)) in
      let ev := report_event b (stamp b w1) in
      (Returned (with_id (correction_id b) (respond 200 true "GPS record updated")),
       match next_fault w1 with
       | FOk =>
           published ev "Failed to emit gps location event after update:" (ran q2 w1)
       | FFail _ =>
           published ev "Failed to emit gps location event after update:" (issued q2 w1)
       | FThrow _ =>
           logged (Warn "Failed to upsert current_locations after gps update:")
                  (issued q2 w1)
       end)
  end.
Proof.
  unfold is_correction, correction_id. intros Hc.
  unfold post_gps. cbv zeta. rewrite Hc.
  unfold stamp, next_fault, recorded_or_now.
  open_world w.
  destruct faults as [|[d1 f1] [|[d2 f2] rest]];
    try destruct f1; try destruct f2; destruct lf;
    destruct (truthy (default_null (recorded_at b))); reflexivity.
Qed.

(** Without an update id and without coordinates nothing is touched. *)
Lemma post_gps_missing b w :
  is_correction b = false -> has_coordinates b = false ->
  post_gps b w = (Returned (respond 400 false "Missing coordinates"), w).
Proof.
  unfold is_correction, has_coordinates. intros Hc Hxy.
  apply negb_false_iff in Hxy.
  unfold post_gps. cbv zeta. rewrite Hc, Hxy.
  now destruct w.
Qed.

(** The raw path: one upsert of the reserved row, then the event. *)
Lemma post_gps_raw b w :
  is_correction b = false -> has_coordinates b = true -> attributed b = false ->
  let now := SDate (Some (w_now w)) in
  let q := UpsertRawCurrent (to_Number (latitude b)) (to_Number (longitude b)) now in
  post_gps b w =
  match next_fault w with
  | FOk =>
      (Returned (respond 200 true
                   "GPS coordinates saved (updated current location)"),
       published (raw_event b now) "Failed to emit gps location event (raw):"
                 (ran q w))
  | FFail e =>
      (Returned (with_error (JStr e) (respond 500 false "Database error")),
       logged (Warn "Failed to upsert current_locations for raw gps:")
              (issued q w))
  | FThrow _ =>
      (Returned (respond 500 false "Internal server error"),
       logged (Error "Raw GPS upsert error:") (issued q w))
  end.
Proof.
  unfold is_correction, has_coordinates, attributed. intros Hc Hxy Ha.
  apply negb_true_iff in Hxy.
  unfold post_gps. cbv zeta. rewrite Hc, Hxy, Ha.
  unfold next_fault.
  open_world w.
  destruct faults as [|[d1 f1] rest];
    try destruct f1; destruct lf; reflexivity.
Qed.

Lemma w_db_published ev msg w : w_db (published ev msg w) = w_db w.
Proof. unfold published. now destruct (w_listener_fault w). Qed.

Lemma w_db_ran q w :
  w_db (ran q w) = snd (run_query q (w_now (issued q w)) (w_db w)).
Proof. reflexivity. Qed.

Lemma w_queries_published ev msg w : w_queries (published ev msg w) = w_queries w.
Proof. unfold published. now destruct (w_listener_fault w). Qed.

Lemma w_emitted_published ev msg w :
  w_emitted (published ev msg w) = w_emitted w ++ [ev].
Proof. unfold published. now destruct (w_listener_fault w). Qed.

(** What the upsert leaves under the key of the row it was given, when the
    table respects its unique index. *)
Lemma upsert_position_record new rows :
  unique_keys rows ->
  exists cur,
    records_for (row_key new) (upsert overwrite_position new rows) = [cur]
    /\ c_latitude cur = c_latitude new
    /\ c_longitude cur = c_longitude new
    /\ c_recorded_at cur = c_recorded_at new
    /\ c_battery_level cur = c_battery_level new
    /\ c_signal_quality cur = c_signal_quality new
    /\ c_temperature_celsius cur = c_temperature_celsius new
    /\ (forall old, records_for (row_key new) rows = [old] ->
        c_animal_id cur = c_animal_id old
        /\ c_collar_id cur = c_collar_id old
        /\ c_other cur = c_other old)
    /\ (records_for (row_key new) rows = [] -> cur = new).
Proof.
  intros Hu.
  rewrite (records_for_upsert_same overwrite_position row_key_overwrite_position).
  destruct (records_for_unique (row_key new) rows Hu) as [E|[old E]]; rewrite E.
  - exists new. do 7 (split; [reflexivity|]). split; [|reflexivity].
    intros o H. discriminate.
  - exists (overwrite_position new old). do 7 (split; [reflexivity|]).
    split; [|intros H; discriminate].
    intros o H. inversion H. subst o. now repeat split.
Qed.

(** C2. For a report with numeric coordinates that names an animal or a
    collar and carries no update id, when the two statements run: the route
    answers success, animal_locations gains exactly one row, holding the
    report's columns under the next id; current_locations then holds exactly
    one row under the report's key, with the report's coordinates, stamp,
    battery, signal and temperature; a row already stored under that key keeps
    its identity columns and every column the statement does not name; rows
    under other keys are untouched. *)
Theorem ingest_attributed_dual_write (b : GpsBody) (w : World) (lat lon : Q) :
  latitude b = JNum (Fin lat) -> longitude b = JNum (Fin lon) ->
  is_correction b = false -> attributed b = true ->
  no_faults w ->
  unique_keys (current_locations (w_db w)) ->
  let w' := snd (post_gps b w) in
  let w1 := ran (InsertLocation (report_cols b (stamp b w))) w in
  fst (post_gps b w)
    = Returned (with_id JNull (respond 200 true "Animal location saved"))
  /\ animal_locations (w_db w')
     = animal_locations (w_db w)
       ++ [{| h_id := animal_locations_next (w_db w);
              h_cols := report_cols b (stamp b w) |}]
  /\ l_latitude (report_cols b (stamp b w)) = Fin lat
  /\ l_longitude (report_cols b (stamp b w)) = Fin lon
  /\ (exists cur,
        records_for (report_key b) (current_locations (w_db w')) = [cur]
        /\ c_latitude cur = Fin lat
        /\ c_longitude cur = Fin lon
        /\ c_recorded_at cur = stamp b w1
        /\ c_battery_level cur = default_null (battery_level b)
        /\ c_signal_quality cur = default_null (signal_quality b)
        /\ c_temperature_celsius cur = default_null (temperature_celsius b)
        /\ (forall old,
              records_for (report_key b) (current_locations (w_db w)) = [old] ->
              c_animal_id cur = c_animal_id old
              /\ c_collar_id cur = c_collar_id old
              /\ c_other cur = c_other old)
        /\ (records_for (report_key b) (current_locations (w_db w)) = [] ->
            cur = report_row b (stamp b w1)))
  /\ (forall k, k <> report_key b ->
        records_for k (current_locations (w_db w'))
        = records_for k (current_locations (w_db w)))
  /\ unique_keys (current_locations (w_db w')).
Proof.
  intros Hlat Hlon Hc Ha Hf Hu w' w1.
  assert (Hxy : has_coordinates b = true)
    by (unfold has_coordinates; now rewrite Hlat, Hlon).
  subst w'. rewrite (post_gps_attributed b w Hc Hxy Ha). cbv zeta.
  rewrite (next_fault_ok w Hf).
  fold w1. rewrite (next_fault_ok w1 (no_faults_ran _ w Hf)).
  cbn [fst snd]. rewrite w_db_published.
  set (new := report_row b (stamp b w1)).
  change (report_key b) with (row_key new).
  assert (Hcur : current_locations (w_db (ran (UpsertCurrent new) w1))
                 = upsert overwrite_position new (current_locations (w_db w)))
    by reflexivity.
  assert (Hhis : animal_locations (w_db (ran (UpsertCurrent new) w1))
                 = animal_locations (w_db w)
                   ++ [{| h_id := animal_locations_next (w_db w);
                          h_cols := report_cols b (stamp b w) |}])
    by reflexivity.
  rewrite Hcur, Hhis.
  split; [reflexivity|]. split; [reflexivity|].
  split; [simpl; now rewrite Hlat|]. split; [simpl; now rewrite Hlon|].
  split.
  - destruct (upsert_position_record new _ Hu)
      as (cur & E & H1 & H2 & H3 & H4 & H5 & H6 & H7 & H8).
    exists cur. rewrite E, H1, H2, H3, H4, H5, H6.
    subst new. simpl. rewrite Hlat, Hlon. simpl.
    do 7 (split; [reflexivity|]). split; assumption.
  - split.
    + intros k Hk.
      now apply (records_for_upsert_other overwrite_position row_key_overwrite_position).
    + now apply (upsert_unique_keys overwrite_position row_key_overwrite_position).
Qed.

Lemma upsert_raw_record new rows :
  unique_keys rows ->
  exists cur,
    records_for (row_key new) (upsert overwrite_raw new rows) = [cur]
    /\ c_latitude cur = c_latitude new
    /\ c_longitude cur = c_longitude new
    /\ c_recorded_at cur = c_recorded_at new.
Proof.
  intros Hu.
  rewrite (records_for_upsert_same overwrite_raw row_key_overwrite_raw).
  destruct (records_for_unique (row_key new) rows Hu) as [E|[old E]]; rewrite E.
  - exists new. now repeat split.
  - exists (overwrite_raw new old). now repeat split.
Qed.

Lemma w_db_logged l w : w_db (logged l w) = w_db w.
Proof. reflexivity. Qed.

Lemma w_queries_logged l w : w_queries (logged l w) = w_queries w.
Proof. reflexivity. Qed.

(** C3. For a report with coordinates, no animal or collar and no update id,
    however the statement ends: animal_locations is left as it was, the one
    statement handed to the database is the upsert of the reserved row
    (animal_id 0, collar NULL) with the report's latitude and longitude as
    numbers and the server's time, and rows of current_locations under any
    other key are untouched.  When the statement runs, the reserved key holds
    exactly one row, with those coordinates and that time. *)
Theorem ingest_unattributed_sentinel_only (b : GpsBody) (w : World) :
  is_correction b = false -> has_coordinates b = true -> attributed b = false ->
  let w' := snd (post_gps b w) in
  let now := SDate (Some (w_now w)) in
  animal_locations (w_db w') = animal_locations (w_db w)
  /\ animal_locations_next (w_db w') = animal_locations_next (w_db w)
  /\ w_queries w'
     = w_queries w
       ++ [UpsertRawCurrent (to_Number (latitude b)) (to_Number (longitude b)) now]
  /\ (forall k, k <> sentinel_key ->
        records_for k (current_locations (w_db w'))
        = records_for k (current_locations (w_db w)))
  /\ (next_fault w = FOk -> unique_keys (current_locations (w_db w)) ->
      exists cur,
        records_for sentinel_key (current_locations (w_db w')) = [cur]
        /\ c_latitude cur = to_Number (latitude b)
        /\ c_longitude cur = to_Number (longitude b)
        /\ c_recorded_at cur = now).
Proof.
  intros Hc Hxy Ha w' now.
  subst w'. rewrite (post_gps_raw b w Hc Hxy Ha). cbv zeta. fold now.
  set (q := UpsertRawCurrent _ _ now).
  assert (Hcur : current_locations (w_db (ran q w))
                 = upsert overwrite_raw
                     (raw_row (to_Number (latitude b)) (to_Number (longitude b)) now)
                     (current_locations (w_db w)))
    by reflexivity.
  change sentinel_key
    with (row_key (raw_row (to_Number (latitude b)) (to_Number (longitude b)) now)).
  destruct (next_fault w) as [|e|e]; cbn [snd].
  - rewrite w_db_published, w_queries_published, Hcur.
    do 3 (split; [reflexivity|]). split.
    + intros k Hk.
      now apply (records_for_upsert_other overwrite_raw row_key_overwrite_raw).
    + intros _ Hu. exact (upsert_raw_record _ _ Hu).
  - rewrite w_db_logged, w_queries_logged.
    do 3 (split; [reflexivity|]). split; [reflexivity|discriminate].
  - rewrite w_db_logged, w_queries_logged.
    do 3 (split; [reflexivity|]). split; [reflexivity|discriminate].
Qed.

(** ** Facts about the update by id *)

Lemma update_rows_ids uid cols rows :
  map h_id (update_rows uid cols rows) = map h_id rows.
Proof.
  induction rows as [|r rows IH]; simpl; [reflexivity|].
  rewrite IH. now destruct (sql_id_matches (h_id r) uid).
Qed.

Lemma update_rows_length uid cols rows :
  length (update_rows uid cols rows) = length rows.
Proof. apply length_map. Qed.

Lemma update_rows_none uid cols rows :
  rows_with_id uid rows = [] -> update_rows uid cols rows = rows.
Proof.
  induction rows as [|r rows IH]; simpl; [reflexivity|].
  destruct (sql_id_matches (h_id r) uid); [discriminate|].
  intros H. now rewrite IH.
Qed.

Lemma update_rows_again uid c1 c2 rows :
  update_rows uid c2 (update_rows uid c1 rows) = update_rows uid c2 rows.
Proof.
  induction rows as [|r rows IH]; simpl; [reflexivity|].
  rewrite IH. destruct (sql_id_matches (h_id r) uid) eqn:E; simpl; now rewrite E.
Qed.

Lemma rows_with_id_update uid cols rows :
  rows_with_id uid (update_rows uid cols rows)
  = map (fun r => {| h_id := h_id r; h_cols := cols |}) (rows_with_id uid rows).
Proof.
  induction rows as [|r rows IH]; simpl; [reflexivity|].
  destruct (sql_id_matches (h_id r) uid) eqn:E; simpl; rewrite E, IH; reflexivity.
Qed.

(** C10. A correction whose update id addresses no row of animal_locations,
    when the two statements run: the route answers 200 with success and
    echoes the id, animal_locations is left exactly as it was (no row is
    created), the
    row of current_locations under the request's identity is upserted with
    the request's coordinates, and one location event is emitted. *)
Theorem correction_of_unknown_id (b : GpsBody) (w : World) :
  is_correction b = true ->
  rows_with_id (correction_id b) (animal_locations (w_db w)) = [] ->
  no_faults w ->
  unique_keys (current_locations (w_db w)) ->
  let w' := snd (post_gps b w) in
  fst (post_gps b w)
    = Returned (with_id (correction_id b) (respond 200 true "GPS record updated"))
  /\ animal_locations (w_db w') = animal_locations (w_db w)
  /\ animal_locations_next (w_db w') = animal_locations_next (w_db w)
  /\ (exists cur,
        records_for (report_key b) (current_locations (w_db w')) = [cur]
        /\ c_latitude cur = to_Number (latitude b)
        /\ c_longitude cur = to_Number (longitude b)
        /\ c_battery_level cur = default_null (battery_level b)
        /\ c_signal_quality cur = default_null (signal_quality b)
        /\ c_temperature_celsius cur = default_null (temperature_celsius b))
  /\ (exists t, w_emitted w' = w_emitted w ++ [report_event b t]).
Proof.
  intros Hc Hnone Hf Hu w'.
  subst w'. rewrite (post_gps_correction b w Hc). cbv zeta.
  rewrite (next_fault_ok w Hf).
  set (w1 := ran (UpdateLocation _ _) w).
  rewrite (next_fault_ok w1 (no_faults_ran _ w Hf)).
  cbn [fst snd]. rewrite w_db_published, w_emitted_published.
  set (new := report_row b (stamp b w1)).
  change (report_key b) with (row_key new).
  assert (Hcur : current_locations (w_db (ran (UpsertCurrent new) w1))
                 = upsert overwrite_position new (current_locations (w_db w)))
    by reflexivity.
  assert (Hhis : animal_locations (w_db (ran (UpsertCurrent new) w1))
                 = update_rows (correction_id b) (report_cols b (stamp b w))
                     (animal_locations (w_db w)))
    by reflexivity.
  rewrite Hcur, Hhis, (update_rows_none _ _ _ Hnone).
  split; [reflexivity|].
  split; [reflexivity|]. split; [reflexivity|]. split.
  - destruct (upsert_position_record new _ Hu)
      as (cur & E & H1 & H2 & H3 & H4 & H5 & H6 & _).
    exists cur. rewrite E, H1, H2, H4, H5, H6. now repeat split.
  - now exists (stamp b w1).
Qed.

(** The tables after a correction whose two statements ran. *)
Lemma post_gps_correction_ok b w :
  is_correction b = true -> no_faults w ->
  let w' := snd (post_gps b w) in
  let w1 := ran (UpdateLocation (report_cols b (stamp b w)) (correction_id b)) w in
  no_faults w'
  /\ animal_locations (w_db w')
     = update_rows (correction_id b) (report_cols b (stamp b w))
         (animal_locations (w_db w))
  /\ animal_locations_next (w_db w') = animal_locations_next (w_db w)
  /\ current_locations (w_db w')
     = upsert overwrite_position (report_row b (stamp b w1))
         (current_locations (w_db w)).
Proof.
  intros Hc Hf w' w1. subst w'.
  rewrite (post_gps_correction b w Hc). cbv zeta.
  rewrite (next_fault_ok w Hf). fold w1.
  rewrite (next_fault_ok w1 (no_faults_ran _ w Hf)).
  cbn [snd]. rewrite w_db_published. split; [|now repeat split].
  apply no_faults_published, no_faults_ran, no_faults_ran, Hf.
Qed.

(** The tables after an attributed report whose two statements ran. *)
Lemma post_gps_attributed_ok b w :
  is_correction b = false -> has_coordinates b = true -> attributed b = true ->
  no_faults w ->
  let w' := snd (post_gps b w) in
  no_faults w'
  /\ animal_locations (w_db w')
     = animal_locations (w_db w)
       ++ [{| h_id := animal_locations_next (w_db w);
              h_cols := report_cols b (stamp b w) |}].
Proof.
  intros Hc Hxy Ha Hf w'. subst w'.
  rewrite (post_gps_attributed b w Hc Hxy Ha). cbv zeta.
  rewrite (next_fault_ok w Hf).
  rewrite (next_fault_ok _ (no_faults_ran _ w Hf)).
  cbn [snd]. rewrite w_db_published. split; [|reflexivity].
  apply no_faults_published, no_faults_ran, no_faults_ran, Hf.
Qed.

(** C4. A correction sent twice with the same body, addressing one stored
    row, when the statements run: animal_locations has the same ids in the
    same order as before (nothing is added), the addressed row is still the
    only one under its id and holds the columns of the second request, and
    when the body carries its own [recorded_at] the second request leaves
    animal_locations exactly as the first left it; current_locations holds
    exactly one row under the request's key, with the values of the second
    request.  By contrast an attributed report without update id adds a row
    on each request: one after the first, two after the second. *)
Theorem correction_twice_one_row (b : GpsBody) (w : World) (orig : HistoryRow) :
  is_correction b = true ->
  rows_with_id (correction_id b) (animal_locations (w_db w)) = [orig] ->
  no_faults w ->
  unique_keys (current_locations (w_db w)) ->
  let w1 := snd (post_gps b w) in
  let w2 := twice b w in
  let w1' := ran (UpdateLocation (report_cols b (stamp b w1)) (correction_id b)) w1 in
  map h_id (animal_locations (w_db w2)) = map h_id (animal_locations (w_db w))
  /\ length (animal_locations (w_db w2)) = length (animal_locations (w_db w))
  /\ animal_locations (w_db w2)
     = update_rows (correction_id b) (report_cols b (stamp b w1))
         (animal_locations (w_db w))
  /\ rows_with_id (correction_id b) (animal_locations (w_db w2))
     = [{| h_id := h_id orig; h_cols := report_cols b (stamp b w1) |}]
  /\ (truthy (default_null (recorded_at b)) = true ->
      animal_locations (w_db w2) = animal_locations (w_db w1))
  /\ (exists cur,
        records_for (report_key b) (current_locations (w_db w2)) = [cur]
        /\ c_latitude cur = to_Number (latitude b)
        /\ c_longitude cur = to_Number (longitude b)
        /\ c_recorded_at cur = stamp b w1'
        /\ c_battery_level cur = default_null (battery_level b)
        /\ c_signal_quality cur = default_null (signal_quality b)
        /\ c_temperature_celsius cur = default_null (temperature_celsius b))
  /\ (forall b',
        is_correction b' = false -> has_coordinates b' = true ->
        attributed b' = true ->
        length (animal_locations (w_db (snd (post_gps b' w))))
        = S (length (animal_locations (w_db w)))
        /\ length (animal_locations (w_db (twice b' w)))
           = S (S (length (animal_locations (w_db w))))).
Proof.
  intros Hc Horig Hf Hu w1 w2 w1'.
  destruct (post_gps_correction_ok b w Hc Hf) as (Hf1 & Hh1 & _ & Hc1).
  fold w1 in Hf1, Hh1, Hc1.
  destruct (post_gps_correction_ok b w1 Hc Hf1) as (_ & Hh2 & _ & Hc2).
  fold w1' in Hc2.
  change (snd (post_gps b w1)) with w2 in Hh2, Hc2.
  rewrite Hh1, update_rows_again in Hh2.
  assert (Hu1 : unique_keys (current_locations (w_db w1))).
  { rewrite Hc1.
    now apply (upsert_unique_keys overwrite_position row_key_overwrite_position). }
  rewrite Hh2, Hc2.
  split; [apply update_rows_ids|].
  split; [apply update_rows_length|].
  split; [reflexivity|].
  split; [now rewrite rows_with_id_update, Horig|].
  split.
  { intros Ht. rewrite Hh1. unfold stamp. now rewrite Ht. }
  split.
  { set (new := report_row b (stamp b w1')).
    change (report_key b) with (row_key new).
    destruct (upsert_position_record new _ Hu1)
      as (cur & E & H1 & H2 & H3 & H4 & H5 & H6 & _).
    exists cur. rewrite E, H1, H2, H3, H4, H5, H6. now repeat split. }
  intros b' Hc' Hxy' Ha'.
  destruct (post_gps_attributed_ok b' w Hc' Hxy' Ha' Hf) as (Hf' & Hh').
  destruct (post_gps_attributed_ok b' _ Hc' Hxy' Ha' Hf') as (_ & Hh'').
  unfold twice. rewrite Hh'', Hh', !length_app. simpl. lia.
Qed.

Lemma w_emitted_logged l w : w_emitted (logged l w) = w_emitted w.
Proof. reflexivity. Qed.

(** A failed insert into animal_locations ends the request: status 500,
    and the insert is the only statement that was handed to the database;
    nothing is emitted. *)
Lemma history_write_failure_is_fatal b w :
  is_correction b = false -> has_coordinates b = true -> attributed b = true ->
  next_fault w <> FOk ->
  let w' := snd (post_gps b w) in
  (exists r, fst (post_gps b w) = Returned r
             /\ r_status r = 500 /\ r_success r = false)
  /\ w_queries w'
     = w_queries w ++ [InsertLocation (report_cols b (stamp b w))]
  /\ w_db w' = w_db w
  /\ w_emitted w' = w_emitted w.
Proof.
  intros Hc Hxy Ha Hfail w'. subst w'.
  rewrite (post_gps_attributed b w Hc Hxy Ha). cbv zeta.
  destruct (next_fault w) as [|e|e]; [contradiction| |]; cbn [fst snd].
  - split; [eexists; now repeat split|now repeat split].
  - split; [eexists; now repeat split|now repeat split].
Qed.

(** When the insert ran and the upsert call rejects, the request still
    answers success: the row of animal_locations stays, current_locations is
    as before, the failure is logged and nothing is emitted. *)
Lemma upsert_rejection_is_not_fatal b w e :
  is_correction b = false -> has_coordinates b = true -> attributed b = true ->
  next_fault w = FOk ->
  let w1 := ran (InsertLocation (report_cols b (stamp b w))) w in
  next_fault w1 = FThrow e ->
  let w' := snd (post_gps b w) in
  fst (post_gps b w)
    = Returned (with_id JNull (respond 200 true "Animal location saved"))
  /\ animal_locations (w_db w')
     = animal_locations (w_db w)
       ++ [{| h_id := animal_locations_next (w_db w);
              h_cols := report_cols b (stamp b w) |}]
  /\ current_locations (w_db w') = current_locations (w_db w)
  /\ w_console w' = w_console w ++ [Warn "Failed to upsert current_locations:"]
  /\ w_emitted w' = w_emitted w.
Proof.
  intros Hc Hxy Ha H1 w1 H2 w'. subst w'.
  rewrite (post_gps_attributed b w Hc Hxy Ha). cbv zeta.
  rewrite H1. fold w1. rewrite H2. now repeat split.
Qed.

(** When the insert ran and the upsert call resolves to a failure, the
    request answers success and the row of animal_locations stays, but the
    result of the upsert is never read: the event is emitted for a position
    current_locations does not hold, and the route logs nothing. *)
Lemma upsert_failure_goes_unnoticed b w e :
  is_correction b = false -> has_coordinates b = true -> attributed b = true ->
  next_fault w = FOk ->
  let w1 := ran (InsertLocation (report_cols b (stamp b w))) w in
  next_fault w1 = FFail e ->
  w_listener_fault w = None ->
  let w' := snd (post_gps b w) in
  fst (post_gps b w)
    = Returned (with_id JNull (respond 200 true "Animal location saved"))
  /\ animal_locations (w_db w')
     = animal_locations (w_db w)
       ++ [{| h_id := animal_locations_next (w_db w);
              h_cols := report_cols b (stamp b w) |}]
  /\ current_locations (w_db w') = current_locations (w_db w)
  /\ w_console w' = w_console w
  /\ w_emitted w' = w_emitted w ++ [report_event b (stamp b w1)].
Proof.
  intros Hc Hxy Ha H1 w1 H2 Hl w'. subst w'.
  rewrite (post_gps_attributed b w Hc Hxy Ha). cbv zeta.
  rewrite H1. fold w1. rewrite H2. cbn [fst snd].
  rewrite w_db_published, w_emitted_published.
  unfold published. cbn [w_listener_fault issued w1 ran with_db].
  rewrite Hl. now repeat split.
Qed.

(** ** createVirtualFence *)

Lemma num_lt_spec x y : num_lt (Fin x) (Fin y) = true <-> (x < y)%Q.
Proof.
  unfold num_lt. rewrite negb_true_iff.
  split.
  - intros H. apply Qnot_le_lt. intros Hle.
    apply Qle_bool_iff in Hle. congruence.
  - intros H. destruct (Qle_bool y x) eqn:E; [|reflexivity].
    apply Qle_bool_iff in E. exfalso. now apply (Qlt_not_le x y).
Qed.

Lemma num_lt_false x y : num_lt (Fin x) (Fin y) = false <-> (y <= x)%Q.
Proof.
  unfold num_lt. rewrite negb_false_iff. apply Qle_bool_iff.
Qed.

(** Every numeric input with a latitude outside [-90, 90], a longitude
    outside [-180, 180] or a radius outside [50, 10000] is answered 400, and
    no statement is handed to the database. *)
Lemma fence_out_of_range_rejected b w lat lon rad :
  center_latitude b = JNum (Fin lat) ->
  center_longitude b = JNum (Fin lon) ->
  radius_meters b = JNum (Fin rad) ->
  ~ in_fence_ranges lat lon rad ->
  exists r, createVirtualFence b w = (Returned r, w)
            /\ r_status r = 400 /\ r_success r = false.
Proof.
  intros Hlat Hlon Hrad Hout.
  unfold createVirtualFence, try_catch, js_lt, js_gt. cbv zeta.
  rewrite Hlat, Hlon, Hrad. cbn [to_Number].
  destruct (negb (truthy (name b)) || negb (truthy (JNum (Fin lat)))
            || negb (truthy (JNum (Fin lon))) || negb (truthy (JNum (Fin rad)))).
  { eexists. split; [reflexivity|now split]. }
  destruct (num_lt (Fin lat) (Fin (inject_Z (-90)))) eqn:E1;
    [eexists; split; [reflexivity|now split]|].
  destruct (num_lt (Fin (inject_Z 90)) (Fin lat)) eqn:E2;
    [eexists; split; [reflexivity|now split]|].
  destruct (num_lt (Fin lon) (Fin (inject_Z (-180)))) eqn:E3;
    [eexists; split; [reflexivity|now split]|].
  destruct (num_lt (Fin (inject_Z 180)) (Fin lon)) eqn:E4;
    [eexists; split; [reflexivity|now split]|].
  destruct (num_lt (Fin rad) (Fin (inject_Z 50))) eqn:E5;
    [eexists; split; [reflexivity|now split]|].
  destruct (num_lt (Fin (inject_Z 10000)) (Fin rad)) eqn:E6;
    [eexists; split; [reflexivity|now split]|].
  exfalso. apply Hout. unfold in_fence_ranges.
  apply num_lt_false in E1, E2, E3, E4, E5, E6. now repeat split.
Qed.

(** A named fence whose numeric coordinates and radius are in range, with
    neither coordinate zero, is inserted and answered 201. *)
Lemma fence_in_range_accepted b w lat lon rad :
  truthy (name b) = true ->
  center_latitude b = JNum (Fin lat) ->
  center_longitude b = JNum (Fin lon) ->
  radius_meters b = JNum (Fin rad) ->
  in_fence_ranges lat lon rad ->
  ~ (lat == 0)%Q -> ~ (lon == 0)%Q ->
  next_fault w = FOk ->
  fst (createVirtualFence b w)
    = Returned (with_data (FenceId (virtual_fences_next (w_db w)))
                  (respond 201 true "Virtual fence created successfully"))
  /\ length (virtual_fences (w_db (snd (createVirtualFence b w))))
     = S (length (virtual_fences (w_db w))).
Proof.
  intros Hn Hlat Hlon Hrad (R1 & R2 & R3 & R4 & R5 & R6) Hz1 Hz2 Hf.
  assert (T : forall q, ~ (q == 0)%Q -> truthy (JNum (Fin q)) = true).
  { intros q Hq. simpl. destruct (Qeq_bool q 0) eqn:E; [|reflexivity].
    apply Qeq_bool_iff in E. contradiction. }
  assert (Hz3 : ~ (rad == 0)%Q).
  { intros E. rewrite E in R5. revert R5. unfold Qle. simpl. lia. }
  unfold createVirtualFence, js_lt, js_gt. cbv zeta.
  rewrite Hn, Hlat, Hlon, Hrad, (T _ Hz1), (T _ Hz2), (T _ Hz3).
  cbn [to_Number negb orb].
  apply num_lt_false in R1, R2, R3, R4, R5, R6.
  rewrite R1, R2, R3, R4, R5, R6. cbn [orb].
  unfold try_catch, bind. rewrite executeQuery_run, Hf.
  split; [reflexivity|].
  cbn. rewrite length_app. simpl. lia.
Qed.

(** A latitude or longitude of zero is answered as if it were missing. *)
Lemma fence_zero_coordinate_rejected b w :
  truthy (center_latitude b) = false \/ truthy (center_longitude b) = false ->
  createVirtualFence b w
  = (Returned (respond 400 false "Name, coordinates, and radius are required"), w).
Proof.
  intros H. unfold createVirtualFence, try_catch. cbv zeta.
  destruct (truthy (name b)), (truthy (center_latitude b)),
    (truthy (center_longitude b)), (truthy (radius_meters b));
    try reflexivity; destruct H; discriminate.
Qed.

(** ** updateRemoteConfig *)



(** Without a truthy [expires_hours] the expiry is the start of the request
    plus the default number of hours of the command type. *)
Lemma expiry_absent now v h :
  truthy v = false ->
  0 <= now -> 0 <= h -> now + h * HOUR <= MAX_TIME ->
  expiry now v h = Some (now + h * HOUR).
Proof.
  intros Hv Hn Hh Hb.
  unfold expiry, Date_of, js_or, num. rewrite Hv.
  cbn [to_Number num_mul num_add].
  assert (E : truncate (inject_Z now
                        + inject_Z h * inject_Z 60 * inject_Z 60 * inject_Z 1000)
              = now + h * HOUR).
  { unfold truncate, HOUR. simpl. rewrite Z.quot_1_r. lia. }
  rewrite E.
  destruct (Z.abs (now + h * HOUR) <=? MAX_TIME) eqn:L; [reflexivity|].
  apply Z.leb_gt in L. unfold HOUR in *. lia.
Qed.


(** With a device id the request never touches system_settings, however its
    inserts end. *)
Lemma device_path_keeps_settings b w :
  truthy (device_id b) = true ->
  system_settings (w_db (snd (updateRemoteConfig b w))) = system_settings (w_db w).
Proof.
  intros Hd. unfold updateRemoteConfig. cbv zeta. rewrite Hd.
  open_world w.
  destruct faults as [|[d1 f1] [|[d2 f2] rest]];
    try destruct f1; try destruct f2;
    destruct (defined (soundEnabled b) || defined (lightsEnabled b));
    destruct (truthy (wifiSSID b) || truthy (wifiPassword b)); reflexivity.
Qed.

(** Without a device id the one statement the request can hand to the
    database is the UPDATE of system_settings, whose assignments are built
    from the sound, lights and threshold fields alone. *)
Lemma global_path_tables b w :
  truthy (device_id b) = false ->
  w_db (snd (updateRemoteConfig b w))
  = match settings_updates b, next_fault w with
    | _ :: _, FOk => w_db (ran (UpdateSettings (settings_updates b)) w)
    | _, _ => w_db w
    end.
Proof.
  intros Hd. unfold updateRemoteConfig, settings_updates, next_fault.
  cbv zeta. rewrite Hd.
  open_world w.
  destruct faults as [|[d1 f1] rest]; try destruct f1;
    destruct (defined (soundEnabled b)), (defined (lightsEnabled b)),
      (defined (sensorThreshold b));
    destruct (truthy (wifiSSID b) || truthy (wifiPassword b)); reflexivity.
Qed.

Lemma ran_settings_other_tables u w :
  device_commands (w_db (ran (UpdateSettings u) w)) = device_commands (w_db w).
Proof. reflexivity. Qed.

(** The wifi fields of a request have no influence on system_settings: two
    requests that differ in them only leave the same settings. *)
Lemma wifi_never_reaches_settings b1 b2 w :
  sensorThreshold b1 = sensorThreshold b2 ->
  soundEnabled b1 = soundEnabled b2 ->
  lightsEnabled b1 = lightsEnabled b2 ->
  device_id b1 = device_id b2 ->
  system_settings (w_db (snd (updateRemoteConfig b1 w)))
  = system_settings (w_db (snd (updateRemoteConfig b2 w))).
Proof.
  intros Ht Hs Hl Hd.
  destruct (truthy (device_id b1)) eqn:E.
  - rewrite (device_path_keeps_settings b1 w E).
    rewrite Hd in E. now rewrite (device_path_keeps_settings b2 w E).
  - rewrite (global_path_tables b1 w E).
    rewrite Hd in E. rewrite (global_path_tables b2 w E).
    assert (Hu : settings_updates b1 = settings_updates b2)
      by (unfold settings_updates; now rewrite Ht, Hs, Hl).
    now rewrite Hu.
Qed.

(** Without a device id device_commands is never written. *)
Lemma global_path_keeps_commands b w :
  truthy (device_id b) = false ->
  device_commands (w_db (snd (updateRemoteConfig b w))) = device_commands (w_db w).
Proof.
  intros Hd. rewrite (global_path_tables b w Hd).
  destruct (settings_updates b); [reflexivity|].
  destruct (next_fault w); reflexivity.
Qed.

(** A wifi field without device id is answered 400 when the request has no
    settings field or the UPDATE of system_settings ran. *)
Lemma wifi_without_device_rejected b w :
  truthy (device_id b) = false -> wants_wifi b = true ->
  settings_updates b = [] \/ next_fault w = FOk ->
  fst (updateRemoteConfig b w)
  = Returned (respond 400 false
                "Provide device_id to perform wifi update on a specific device").
Proof.
  unfold wants_wifi, settings_updates, next_fault. intros Hd Hw Hok.
  unfold updateRemoteConfig. cbv zeta. rewrite Hd, Hw.
  open_world w.
  simpl in Hok.
  destruct (defined (soundEnabled b)), (defined (lightsEnabled b)),
    (defined (sensorThreshold b));
    destruct faults as [|[d1 f1] rest]; try destruct f1; try reflexivity;
    destruct Hok; discriminate.
Qed.

(** When the UPDATE of system_settings does not run, the request is answered
    200 at once, whatever else it carried. *)
Lemma settings_failure_answers_accepted b w :
  truthy (device_id b) = false ->
  settings_updates b <> [] -> next_fault w <> FOk ->
  fst (updateRemoteConfig b w) = Returned (accepted_unpersisted b).
Proof.
  unfold settings_updates, next_fault. intros Hd Hu Hfail.
  unfold updateRemoteConfig. cbv zeta. rewrite Hd.
  open_world w.
  simpl in Hfail.
  destruct (defined (soundEnabled b)), (defined (lightsEnabled b)),
    (defined (sensorThreshold b));
    try (exfalso; apply Hu; reflexivity);
    (destruct faults as [|[d1 f1] rest]; [exfalso; now apply Hfail|]);
    (destruct f1; [exfalso; now apply Hfail| |]);
    destruct (truthy (wifiSSID b) || truthy (wifiPassword b)); reflexivity.
Qed.

(** ** handleAlert *)

Lemma substring_0_length n s : (String.length (substring 0 n s) <= n)%nat.
Proof.
  revert s. induction n as [|n IH]; intros s; destruct s as [|c s]; simpl;
    try lia.
  specialize (IH s). lia.
Qed.

Lemma prefix_refl s : prefix s s = true.
Proof.
  induction s as [|c s IH]; simpl; [reflexivity|].
  now destruct (Ascii.ascii_dec c c).
Qed.

Lemma substring_0_prefix n s : prefix (substring 0 n s) s = true.
Proof.
  revert s. induction n as [|n IH]; intros s; destruct s as [|c s]; simpl;
    try reflexivity.
  now destruct (Ascii.ascii_dec c c).
Qed.

Lemma cap_length max s : (String.length (cap max s) <= max)%nat.
Proof.
  unfold cap. destruct (Nat.ltb max (String.length s)) eqn:E.
  - apply substring_0_length.
  - apply Nat.ltb_ge in E. exact E.
Qed.

Lemma cap_prefix max s : prefix (cap max s) s = true.
Proof.
  unfold cap. destruct (Nat.ltb max (String.length s)).
  - apply substring_0_prefix.
  - apply prefix_refl.
Qed.

Lemma cap_fits max s : (String.length s <= max)%nat -> cap max s = s.
Proof.
  intros H. unfold cap. apply Nat.ltb_ge in H. now rewrite H.
Qed.

Lemma substring_0_exact n s :
  (n <= String.length s)%nat -> String.length (substring 0 n s) = n.
Proof.
  revert s. induction n as [|n IH]; intros s H; destruct s as [|c s]; simpl in *;
    try reflexivity; try lia.
  rewrite IH; [reflexivity|lia].
Qed.

Lemma cap_cuts max s :
  (max < String.length s)%nat ->
  cap max s = substring 0 max s /\ String.length (cap max s) = max.
Proof.
  intros H. unfold cap.
  assert (E : Nat.ltb max (String.length s) = true) by now apply Nat.ltb_lt.
  rewrite E. split; [reflexivity|]. apply substring_0_exact. lia.
Qed.

Lemma cap_title_string v s :
  v = JStr s ->
  exists s', cap_title v = JStr s'
             /\ (String.length s' <= MAX_TITLE)%nat
             /\ prefix s' s = true
             /\ ((String.length s <= MAX_TITLE)%nat -> s' = s).
Proof.
  intros ->. unfold cap_title.
  destruct (Nat.ltb MAX_TITLE (String.length s)) eqn:E.
  - exists (substring 0 MAX_TITLE s). split; [reflexivity|].
    split; [apply substring_0_length|]. split; [apply substring_0_prefix|].
    intros H. apply Nat.ltb_lt in E. lia.
  - exists s. split; [reflexivity|]. apply Nat.ltb_ge in E.
    split; [exact E|]. split; [apply prefix_refl|reflexivity].
Qed.

(** When the insert runs the alert is stored with the capped columns and
    answered 201, whatever the console, the environment and the mail
    transport do. *)
Lemma handleAlert_stores payload w :
  next_fault w = FOk ->
  let w' := snd (handleAlert payload w) in
  w_db w'
  = set_alerts (alerts (w_db w)
                ++ [{| al_id := alerts_next (w_db w);
                       al_cols := alert_cols payload |}])
               (alerts_next (w_db w) + 1) (w_db w)
  /\ w_queries w' = w_queries w ++ [InsertAlert (alert_cols payload)]
  /\ fst (handleAlert payload w)
     = Returned (with_id (if alerts_next (w_db w) =? 0 then JNull
                          else num (alerts_next (w_db w)))
                   (respond 201 true "Alert recorded")).
Proof.
  unfold next_fault, handleAlert. intros Hf. cbv zeta.
  open_world w.
  simpl in Hf.
  destruct faults as [|[d f] rest]; simpl in Hf; subst;
    destruct (Nat.ltb MAX_ALERT_TYPE (String.length (raw_alert_type payload)));
    destruct (Nat.ltb MAX_SEVERITY (String.length (raw_severity payload)));
    destruct (title_too_long (raw_title payload));
    destruct (truthy (SMTP_USER env) && truthy (SMTP_PASS env)
              && truthy (ALERT_EMAIL_TO env)) eqn:Em;
    destruct smtp;
    unfold when, try_catch, bind, ret, console_warn, getenv, sendEmail,
      executeQuery, next_fault, inserted_id;
    cbn -[alert_cols alert_mail Z.eqb num]; rewrite ?Em;
    cbn -[alert_cols alert_mail Z.eqb num]; now repeat split.
Qed.

(** A mail that the transport rejects is logged and not sent. *)
Lemma handleAlert_mail_failure payload w e :
  next_fault w = FOk ->
  truthy (SMTP_USER (w_env w)) && truthy (SMTP_PASS (w_env w))
  && truthy (ALERT_EMAIL_TO (w_env w)) = true ->
  w_smtp_fault w = Some e ->
  let w' := snd (handleAlert payload w) in
  w_outbox w' = w_outbox w
  /\ In (Warn "Failed to send alert email:") (w_console w').
Proof.
  unfold next_fault, handleAlert. intros Hf Em Hs. cbv zeta.
  open_world w.
  simpl in Hf, Em, Hs. subst smtp.
  destruct faults as [|[d f] rest]; simpl in Hf; subst;
    destruct (Nat.ltb MAX_ALERT_TYPE (String.length (raw_alert_type payload)));
    destruct (Nat.ltb MAX_SEVERITY (String.length (raw_severity payload)));
    destruct (title_too_long (raw_title payload));
    unfold when, try_catch, bind, ret, console_warn, getenv, sendEmail,
      executeQuery, next_fault, inserted_id;
    cbn -[alert_cols alert_mail Z.eqb num]; rewrite Em;
    cbn -[alert_cols alert_mail Z.eqb num];
    (split; [reflexivity|]); apply in_or_app; right; now left.
Qed.

(** For any payload of primitives, when the insert runs: the alert is
    stored, under the next id, with its type cut to 100, its severity to 32
    and a string title to 255 characters; each stored value is the value
    sent when that fits and its first 100, 32 or 255 characters, no fewer,
    when it does not; a title that is a number or a boolean is stored as it
    is; exactly one statement reaches the database; the response is 201 with
    success.  This holds whatever the mail transport does: a rejected mail
    leaves the stored alert and the response as they are and is logged. *)
Theorem alert_recorded_with_capped_fields (payload : AlertPayload) (w : World) :
  next_fault w = FOk ->
  let cols := alert_cols payload in
  let w' := snd (handleAlert payload w) in
  (String.length (al_alert_type cols) <= MAX_ALERT_TYPE)%nat
  /\ (String.length (al_severity cols) <= MAX_SEVERITY)%nat
  /\ prefix (al_alert_type cols) (raw_alert_type payload) = true
  /\ prefix (al_severity cols) (raw_severity payload) = true
  /\ ((String.length (raw_alert_type payload) <= MAX_ALERT_TYPE)%nat ->
      al_alert_type cols = raw_alert_type payload)
  /\ ((String.length (raw_severity payload) <= MAX_SEVERITY)%nat ->
      al_severity cols = raw_severity payload)
  /\ (forall s, raw_title payload = JStr s ->
        exists s', al_title cols = JStr s'
                   /\ (String.length s' <= MAX_TITLE)%nat
                   /\ prefix s' s = true
                   /\ ((String.length s <= MAX_TITLE)%nat -> s' = s))
  /\ alerts (w_db w')
     = alerts (w_db w) ++ [{| al_id := alerts_next (w_db w); al_cols := cols |}]
  /\ w_queries w' = w_queries w ++ [InsertAlert cols]
  /\ (exists i, fst (handleAlert payload w)
                = Returned (with_id i (respond 201 true "Alert recorded")))
  /\ (forall e,
        truthy (SMTP_USER (w_env w)) && truthy (SMTP_PASS (w_env w))
        && truthy (ALERT_EMAIL_TO (w_env w)) = true ->
        w_smtp_fault w = Some e ->
        w_outbox w' = w_outbox w
        /\ In (Warn "Failed to send alert email:") (w_console w'))
  /\ ((MAX_ALERT_TYPE < String.length (raw_alert_type payload))%nat ->
      al_alert_type cols = substring 0 MAX_ALERT_TYPE (raw_alert_type payload)
      /\ String.length (al_alert_type cols) = MAX_ALERT_TYPE)
  /\ ((MAX_SEVERITY < String.length (raw_severity payload))%nat ->
      al_severity cols = substring 0 MAX_SEVERITY (raw_severity payload)
      /\ String.length (al_severity cols) = MAX_SEVERITY)
  /\ (forall s, raw_title payload = JStr s ->
        (MAX_TITLE < String.length s)%nat ->
        al_title cols = JStr (substring 0 MAX_TITLE s)
        /\ String.length (substring 0 MAX_TITLE s) = MAX_TITLE)
  /\ ((forall s, raw_title payload <> JStr s) ->
      al_title cols = raw_title payload).
Proof.
  intros Hf cols w'.
  assert (Hexact :
            ((MAX_ALERT_TYPE < String.length (raw_alert_type payload))%nat ->
             al_alert_type cols = substring 0 MAX_ALERT_TYPE (raw_alert_type payload)
             /\ String.length (al_alert_type cols) = MAX_ALERT_TYPE)
            /\ ((MAX_SEVERITY < String.length (raw_severity payload))%nat ->
                al_severity cols = substring 0 MAX_SEVERITY (raw_severity payload)
                /\ String.length (al_severity cols) = MAX_SEVERITY)
            /\ (forall s, raw_title payload = JStr s ->
                  (MAX_TITLE < String.length s)%nat ->
                  al_title cols = JStr (substring 0 MAX_TITLE s)
                  /\ String.length (substring 0 MAX_TITLE s) = MAX_TITLE)
            /\ ((forall s, raw_title payload <> JStr s) ->
                al_title cols = raw_title payload)).
  { split; [apply cap_cuts|]. split; [apply cap_cuts|]. split.
    - intros s Hs Hl. subst cols. simpl. rewrite Hs. unfold cap_title.
      assert (E : Nat.ltb MAX_TITLE (String.length s) = true)
        by now apply Nat.ltb_lt.
      rewrite E. split; [reflexivity|]. apply substring_0_exact. lia.
    - intros Hn. subst cols. simpl. unfold cap_title.
      destruct (raw_title payload) as [| |b|n|s]; try reflexivity.
      exfalso. now apply (Hn s). }
  destruct (handleAlert_stores payload w Hf) as (Hdb & Hq & Hr).
  split; [apply cap_length|]. split; [apply cap_length|].
  split; [apply cap_prefix|]. split; [apply cap_prefix|].
  split; [apply cap_fits|]. split; [apply cap_fits|].
  split; [intros s Hs; now apply cap_title_string|].
  split; [subst w'; now rewrite Hdb|].
  split; [exact Hq|].
  split; [eexists; exact Hr|].
  split; [|exact Hexact].
  intros e Em Hs. now apply (handleAlert_mail_failure payload w e).
Qed.

(** ** The command poll *)

Lemma expired_past now c t :
  cmd_expires_at c = Some t -> t < now -> expired now c = true.
Proof. unfold expired. intros -> H. now apply Z.ltb_lt. Qed.

Lemma poll_drops_expired now deviceId cmds :
  poll now deviceId cmds
  = poll now deviceId (filter (fun c => negb (expired now c)) cmds).
Proof.
  unfold poll. induction cmds as [|c cmds IH]; simpl; [reflexivity|].
  destruct (expired now c) eqn:E; simpl.
  - rewrite andb_false_r. exact IH.
  - rewrite E, IH. reflexivity.
Qed.

(** C5. A command whose [expiresAt] lies before the time of the poll is not
    among the commands the poll returns, whatever its stored status and
    whatever else the queue holds; the poll answers as if the expired
    commands were not in the queue, and such a command adds nothing to the
    number of pending commands. *)
Theorem expired_command_never_polled
        (now : Z) (deviceId : JsVal) (cmds : list CommandRow)
        (c : CommandRow) (t : Z) :
  cmd_expires_at c = Some t -> t < now ->
  ~ In c (poll now deviceId cmds)
  /\ poll now deviceId cmds
     = poll now deviceId (filter (fun c => negb (expired now c)) cmds)
  /\ pending_count now deviceId (c :: cmds) = pending_count now deviceId cmds.
Proof.
  intros Ht Hlt. pose proof (expired_past now c t Ht Hlt) as He.
  split; [|split].
  - unfold poll. intros Hin. apply filter_In in Hin. destruct Hin as [_ Hp].
    rewrite He, andb_false_r in Hp. discriminate.
  - apply poll_drops_expired.
  - unfold pending_count, poll. simpl. now rewrite He, andb_false_r.
Qed.

(** ** Further properties of POST /gps *)

(** X1. A correction whose UPDATE of animal_locations does not run, because
    the call resolves to a failure or rejects, is answered 500; the UPDATE is
    the only statement handed to the database, no table changes and nothing
    is emitted. *)
Theorem correction_update_failure_is_fatal (b : GpsBody) (w : World) :
  is_correction b = true ->
  next_fault w <> FOk ->
  let w' := snd (post_gps b w) in
  (exists r, fst (post_gps b w) = Returned r
             /\ r_status r = 500 /\ r_success r = false)
  /\ w_queries w'
     = w_queries w
       ++ [UpdateLocation (report_cols b (stamp b w)) (correction_id b)]
  /\ w_db w' = w_db w
  /\ w_emitted w' = w_emitted w.
Proof.
  intros Hc Hfail w'. subst w'.
  rewrite (post_gps_correction b w Hc). cbv zeta.
  destruct (next_fault w) as [|e|e]; [contradiction| |]; cbn [fst snd].
  - split; [eexists; now repeat split|now repeat split].
  - split; [eexists; now repeat split|now repeat split].
Qed.

(** X2. An unattributed report whose upsert of the reserved row does not run
    is answered 500: current_locations and every other table stay as they
    were, nothing is emitted and the failure is logged. *)
Theorem raw_upsert_failure_is_fatal (b : GpsBody) (w : World) :
  is_correction b = false -> has_coordinates b = true -> attributed b = false ->
  next_fault w <> FOk ->
  let w' := snd (post_gps b w) in
  (exists r, fst (post_gps b w) = Returned r
             /\ r_status r = 500 /\ r_success r = false)
  /\ w_db w' = w_db w
  /\ w_emitted w' = w_emitted w
  /\ (exists l, w_console w' = w_console w ++ [l]).
Proof.
  intros Hc Hxy Ha Hfail w'. subst w'.
  rewrite (post_gps_raw b w Hc Hxy Ha). cbv zeta.
  destruct (next_fault w) as [|e|e]; [contradiction| |]; cbn [fst snd].
  - split; [eexists; now repeat split|].
    split; [reflexivity|]. split; [reflexivity|]. eexists. reflexivity.
  - split; [eexists; now repeat split|].
    split; [reflexivity|]. split; [reflexivity|]. eexists. reflexivity.
Qed.

(** X3. A subscriber that throws never changes what POST /gps answers or
    stores: response, tables, statements issued and events emitted are the
    same whether the listeners of the location event throw or not. *)
Theorem listener_failure_is_swallowed (b : GpsBody) (w : World) (l : option string) :
  let w1 := snd (post_gps b (with_listener l w)) in
  let w2 := snd (post_gps b w) in
  fst (post_gps b (with_listener l w)) = fst (post_gps b w)
  /\ w_db w1 = w_db w2
  /\ w_queries w1 = w_queries w2
  /\ w_emitted w1 = w_emitted w2.
Proof.
  cbv zeta.
  assert (Hn : forall q, next_fault (ran q (with_listener l w)) = next_fault (ran q w))
    by reflexivity.
  destruct (is_correction b) eqn:Hc.
  - rewrite (post_gps_correction b w Hc),
      (post_gps_correction b (with_listener l w) Hc). cbv zeta.
    change (next_fault (with_listener l w)) with (next_fault w).
    change (stamp b (with_listener l w)) with (stamp b w).
    destruct (next_fault w); [|now repeat split ..].
    rewrite Hn. destruct (next_fault (ran _ w)); cbn [fst snd];
      rewrite ?w_db_published, ?w_queries_published, ?w_emitted_published;
      now repeat split.
  - destruct (has_coordinates b) eqn:Hxy;
      [|rewrite (post_gps_missing b w Hc Hxy),
          (post_gps_missing b (with_listener l w) Hc Hxy); now repeat split].
    destruct (attributed b) eqn:Ha.
    + rewrite (post_gps_attributed b w Hc Hxy Ha),
        (post_gps_attributed b (with_listener l w) Hc Hxy Ha). cbv zeta.
      change (next_fault (with_listener l w)) with (next_fault w).
      change (stamp b (with_listener l w)) with (stamp b w).
      destruct (next_fault w); [|now repeat split ..].
      rewrite Hn. destruct (next_fault (ran _ w)); cbn [fst snd];
        rewrite ?w_db_published, ?w_queries_published, ?w_emitted_published;
        now repeat split.
    + rewrite (post_gps_raw b w Hc Hxy Ha),
        (post_gps_raw b (with_listener l w) Hc Hxy Ha). cbv zeta.
      change (next_fault (with_listener l w)) with (next_fault w).
      destruct (next_fault w); cbn [fst snd];
        rewrite ?w_db_published, ?w_queries_published, ?w_emitted_published;
        now repeat split.
Qed.

(** X4. A correction is not validated for coordinates: when the body carries
    an update id and omits [latitude], the UPDATE is still the first
    statement issued, it binds NaN as latitude, the answer is never 400, and
    once the UPDATE ran every row it addresses holds NaN. *)
Theorem correction_without_latitude_binds_nan (b : GpsBody) (w : World) :
  is_correction b = true ->
  latitude b = JUndefined ->
  let w' := snd (post_gps b w) in
  let cols := report_cols b (stamp b w) in
  l_latitude cols = NaN
  /\ (exists rest,
        w_queries w'
        = w_queries w ++ UpdateLocation cols (correction_id b) :: rest)
  /\ (exists r, fst (post_gps b w) = Returned r /\ r_status r <> 400)
  /\ (next_fault w = FOk ->
      forall r, In r (rows_with_id (correction_id b) (animal_locations (w_db w'))) ->
                l_latitude (h_cols r) = NaN).
Proof.
  intros Hc Hlat w' cols. subst w'.
  assert (Hnan : l_latitude cols = NaN) by (subst cols; simpl; now rewrite Hlat).
  rewrite (post_gps_correction b w Hc). cbv zeta. fold cols.
  split; [exact Hnan|].
  destruct (next_fault w) as [|e|e]; cbn [fst snd].
  - set (w1 := ran (UpdateLocation cols (correction_id b)) w).
    assert (Hrows : forall r,
               In r (rows_with_id (correction_id b)
                       (update_rows (correction_id b) cols (animal_locations (w_db w)))) ->
               l_latitude (h_cols r) = NaN).
    { intros r. rewrite rows_with_id_update. intros Hin.
      apply in_map_iff in Hin. destruct Hin as (r0 & <- & _). exact Hnan. }
    destruct (next_fault w1) as [|e|e].
    + rewrite w_queries_published, w_db_published.
      split; [eexists; cbn; rewrite <- app_assoc; reflexivity|].
      split; [eexists; split; [reflexivity|discriminate]|].
      intros _. exact Hrows.
    + rewrite w_queries_published, w_db_published.
      split; [eexists; cbn; rewrite <- app_assoc; reflexivity|].
      split; [eexists; split; [reflexivity|discriminate]|].
      intros _. exact Hrows.
    + rewrite w_queries_logged, w_db_logged.
      split; [eexists; cbn; rewrite <- app_assoc; reflexivity|].
      split; [eexists; split; [reflexivity|discriminate]|].
      intros _. exact Hrows.
  - split; [exists []; reflexivity|].
    split; [eexists; split; [reflexivity|discriminate]|]. discriminate.
  - split; [exists []; reflexivity|].
    split; [eexists; split; [reflexivity|discriminate]|]. discriminate.
Qed.

(** ** Further properties of createVirtualFence *)

(** A request that passes the checks reaches the INSERT, and the answer
    follows how the INSERT ends. *)
Lemma createVirtualFence_checked b w :
  fence_passes b = true ->
  createVirtualFence b w =
  match next_fault w with
  | FOk =>
      (Returned (with_data (FenceId (virtual_fences_next (w_db w)))
                   (respond 201 true "Virtual fence created successfully")),
       ran (InsertFence (stored_fence b 0)) w)
  | _ =>
      (Returned (respond 500 false "Internal server error"),
       logged (Error "Create virtual fence error:")
              (issued (InsertFence (stored_fence b 0)) w))
  end.
Proof.
  unfold fence_passes. intros H.
  repeat (apply andb_true_iff in H; destruct H as [H ?]).
  repeat match goal with
         | E : negb _ = true |- _ => apply negb_true_iff in E
         end.
  unfold createVirtualFence. cbv zeta.
  repeat match goal with
         | E : _ = true |- _ => rewrite E; clear E
         | E : _ = false |- _ => rewrite E; clear E
         end.
  unfold next_fault, stored_fence. open_world w.
  destruct faults as [|[d f] rest]; try destruct f; reflexivity.
Qed.

(** The table after a checked fence whose INSERT ran. *)
Lemma fence_stored_checked_rows b w :
  fence_passes b = true -> next_fault w = FOk ->
  virtual_fences (w_db (snd (createVirtualFence b w)))
  = virtual_fences (w_db w) ++ [stored_fence b (virtual_fences_next (w_db w))]
  /\ virtual_fences_next (w_db (snd (createVirtualFence b w)))
     = virtual_fences_next (w_db w) + 1.
Proof.
  intros Hp Hf. rewrite (createVirtualFence_checked b w Hp), Hf.
  now split.
Qed.

(** X5. A fence that passes the checks and whose INSERT runs is stored under
    the next id with the fields as sent, a missing description as NULL, a
    missing type as 'custom', farm and creator 1; it is stored inactive only
    when [is_active] is literally [false] (0, "" or null leave it active). *)
Theorem fence_stored_with_defaults (b : FenceBody) (w : World) :
  fence_passes b = true ->
  next_fault w = FOk ->
  let w' := snd (createVirtualFence b w) in
  let row := stored_fence b (virtual_fences_next (w_db w)) in
  virtual_fences (w_db w') = virtual_fences (w_db w) ++ [row]
  /\ virtual_fences_next (w_db w') = virtual_fences_next (w_db w) + 1
  /\ (description b = JUndefined -> f_description row = JNull)
  /\ (fence_type b = JUndefined -> f_fence_type row = JStr "custom")
  /\ (f_is_active row = false <-> is_active b = JBool false)
  /\ fst (createVirtualFence b w)
     = Returned (with_data (FenceId (virtual_fences_next (w_db w)))
                   (respond 201 true "Virtual fence created successfully")).
Proof.
  intros Hp Hf w' row. subst w'.
  rewrite (createVirtualFence_checked b w Hp), Hf. cbn [fst snd].
  split; [reflexivity|]. split; [reflexivity|].
  split; [intros E; subst row; simpl; now rewrite E|].
  split; [intros E; subst row; simpl; now rewrite E|].
  split; [|reflexivity].
  subst row. simpl. unfold not_false.
  destruct (is_active b) as [| |[|]| |]; split; intros E;
    try reflexivity; discriminate.
Qed.

(** When the INSERT of a checked fence does not run, whether the call
    resolves to a failure or rejects, the answer is 500 "Internal server
    error", no fence is stored and the error is logged. *)
Theorem fence_insert_failure (b : FenceBody) (w : World) :
  fence_passes b = true ->
  next_fault w <> FOk ->
  let w' := snd (createVirtualFence b w) in
  fst (createVirtualFence b w)
    = Returned (respond 500 false "Internal server error")
  /\ w_db w' = w_db w
  /\ w_console w' = w_console w ++ [Error "Create virtual fence error:"].
Proof.
  intros Hp Hf w'. subst w'.
  rewrite (createVirtualFence_checked b w Hp).
  destruct (next_fault w); [contradiction| |]; now repeat split.
Qed.

(** X6. The range checks compare as numbers, and a string that is no number
    compares false both ways: a fence whose latitude is such a string, and
    which is otherwise in order, passes the checks and is stored with the
    string as its latitude. *)
Theorem fence_non_numeric_latitude_passes
        (b : FenceBody) (w : World) (s : string) (lon rad : Q) :
  truthy (name b) = true ->
  center_latitude b = JStr s -> s <> "" -> StringToNumber s = NaN ->
  center_longitude b = JNum (Fin lon) ->
  radius_meters b = JNum (Fin rad) ->
  (inject_Z (-180) <= lon)%Q -> (lon <= inject_Z 180)%Q -> ~ (lon == 0)%Q ->
  (inject_Z 50 <= rad)%Q -> (rad <= inject_Z 10000)%Q ->
  next_fault w = FOk ->
  let w' := snd (createVirtualFence b w) in
  exists row,
    virtual_fences (w_db w') = virtual_fences (w_db w) ++ [row]
    /\ f_center_latitude row = JStr s.
Proof.
  intros Hn Hlat Hs Hnan Hlon Hrad R3 R4 Hz R5 R6 Hf w'.
  assert (T : forall q, ~ (q == 0)%Q -> truthy (JNum (Fin q)) = true).
  { intros q Hq. simpl. destruct (Qeq_bool q 0) eqn:E; [|reflexivity].
    apply Qeq_bool_iff in E. contradiction. }
  assert (Hz3 : ~ (rad == 0)%Q).
  { intros E. rewrite E in R5. revert R5. unfold Qle. simpl. lia. }
  assert (Hts : truthy (JStr s) = true).
  { simpl. destruct (String.eqb s "") eqn:E; [|reflexivity].
    apply String.eqb_eq in E. contradiction. }
  assert (Hp : fence_passes b = true).
  { unfold fence_passes, js_lt, js_gt.
    rewrite Hn, Hlat, Hlon, Hrad, Hts, (T _ Hz), (T _ Hz3).
    cbn [to_Number]. rewrite Hnan.
    apply num_lt_false in R3, R4, R5, R6.
    rewrite R3, R4, R5, R6. reflexivity. }
  destruct (fence_stored_checked_rows b w Hp Hf) as [E _].
  eexists. split; [exact E|]. simpl. exact Hlat.
Qed.

(** ** Further properties of updateRemoteConfig *)

(** X7. With a device id, both kinds of field and [expires_hours] absent (or
    otherwise falsy): when the insert of the control command does not run
    the request is answered 500, nothing is enqueued and the wifi insert is
    never attempted, the one statement issued being the insert of the
    control command expiring an hour after the request started; when it runs
    and the insert of the wifi command does not, the request is answered 500
    and the control command stays enqueued, with that expiry. *)
Theorem enqueue_stops_at_first_failure (b : RemoteConfigBody) (w : World) :
  truthy (device_id b) = true ->
  wants_control b = true -> wants_wifi b = true ->
  truthy (expires_hours b) = false ->
  0 <= w_now w <= MAX_TIME - 24 * HOUR ->
  let w' := snd (updateRemoteConfig b w) in
  let first := InsertCommand (device_id b) control
                 (cmd_payload (control_command b (w_now w) 0))
                 (Some (w_now w + 1 * HOUR)) in
  (next_fault w <> FOk ->
   (exists r, fst (updateRemoteConfig b w) = Returned r
              /\ r_status r = 500 /\ r_success r = false)
   /\ device_commands (w_db w') = device_commands (w_db w)
   /\ w_queries w' = w_queries w ++ [first])
  /\ (next_fault w = FOk -> next_fault (ran first w) <> FOk ->
      (exists r, fst (updateRemoteConfig b w) = Returned r
                 /\ r_status r = 500 /\ r_success r = false)
      /\ device_commands (w_db w')
         = device_commands (w_db w)
           ++ [control_command b (w_now w) (device_commands_next (w_db w))]
      /\ cmd_expires_at
           (control_command b (w_now w) (device_commands_next (w_db w)))
         = Some (w_now w + 1 * HOUR)).
Proof.
  unfold wants_control, wants_wifi. intros Hd Hc Hw He Hnow. cbv zeta.
  assert (E1 : expiry (w_now w) (expires_hours b) 1 = Some (w_now w + 1 * HOUR))
    by (apply expiry_absent; [exact He|unfold HOUR in *; lia ..]).
  rewrite <- E1. clear E1 He Hnow.
  unfold updateRemoteConfig, control_command, next_fault. cbv zeta.
  rewrite Hd, Hc, Hw.
  open_world w.
  destruct faults as [|[d1 f1] [|[d2 f2] rest]];
    try destruct f1; try destruct f2;
    (split;
     [ intros H;
       first [ exfalso; now apply H
             | split; [eexists; split; [reflexivity|now split]|now split] ]
     | intros H1 H2;
       first [ discriminate H1
             | exfalso; now apply H2
             | split; [eexists; split; [reflexivity|now split]
                      |split; reflexivity] ] ]).
Qed.



(** ** The settings row *)

Lemma get_column_set_same c v row :
  get_column c (set_column c v row) = Some v.
Proof.
  induction row as [|[k x] row IH]; simpl.
  - now rewrite String.eqb_refl.
  - destruct (String.eqb k c) eqn:E; simpl.
    + now rewrite String.eqb_refl.
    + now rewrite E.
Qed.

Lemma get_column_set_other c c' v row :
  String.eqb c' c = false ->
  get_column c (set_column c' v row) = get_column c row.
Proof.
  intros Hne. induction row as [|[k x] row IH]; simpl.
  - now rewrite Hne.
  - destruct (String.eqb k c') eqn:E; simpl.
    + rewrite Hne. apply String.eqb_eq in E. subst k. now rewrite Hne.
    + destruct (String.eqb k c); [reflexivity|exact IH].
Qed.

(** X9. Without device id and without wifi fields, when the UPDATE of
    system_settings runs, the request is answered 200 and reading the
    settings back gives what was sent: in every row the threshold is the
    value sent, the sound and lights defaults are 1 or 0 by the truthiness of
    the value sent, and the stamp is the time of the update; the number of
    rows and every column the request does not name are unchanged. *)
Theorem settings_update_reads_back (b : RemoteConfigBody) (w : World) :
  truthy (device_id b) = false -> wants_wifi b = false ->
  settings_updates b <> [] ->
  next_fault w = FOk ->
  let w' := snd (updateRemoteConfig b w) in
  fst (updateRemoteConfig b w)
    = Returned (with_data
                  (SettingsEcho (sensorThreshold b) (soundEnabled b) (lightsEnabled b))
                  (respond 200 true "Remote config updated"))
  /\ length (system_settings (w_db w')) = length (system_settings (w_db w))
  /\ (forall row, In row (system_settings (w_db w')) ->
        (defined (sensorThreshold b) = true ->
         get_column "sensor_threshold" row = Some (SJs (sensorThreshold b)))
        /\ (defined (soundEnabled b) = true ->
            get_column "default_sound_enabled" row
            = Some (SJs (num (if truthy (soundEnabled b) then 1 else 0))))
        /\ (defined (lightsEnabled b) = true ->
            get_column "default_lights_enabled" row
            = Some (SJs (num (if truthy (lightsEnabled b) then 1 else 0))))
        /\ get_column "updated_at" row = Some (SDate (Some (w_now w'))))
  /\ (forall c,
        String.eqb "sensor_threshold" c = false ->
        String.eqb "default_sound_enabled" c = false ->
        String.eqb "default_lights_enabled" c = false ->
        String.eqb "updated_at" c = false ->
        map (get_column c) (system_settings (w_db w'))
        = map (get_column c) (system_settings (w_db w))).
Proof.
  unfold wants_wifi. intros Hd Hw Hu Hf. cbv zeta.
  assert (Hrun :
    updateRemoteConfig b w
    = (Returned (with_data
                   (SettingsEcho (sensorThreshold b) (soundEnabled b) (lightsEnabled b))
                   (respond 200 true "Remote config updated")),
       ran (UpdateSettings (settings_updates b)) w)).
  { revert Hu Hf. unfold updateRemoteConfig, settings_updates, next_fault.
    cbv zeta. rewrite Hd, Hw. open_world w. simpl.
    destruct (defined (soundEnabled b)), (defined (lightsEnabled b)),
      (defined (sensorThreshold b)); intros Hu Hf;
      try (exfalso; apply Hu; reflexivity);
      destruct faults as [|[d f] rest]; simpl in Hf; subst; reflexivity. }
  rewrite Hrun. cbn [fst snd].
  assert (Hset : system_settings (w_db (ran (UpdateSettings (settings_updates b)) w))
                 = map (fun row =>
                          set_column "updated_at"
                            (SDate (Some (w_now (ran (UpdateSettings (settings_updates b)) w))))
                            (assign_columns (settings_updates b) row))
                       (system_settings (w_db w)))
    by reflexivity.
  rewrite Hset. clear Hrun Hset.
  set (t := SDate (Some (w_now (ran (UpdateSettings (settings_updates b)) w)))).
  split; [reflexivity|]. split; [apply length_map|]. split.
  - intros row Hin. apply in_map_iff in Hin. destruct Hin as (row0 & <- & _).
    unfold settings_updates, assign_columns.
    destruct (defined (soundEnabled b)), (defined (lightsEnabled b)),
      (defined (sensorThreshold b)); simpl;
      repeat split; intros; try discriminate;
      repeat first [ rewrite get_column_set_same
                   | rewrite get_column_set_other by reflexivity ];
      reflexivity.
  - intros c H1 H2 H3 H4. rewrite map_map. apply map_ext. intros row.
    unfold settings_updates, assign_columns.
    destruct (defined (soundEnabled b)), (defined (lightsEnabled b)),
      (defined (sensorThreshold b)); simpl;
      repeat (rewrite get_column_set_other by assumption); reflexivity.
Qed.

(** ** Further properties of handleAlert *)

(** X10. When the INSERT of an alert does not run the request is answered
    500; no alert is stored and no mail is attempted, whatever the mail
    settings are. *)
Theorem alert_insert_failure (payload : AlertPayload) (w : World) :
  next_fault w <> FOk ->
  let w' := snd (handleAlert payload w) in
  (exists r, fst (handleAlert payload w) = Returned r
             /\ r_status r = 500 /\ r_success r = false)
  /\ w_db w' = w_db w
  /\ w_outbox w' = w_outbox w
  /\ w_queries w' = w_queries w ++ [InsertAlert (alert_cols payload)].
Proof.
  unfold next_fault, handleAlert. intros Hf. cbv zeta.
  open_world w. simpl in Hf.
  destruct faults as [|[d f] rest]; simpl in Hf; [contradiction|];
    destruct f; [contradiction| |];
    destruct (Nat.ltb MAX_ALERT_TYPE (String.length (raw_alert_type payload)));
    destruct (Nat.ltb MAX_SEVERITY (String.length (raw_severity payload)));
    destruct (title_too_long (raw_title payload));
    (split; [eexists; split; [reflexivity|now split]|now repeat split]).
Qed.

(** X11. A stored alert is mailed exactly when SMTP_USER, SMTP_PASS and
    ALERT_EMAIL_TO are all set: then, if the transport takes it, one mail
    goes to ALERT_EMAIL_TO with the stored title in its subject; if one of
    the three is missing nothing is sent. *)
Theorem alert_mail_when_configured (payload : AlertPayload) (w : World) :
  next_fault w = FOk ->
  let w' := snd (handleAlert payload w) in
  let configured := truthy (SMTP_USER (w_env w)) && truthy (SMTP_PASS (w_env w))
                    && truthy (ALERT_EMAIL_TO (w_env w)) in
  (configured = true -> w_smtp_fault w = None ->
   w_outbox w'
   = w_outbox w ++ [alert_mail (ALERT_EMAIL_TO (w_env w)) (alert_cols payload)])
  /\ (configured = false -> w_outbox w' = w_outbox w)
  /\ mail_subject (alert_mail (ALERT_EMAIL_TO (w_env w)) (alert_cols payload))
     = ("Cattle Farm Alert: " ++ to_String (cap_title (raw_title payload)))%string.
Proof.
  unfold next_fault, handleAlert. intros Hf. cbv zeta.
  open_world w. simpl in Hf. cbn [w_env w_smtp_fault w_outbox].
  split; [|split; [|reflexivity]].
  - intros Em Hs. subst smtp.
    destruct faults as [|[d f] rest]; simpl in Hf; subst;
      destruct (Nat.ltb MAX_ALERT_TYPE (String.length (raw_alert_type payload)));
      destruct (Nat.ltb MAX_SEVERITY (String.length (raw_severity payload)));
      destruct (title_too_long (raw_title payload));
      unfold when, try_catch, bind, ret, console_warn, getenv, sendEmail,
        executeQuery, next_fault, inserted_id;
      cbn -[alert_cols alert_mail Z.eqb num]; rewrite Em;
      cbn -[alert_cols alert_mail Z.eqb num]; reflexivity.
  - intros Em.
    destruct faults as [|[d f] rest]; simpl in Hf; subst;
      destruct (Nat.ltb MAX_ALERT_TYPE (String.length (raw_alert_type payload)));
      destruct (Nat.ltb MAX_SEVERITY (String.length (raw_severity payload)));
      destruct (title_too_long (raw_title payload));
      unfold when, try_catch, bind, ret, console_warn, getenv, sendEmail,
        executeQuery, next_fault, inserted_id;
      cbn -[alert_cols alert_mail Z.eqb num]; rewrite Em;
      cbn -[alert_cols alert_mail Z.eqb num]; reflexivity.
Qed.

(** ** The authentication middleware *)

Lemma after_space_word a r :
  no_space a = true -> after_space (a ++ String space r)%string = Some r.
Proof.
  induction a as [|c a IH]; simpl; intros H.
  - reflexivity.
  - apply andb_true_iff in H. destruct H as [Hc Ha].
    apply negb_true_iff in Hc. rewrite Hc. now apply IH.
Qed.

Lemma after_space_none a : no_space a = true -> after_space a = None.
Proof.
  induction a as [|c a IH]; simpl; intros H; [reflexivity|].
  apply andb_true_iff in H. destruct H as [Hc Ha].
  apply negb_true_iff in Hc. rewrite Hc. now apply IH.
Qed.

Lemma until_space_word t : no_space t = true -> until_space t = t.
Proof.
  induction t as [|c t IH]; simpl; intros H; [reflexivity|].
  apply andb_true_iff in H. destruct H as [Hc Ht].
  apply negb_true_iff in Hc. rewrite Hc. now rewrite IH.
Qed.

Lemma until_space_prefix t r :
  no_space t = true -> until_space (t ++ String space r)%string = t.
Proof.
  induction t as [|c t IH]; simpl; intros H.
  - reflexivity.
  - apply andb_true_iff in H. destruct H as [Hc Ht].
    apply negb_true_iff in Hc. rewrite Hc. now rewrite IH.
Qed.

Lemma token_of_words a r :
  no_space a = true ->
  token_of (Some (a ++ String space r)%string) = Some (until_space r).
Proof.
  intros Ha. unfold token_of, second_word.
  destruct (a ++ String space r)%string eqn:E.
  - destruct a; discriminate.
  - rewrite <- E, (after_space_word a r Ha). reflexivity.
Qed.

(** X12. The token is the second word of the Authorization header and the
    scheme word is never looked at: whatever word precedes the first space,
    the token is what follows up to the next space.  A header without a
    space has no token, and a header with two spaces after the scheme has
    the empty token; both count as a missing token. *)
Theorem token_is_second_word (scheme t rest : string) :
  no_space scheme = true -> no_space t = true ->
  token_of (Some (scheme ++ String space t)%string) = Some t
  /\ token_of (Some (scheme ++ String space (t ++ String space rest))%string) = Some t
  /\ no_token (token_of (Some scheme)) = true
  /\ no_token (token_of (Some (scheme ++ String space (String space t))%string)) = true.
Proof.
  intros Hs Ht.
  split; [|split; [|split]].
  - rewrite (token_of_words scheme t Hs). now rewrite until_space_word.
  - rewrite (token_of_words scheme _ Hs). now rewrite until_space_prefix.
  - unfold token_of, second_word. destruct scheme as [|c s]; [reflexivity|].
    now rewrite (after_space_none _ Hs).
  - rewrite (token_of_words scheme _ Hs). reflexivity.
Qed.

(** X13. In production the development switches are dead: without a session
    user a request passes only with a token that verifies, is answered 401
    without a token and 403 with a token that does not verify, whatever
    DEV_AUTH_BYPASS and DEV_ALLOW_PUBLIC_DASHBOARD say; nothing is logged. *)
Theorem production_needs_session_or_token
        (env : ProcessEnv) (req : AuthRequest) (w : World) :
  NODE_ENV env = JStr "production" ->
  session_user req = None ->
  let token := token_of (authorization req) in
  snd (authenticateToken env req w) = w
  /\ (no_token token = true ->
      fst (authenticateToken env req w)
      = Returned (Reject (respond 401 false "Access token required")))
  /\ (forall t, token = Some t -> t <> "" ->
        fst (authenticateToken env req w)
        = Returned (match jwt_verify t (JWT_SECRET env) with
                    | Some user => Next (Some user)
                    | None => Reject (respond 403 false "Invalid or expired token")
                    end)).
Proof.
  intros Hp Hs token. subst token.
  unfold authenticateToken, not_production. cbv zeta. rewrite Hs, Hp.
  cbn [is_string String.eqb Ascii.eqb Bool.eqb negb andb]. simpl String.eqb.
  rewrite !andb_false_r. unfold TEMP_DISABLE_AUTH.
  destruct (token_of (authorization req)) as [t|] eqn:Et.
  - unfold no_token. destruct (String.eqb t "") eqn:E.
    + split; [now destruct w|]. split; [intros _; now destruct w|].
      intros t' Ht' Hne. inversion Ht'. subst t'.
      apply String.eqb_eq in E. contradiction.
    + split; [destruct (jwt_verify t (JWT_SECRET env)); now destruct w|].
      split; [discriminate|].
      intros t' Ht' _. inversion Ht'. subst t'.
      destruct (jwt_verify t (JWT_SECRET env)); now destruct w.
  - simpl. split; [now destruct w|]. split; [intros _; now destruct w|].
    discriminate.
Qed.

(** X14. A user the middleware did not find in the session or in a verified
    token is a viewer, and is injected outside production only: no switch
    of the environment makes a request an admin. *)
Theorem injected_user_is_viewer
        (env : ProcessEnv) (req : AuthRequest) (w : World) (u : User) :
  fst (authenticateToken env req w) = Returned (Next (Some u)) ->
  session_user req = Some u
  \/ (exists t, token_of (authorization req) = Some t
                /\ jwt_verify t (JWT_SECRET env) = Some u)
  \/ (user_role u = JStr "viewer" /\ not_production env = true).
Proof.
  unfold authenticateToken. cbv zeta. unfold TEMP_DISABLE_AUTH.
  destruct (session_user req) as [su|].
  - intros H. left. destruct w. simpl in H. now inversion H.
  - destruct (no_token (token_of (authorization req))) eqn:Hn.
    + destruct (is_string "true" (DEV_ALLOW_PUBLIC_DASHBOARD env)
                && not_production env) eqn:E1.
      * intros H. right. right. apply andb_true_iff in E1.
        destruct w. simpl in H. inversion H. now split.
      * destruct (is_string "true" (DEV_AUTH_BYPASS env)
                  && not_production env) eqn:E2.
        -- intros H. right. right. apply andb_true_iff in E2.
           destruct w. simpl in H. inversion H. now split.
        -- intros H. destruct w. discriminate H.
    + destruct (token_of (authorization req)) as [t|];
        [|intros H; destruct w; discriminate H].
      destruct (jwt_verify t (JWT_SECRET env)) as [tu|] eqn:Ev.
      * intros H. right. left. exists t. destruct w. simpl in H.
        inversion H. subst tu. now split.
      * destruct (is_string "true" (DEV_AUTH_BYPASS env)
                  && not_production env) eqn:E2.
        -- intros H. right. right. apply andb_true_iff in E2.
           destruct w. simpl in H. inversion H. now split.
        -- intros H. destruct w. discriminate H.
Qed.

(** X15. Whoever [optionalAuth] recognises, [authenticateToken] lets through
    as the same user, in any environment and without logging; in production
    the converse holds as well. *)
Theorem optional_and_mandatory_auth_agree
        (env : ProcessEnv) (req : AuthRequest) (w : World) (u : User) :
  (optionalAuth env req = Some u ->
   authenticateToken env req w = (Returned (Next (Some u)), w))
  /\ (NODE_ENV env = JStr "production" ->
      fst (authenticateToken env req w) = Returned (Next (Some u)) ->
      optionalAuth env req = Some u).
Proof.
  unfold optionalAuth, authenticateToken, not_production. cbv zeta.
  unfold TEMP_DISABLE_AUTH. split.
  - destruct (session_user req) as [su|].
    + intros H. inversion H. now destruct w.
    + destruct (no_token (token_of (authorization req))); [discriminate|].
      destruct (token_of (authorization req)) as [t|]; [|discriminate].
      intros H. rewrite H. now destruct w.
  - intros Hp. rewrite Hp.
    cbn [is_string]. simpl String.eqb. cbn [negb]. rewrite !andb_false_r.
    destruct (session_user req) as [su|].
    + intros H. destruct w. simpl in H. now inversion H.
    + destruct (no_token (token_of (authorization req)));
        [intros H; destruct w; discriminate H|].
      destruct (token_of (authorization req)) as [t|];
        [|intros H; destruct w; discriminate H].
      destruct (jwt_verify t (JWT_SECRET env));
        intros H; destruct w; simpl in H; [now inversion H|discriminate H].
Qed.

(** X16. A request the middleware rejects never reaches the remote-config
    controller: the route answers the middleware's 401 or 403 and leaves the
    world as it was, with no statement issued, no command enqueued and no
    setting changed. *)
Theorem rejected_request_reaches_nothing
        (env : ProcessEnv) (req : AuthRequest) (b : RemoteConfigBody)
        (w : World) (r : Response) :
  fst (authenticateToken env req w) = Returned (Reject r) ->
  remote_config_route env req b w = (Returned r, w)
  /\ (r_status r = 401 \/ r_status r = 403).
Proof.
  unfold remote_config_route, bind, authenticateToken. cbv zeta.
  unfold TEMP_DISABLE_AUTH.
  destruct (session_user req) as [su|];
    [intros H; destruct w; discriminate H|].
  destruct (no_token (token_of (authorization req))).
  - destruct (is_string "true" (DEV_ALLOW_PUBLIC_DASHBOARD env)
              && not_production env);
      [intros H; destruct w; discriminate H|].
    destruct (is_string "true" (DEV_AUTH_BYPASS env) && not_production env);
      [intros H; destruct w; discriminate H|].
    intros H. destruct w. simpl in H. inversion H. split; [reflexivity|now left].
  - destruct (token_of (authorization req)) as [t|].
    + destruct (jwt_verify t (JWT_SECRET env));
        [intros H; destruct w; discriminate H|].
      destruct (is_string "true" (DEV_AUTH_BYPASS env) && not_production env);
        [intros H; destruct w; discriminate H|].
      intros H. destruct w. simpl in H. inversion H.
      split; [reflexivity|now right].
    + intros H. destruct w. simpl in H. inversion H.
      split; [reflexivity|now left].
Qed.

(** ** GET and POST /device/control *)

(** Opening a site into its fields. *)
Ltac open_site s :=
  let w := fresh "w" in
  destruct s as [w controls marks beasts]; open_world w.

Lemma select_after_upsert key v rows :
  select_control key (upsert_control key v rows) = [v].
Proof.
  unfold select_control.
  induction rows as [|[k x] rows IH]; simpl.
  - now rewrite String.eqb_refl.
  - destruct (String.eqb k key) eqn:E; simpl; rewrite E; [reflexivity|exact IH].
Qed.

(** The tables after a POST whose two statements ran. *)
Lemma post_control_ok v s :
  site_no_faults s ->
  let state := if truthy v && String.eqb (toLowerCase (to_String v)) "off"
               then "off" else "on" in
  fst (post_control v s)
  = Returned (control_response 200 true (Some state) None)
  /\ device_controls (snd (post_control v s))
     = upsert_control "system_enabled" (JStr state) (device_controls s)
  /\ site_no_faults (snd (post_control v s)).
Proof.
  unfold site_no_faults, no_faults, post_control. cbv zeta.
  open_site s. simpl. intros Hf.
  destruct faults as [|[d1 f1] [|[d2 f2] rest]].
  - repeat split; constructor.
  - inversion Hf as [|? ? H1 Hr]. simpl in H1. subst f1.
    repeat split; constructor.
  - inversion Hf as [|? ? H1 Hr]. simpl in H1. subst f1.
    inversion Hr as [|? ? H2 Hr']. simpl in H2. subst f2.
    repeat split; exact Hr'.
Qed.

Lemma get_control_ok s :
  next_fault (site_world s) = FOk ->
  fst (get_control s)
  = Returned (control_response 200 true
                (Some match select_control "system_enabled" (device_controls s) with
                      | val :: _ => on_or_off val
                      | [] => "on"
                      end) None).
Proof.
  unfold next_fault, get_control. open_site s. simpl. intros Hf.
  destruct faults as [|[d f] rest]; simpl in Hf; subst;
    unfold try_catchS, bindS, executeStatement, next_fault; simpl;
    destruct (select_control "system_enabled" controls); reflexivity.
Qed.

(** X17. What POST /device/control stores, GET /device/control reads back:
    when the statements run, the POST answers a state that is "off" exactly
    when the field sent is truthy and spells "off" in any case, and "on"
    otherwise; the table then holds that state under system_enabled, and a
    GET that follows answers the same state. *)
Theorem control_state_round_trip (v : JsVal) (s : Site) :
  site_no_faults s ->
  let s1 := snd (post_control v s) in
  exists state,
    fst (post_control v s) = Returned (control_response 200 true (Some state) None)
    /\ (state = "off" \/ state = "on")
    /\ (state = "off" <->
        truthy v = true /\ toLowerCase (to_String v) = "off")
    /\ select_control "system_enabled" (device_controls s1) = [JStr state]
    /\ fst (get_control s1) = Returned (control_response 200 true (Some state) None).
Proof.
  intros Hf s1.
  destruct (post_control_ok v s Hf) as (Hr & Hc & Hf1). cbv zeta in Hr, Hc.
  fold s1 in Hc, Hf1.
  set (state := if truthy v && String.eqb (toLowerCase (to_String v)) "off"
                then "off" else "on") in *.
  exists state. split; [exact Hr|].
  assert (Hsel : select_control "system_enabled" (device_controls s1) = [JStr state])
    by (rewrite Hc; apply select_after_upsert).
  split; [subst state; destruct (truthy v && _); [now left|now right]|].
  split.
  - subst state. destruct (truthy v) eqn:Tv; simpl.
    + destruct (String.eqb (toLowerCase (to_String v)) "off") eqn:E.
      * apply String.eqb_eq in E. now split.
      * split; [discriminate|]. intros [_ H]. apply String.eqb_neq in E.
        contradiction.
    + split; [discriminate|]. intros [H _]. discriminate.
  - split; [exact Hsel|].
    rewrite (get_control_ok s1 (next_fault_ok _ Hf1)), Hsel.
    subst state. destruct (truthy v && _); reflexivity.
Qed.

(** X18. GET /device/control hides a database it cannot read: when the
    SELECT resolves to a failure, or finds no row, the answer is still 200
    with success and state "on"; only a rejected call is answered 500.  The
    GET never writes to device_controls. *)
Theorem control_get_defaults_to_on (s : Site) :
  let s' := snd (get_control s) in
  device_controls s' = device_controls s
  /\ (forall e, next_fault (site_world s) = FFail e ->
        fst (get_control s)
        = Returned (control_response 200 true (Some "on") None))
  /\ (next_fault (site_world s) = FOk ->
      select_control "system_enabled" (device_controls s) = [] ->
      fst (get_control s)
      = Returned (control_response 200 true (Some "on") None))
  /\ (forall e, next_fault (site_world s) = FThrow e ->
        fst (get_control s)
        = Returned (control_response 500 false None (Some "Internal server error"))).
Proof.
  cbv zeta. split; [|split; [|split]].
  - unfold get_control. open_site s.
    destruct faults as [|[d f] rest]; try destruct f;
      unfold try_catchS, bindS, executeStatement, next_fault; simpl;
      destruct (select_control "system_enabled" controls); reflexivity.
  - unfold next_fault, get_control. open_site s. simpl. intros e Hf.
    destruct faults as [|[d f] rest]; simpl in Hf; [discriminate|].
    subst f. reflexivity.
  - intros Hf Hnone. now rewrite (get_control_ok s Hf), Hnone.
  - unfold next_fault, get_control. open_site s. simpl. intros e Hf.
    destruct faults as [|[d f] rest]; simpl in Hf; [discriminate|].
    subst f. reflexivity.
Qed.

(** X19. POST /device/control never reads what CREATE TABLE resolves to:
    when that call resolves to a failure and the upsert runs, the answer is
    success and the state is stored.  When the first call does not reject and
    the upsert resolves to a failure, the answer is 500 and the table is as
    it was. *)
Theorem control_post_failures (v : JsVal) (s : Site) (e : string) :
  let s' := snd (post_control v s) in
  let w1 := elapsed (site_world s) in
  (next_fault (site_world s) = FFail e -> next_fault w1 = FOk ->
   (exists state,
      fst (post_control v s)
      = Returned (control_response 200 true (Some state) None)
      /\ select_control "system_enabled" (device_controls s') = [JStr state]))
  /\ ((forall e', next_fault (site_world s) <> FThrow e') ->
      next_fault w1 = FFail e ->
      fst (post_control v s)
      = Returned (control_response 500 false None
                    (Some "Failed to set control state"))
      /\ device_controls s' = device_controls s).
Proof.
  cbv zeta. unfold next_fault, post_control. cbv zeta. open_site s. simpl.
  split.
  - intros H1 H2.
    destruct faults as [|[d1 f1] rest]; simpl in H1; [discriminate|]. subst f1.
    eexists.
    destruct rest as [|[d2 f2] rest]; simpl in H2; subst;
      (split; [reflexivity|]);
      unfold try_catchS, bindS, executeStatement, next_fault; simpl;
      apply select_after_upsert.
  - intros Hn H2.
    destruct faults as [|[d1 f1] rest]; simpl in H2; [discriminate|].
    destruct rest as [|[d2 f2] rest]; simpl in H2; [discriminate|]. subst f2.
    destruct f1; [now split|now split|].
    exfalso. now apply (Hn msg).
Qed.

(** ** markAlertRead, resolveAlert and deleteAllAlerts *)

Lemma mark_of_put i m marks :
  mark_id m = i -> mark_of i (put_mark m marks) = m.
Proof. intros <-. unfold mark_of, put_mark. simpl. now rewrite Z.eqb_refl. Qed.

Lemma filter_matches_with_status alert st rows :
  filter (alert_matches alert)
         (map (fun r => if alert_matches alert r then with_status st r else r) rows)
  = map (with_status st) (filter (alert_matches alert) rows).
Proof.
  induction rows as [|r rows IH]; simpl; [reflexivity|].
  destruct (alert_matches alert r) eqn:E.
  - change (alert_matches alert (with_status st r)) with (alert_matches alert r).
    rewrite E. simpl. now rewrite IH.
  - rewrite E. exact IH.
Qed.

Lemma find_with_status alert st i rows :
  find (fun r => al_id r =? i)
       (map (fun r => if alert_matches alert r then with_status st r else r) rows)
  = option_map (fun r => if alert_matches alert r then with_status st r else r)
               (find (fun r => al_id r =? i) rows).
Proof.
  induction rows as [|r rows IH]; simpl; [reflexivity|].
  assert (E : al_id (if alert_matches alert r then with_status st r else r) = al_id r)
    by now destruct (alert_matches alert r).
  rewrite E. destruct (al_id r =? i); [reflexivity|exact IH].
Qed.

Lemma mark_of_id i marks : mark_id (mark_of i marks) = i.
Proof.
  unfold mark_of. destruct (find (fun m => mark_id m =? i) marks) eqn:E.
  - apply find_some in E. destruct E as [_ E]. now apply Z.eqb_eq in E.
  - reflexivity.
Qed.

(** The two lifecycle routes when the lookup finds a row and both statements
    run. *)
Lemma markAlertRead_ok user alert s :
  next_fault (site_world s) = FOk ->
  next_fault (elapsed (site_world s)) = FOk ->
  addressed alert s <> [] ->
  markAlertRead user alert s
  = (Returned (respond 200 true "Alert marked as read"),
     lifecycle_site "acknowledged"
       (fun t => acknowledged_mark t (acting_user user)) alert s).
Proof.
  unfold next_fault, addressed, site_alerts, markAlertRead, lifecycle_site.
  cbv zeta. open_site s. simpl. intros H1 H2 Hne.
  assert (Hlen : Nat.eqb (length (map (fun r => num (al_id r))
                                     (filter (alert_matches alert) (alerts db)))) 0
                 = false)
    by (destruct (filter (alert_matches alert) (alerts db));
        [contradiction|reflexivity]).
  destruct faults as [|[d1 f1] [|[d2 f2] rest]]; simpl in H1, H2; subst;
    unfold try_catchS, bindS, executeStatement, next_fault; simpl;
    unfold site_alerts; simpl; rewrite Hlen; reflexivity.
Qed.

Lemma resolveAlert_ok user alert s :
  next_fault (site_world s) = FOk ->
  next_fault (elapsed (site_world s)) = FOk ->
  addressed alert s <> [] ->
  resolveAlert user alert s
  = (Returned (respond 200 true "Alert resolved"),
     lifecycle_site "resolved"
       (fun t => resolved_mark t (acting_user user)) alert s).
Proof.
  unfold next_fault, addressed, site_alerts, resolveAlert, lifecycle_site.
  cbv zeta. open_site s. simpl. intros H1 H2 Hne.
  assert (Hlen : Nat.eqb (length (map (fun r => num (al_id r))
                                     (filter (alert_matches alert) (alerts db)))) 0
                 = false)
    by (destruct (filter (alert_matches alert) (alerts db));
        [contradiction|reflexivity]).
  destruct faults as [|[d1 f1] [|[d2 f2] rest]]; simpl in H1, H2; subst;
    unfold try_catchS, bindS, executeStatement, next_fault; simpl;
    unfold site_alerts; simpl; rewrite Hlen; reflexivity.
Qed.

Lemma lifecycle_site_alerts st stamp_mark alert s :
  site_alerts (lifecycle_site st stamp_mark alert s)
  = map (fun r => if alert_matches alert r then with_status st r else r)
        (site_alerts s).
Proof. reflexivity. Qed.

Lemma lifecycle_site_marks st stamp_mark alert s :
  alert_marks (lifecycle_site st stamp_mark alert s)
  = fold_right
      (fun r ms =>
         put_mark (stamp_mark (w_now (elapsed (elapsed (site_world s))))
                              (mark_of (al_id r) ms)) ms)
      (alert_marks s) (addressed alert s).
Proof. reflexivity. Qed.

Lemma lifecycle_site_faults st stamp_mark alert s :
  w_faults (site_world (lifecycle_site st stamp_mark alert s))
  = tl (tl (w_faults (site_world s))).
Proof. reflexivity. Qed.

(** X20. Both lifecycle routes answer 404 "Alert not found" when the lookup
    finds no alert and also when the lookup itself resolves to a failure:
    a database that cannot be read looks like a missing alert.  In either
    case no alert and no mark changes. *)
Theorem lifecycle_lookup_failure_is_not_found
        (user : option User) (alert : JsVal) (s : Site) :
  (exists e, next_fault (site_world s) = FFail e)
  \/ (next_fault (site_world s) = FOk /\ addressed alert s = []) ->
  let s1 := snd (markAlertRead user alert s) in
  let s2 := snd (resolveAlert user alert s) in
  fst (markAlertRead user alert s) = Returned (respond 404 false "Alert not found")
  /\ fst (resolveAlert user alert s) = Returned (respond 404 false "Alert not found")
  /\ site_alerts s1 = site_alerts s /\ alert_marks s1 = alert_marks s
  /\ site_alerts s2 = site_alerts s /\ alert_marks s2 = alert_marks s.
Proof.
  unfold next_fault, addressed, site_alerts, markAlertRead, resolveAlert.
  cbv zeta. open_site s. simpl. intros [[e H]|[H Hnone]].
  - destruct faults as [|[d f] rest]; simpl in H; [discriminate|]. subst f.
    now repeat split.
  - destruct faults as [|[d f] rest]; simpl in H; subst;
      unfold try_catchS, bindS, executeStatement, next_fault; simpl;
      unfold site_alerts; simpl; rewrite Hnone; now repeat split.
Qed.

(** X21. markAlertRead sets the status without looking at it: once the
    lookup found the alert and the update ran, every alert the id addresses
    is "acknowledged" whatever it was before, resolved included; the other
    alerts keep their status, and no alert is added or removed. *)
Theorem mark_read_overrides_status
        (user : option User) (alert : JsVal) (s : Site) :
  next_fault (site_world s) = FOk ->
  next_fault (elapsed (site_world s)) = FOk ->
  addressed alert s <> [] ->
  let s' := snd (markAlertRead user alert s) in
  fst (markAlertRead user alert s)
    = Returned (respond 200 true "Alert marked as read")
  /\ map al_id (site_alerts s') = map al_id (site_alerts s)
  /\ (forall i,
        status_of i s'
        = match status_of i s with
          | Some old => Some (if sql_id_matches i alert then "acknowledged" else old)
          | None => None
          end).
Proof.
  intros H1 H2 Hne s'. subst s'.
  rewrite (markAlertRead_ok user alert s H1 H2 Hne). cbn [fst snd].
  split; [reflexivity|].
  unfold status_of. rewrite lifecycle_site_alerts. split.
  - rewrite map_map. apply map_ext. intros r.
    now destruct (alert_matches alert r).
  - intros i. rewrite find_with_status.
    destruct (find (fun r => al_id r =? i) (site_alerts s)) as [r|] eqn:E;
      [|reflexivity].
    apply find_some in E. destruct E as [_ E]. apply Z.eqb_eq in E.
    simpl. unfold alert_matches. rewrite E.
    now destruct (sql_id_matches i alert).
Qed.

(** X22. An alert that is resolved and then marked read goes back to
    "acknowledged" and keeps the stamp of its resolution: when the id
    addresses one alert and the statements of both requests run, that alert
    ends with status "acknowledged", resolved_at and resolved_by as the
    resolution set them, and acknowledged_by the user of the second
    request. *)
Theorem resolved_alert_marked_read
        (u1 u2 : option User) (alert : JsVal) (s : Site) (r : AlertRow) :
  site_no_faults s ->
  addressed alert s = [r] ->
  let s1 := snd (resolveAlert u1 alert s) in
  let s2 := snd (markAlertRead u2 alert s1) in
  let m := mark_of (al_id r) (alert_marks s2) in
  fst (resolveAlert u1 alert s) = Returned (respond 200 true "Alert resolved")
  /\ fst (markAlertRead u2 alert s1)
     = Returned (respond 200 true "Alert marked as read")
  /\ addressed alert s1 = [with_status "resolved" r]
  /\ addressed alert s2 = [with_status "acknowledged" (with_status "resolved" r)]
  /\ resolved_at m = SDate (Some (w_now (site_world s1)))
  /\ resolved_by m = acting_user u1
  /\ acknowledged_by m = acting_user u2.
Proof.
  intros Hf Hr s1 s2 m. unfold site_no_faults in Hf.
  assert (F1 : next_fault (site_world s) = FOk) by now apply next_fault_ok.
  assert (Hf1 : no_faults (elapsed (site_world s))).
  { unfold no_faults in *. simpl. destruct (w_faults (site_world s));
      [constructor|now inversion Hf]. }
  assert (F2 : next_fault (elapsed (site_world s)) = FOk) by now apply next_fault_ok.
  assert (Hne : addressed alert s <> []) by (rewrite Hr; discriminate).
  pose proof (resolveAlert_ok u1 alert s F1 F2 Hne) as E1.
  assert (Es1 : s1 = lifecycle_site "resolved"
                       (fun t => resolved_mark t (acting_user u1)) alert s)
    by (subst s1; now rewrite E1).
  assert (Ha1 : addressed alert s1 = [with_status "resolved" r]).
  { unfold addressed. rewrite Es1, lifecycle_site_alerts,
      filter_matches_with_status. fold (addressed alert s). now rewrite Hr. }
  assert (Hf2 : no_faults (site_world s1)).
  { unfold no_faults in *. rewrite Es1, lifecycle_site_faults.
    destruct (w_faults (site_world s)) as [|p [|q l]]; simpl;
      try constructor.
    inversion Hf as [|? ? _ Hl]. now inversion Hl. }
  assert (F3 : next_fault (site_world s1) = FOk) by now apply next_fault_ok.
  assert (Hf3 : no_faults (elapsed (site_world s1))).
  { unfold no_faults in *. simpl. destruct (w_faults (site_world s1));
      [constructor|now inversion Hf2]. }
  assert (F4 : next_fault (elapsed (site_world s1)) = FOk) by now apply next_fault_ok.
  assert (Hne1 : addressed alert s1 <> []) by (rewrite Ha1; discriminate).
  pose proof (markAlertRead_ok u2 alert s1 F3 F4 Hne1) as E2.
  assert (Es2 : s2 = lifecycle_site "acknowledged"
                       (fun t => acknowledged_mark t (acting_user u2)) alert s1)
    by (subst s2; now rewrite E2).
  split; [now rewrite E1|]. split; [now rewrite E2|]. split; [exact Ha1|].
  split.
  { unfold addressed. rewrite Es2, lifecycle_site_alerts,
      filter_matches_with_status. fold (addressed alert s1). now rewrite Ha1. }
  assert (Hm1 : mark_of (al_id r) (alert_marks s1)
                = resolved_mark (w_now (site_world s1)) (acting_user u1)
                    (mark_of (al_id r) (alert_marks s))).
  { rewrite Es1 at 1. rewrite lifecycle_site_marks, Hr. simpl.
    rewrite mark_of_put by (simpl; apply mark_of_id). now rewrite Es1. }
  assert (Hm2 : m = acknowledged_mark
                      (w_now (elapsed (elapsed (site_world s1))))
                      (acting_user u2)
                      (mark_of (al_id r) (alert_marks s1))).
  { subst m. rewrite Es2, lifecycle_site_marks, Ha1. simpl.
    now rewrite mark_of_put by (simpl; apply mark_of_id). }
  rewrite Hm2, Hm1. now repeat split.
Qed.

(** deleteAllAlerts is closed to everyone but an admin: for a request
    without user or with a user of another role, and DEV_ALLOW_TRUNCATE not
    "true", the answer is 403 and nothing is touched, no statement is even
    started.  The viewers the authentication middleware injects are such
    users. *)
Theorem clear_alerts_needs_admin (env : ProcessEnv) (user : option User) (s : Site) :
  is_admin user = false ->
  is_string "true" (DEV_ALLOW_TRUNCATE env) = false ->
  deleteAllAlerts env user s = (Returned (respond 403 false "Forbidden"), s)
  /\ (forall name, is_admin (Some (dev_user name)) = false).
Proof.
  intros Ha He. unfold deleteAllAlerts, try_catchS. cbv zeta.
  rewrite Ha, He. now split.
Qed.

(** X23. For an admin, or with DEV_ALLOW_TRUNCATE set to "true" for anyone:
    when TRUNCATE runs the alerts are gone; when TRUNCATE resolves to a
    failure the route falls back to DELETE, and when that runs the alerts
    are gone as well and the answer is the same success; when both resolve
    to failures the answer is 500 with the error of the DELETE, and the
    alerts stay. *)
Theorem clear_alerts_truncate_then_delete
        (penv : ProcessEnv) (user : option User) (s : Site) :
  is_admin user = true \/ is_string "true" (DEV_ALLOW_TRUNCATE penv) = true ->
  let s' := snd (deleteAllAlerts penv user s) in
  let db := w_db (site_world s) in
  let db' := w_db (site_world s') in
  (next_fault (site_world s) = FOk ->
   fst (deleteAllAlerts penv user s) = Returned (respond 200 true "All alerts cleared")
   /\ alerts db' = [] /\ alert_marks s' = [])
  /\ (forall e, next_fault (site_world s) = FFail e ->
        next_fault (elapsed (site_world s)) = FOk ->
        fst (deleteAllAlerts penv user s)
        = Returned (respond 200 true "All alerts cleared")
        /\ alerts db' = [] /\ alert_marks s' = [])
  /\ (forall e e', next_fault (site_world s) = FFail e ->
        next_fault (elapsed (site_world s)) = FFail e' ->
        fst (deleteAllAlerts penv user s)
        = Returned (with_error (JStr e') (respond 500 false "Failed to clear alerts"))
        /\ alerts db' = alerts db /\ alert_marks s' = alert_marks s).
Proof.
  intros Hallowed. cbv zeta.
  assert (Hgate : negb (is_admin user)
                  && negb (is_string "true" (DEV_ALLOW_TRUNCATE penv)) = false).
  { destruct Hallowed as [H|H]; rewrite H; simpl;
      [reflexivity|apply andb_false_r]. }
  unfold next_fault, deleteAllAlerts. cbv zeta. rewrite Hgate.
  open_site s. simpl.
  split; [|split].
  - intros H. destruct faults as [|[d f] rest]; simpl in H; subst;
      now repeat split.
  - intros e H1 H2.
    destruct faults as [|[d1 f1] rest]; simpl in H1; [discriminate|]. subst f1.
    destruct rest as [|[d2 f2] rest]; simpl in H2; subst; now repeat split.
  - intros e e' H1 H2.
    destruct faults as [|[d1 f1] rest]; simpl in H1; [discriminate|]. subst f1.
    destruct rest as [|[d2 f2] rest]; simpl in H2; [discriminate|]. subst f2.
    now repeat split.
Qed.

(** ** updateVirtualFence and deleteVirtualFence *)

(** The two fence routes when the lookup finds a fence and both statements
    run. *)
Lemma deleteVirtualFence_ok fence s :
  next_fault (site_world s) = FOk ->
  next_fault (elapsed (site_world s)) = FOk ->
  filter (fence_matches fence 1) (site_fences s) <> [] ->
  deleteVirtualFence fence s
  = (Returned (respond 200 true "Virtual fence deleted successfully"),
     let s1 := with_world (elapsed (site_world s)) s in
     let s2 := with_world (elapsed (site_world s1)) s1 in
     set_fence_rows
       (filter (fun r => negb (fence_matches fence 1 r)) (site_fences s)) s2).
Proof.
  unfold next_fault, site_fences, deleteVirtualFence.
  cbv zeta. open_site s. simpl. intros H1 H2 Hne.
  assert (Hlen : Nat.eqb (length (map (fun r => num (f_id r))
                                     (filter (fence_matches fence 1)
                                             (virtual_fences db)))) 0
                 = false)
    by (destruct (filter (fence_matches fence 1) (virtual_fences db));
        [contradiction|reflexivity]).
  destruct faults as [|[d1 f1] [|[d2 f2] rest]]; simpl in H1, H2; subst;
    unfold try_catchS, bindS, executeStatement, next_fault; simpl;
    unfold site_fences; simpl; rewrite Hlen; reflexivity.
Qed.

Lemma updateVirtualFence_ok fence b s :
  fence_passes b = true ->
  next_fault (site_world s) = FOk ->
  next_fault (elapsed (site_world s)) = FOk ->
  filter (fence_matches fence 1) (site_fences s) <> [] ->
  updateVirtualFence fence b s
  = (Returned (respond 200 true "Virtual fence updated successfully"),
     let s1 := with_world (elapsed (site_world s)) s in
     let s2 := with_world (elapsed (site_world s1)) s1 in
     set_fence_rows
       (map (fun r =>
               if fence_matches fence 1 r
               then rewritten_fence (name b) (js_or (description b) JNull)
                      (center_latitude b) (center_longitude b) (radius_meters b)
                      (js_or (fence_type b) (JStr "custom"))
                      (not_false (is_active b)) r
               else r)
            (site_fences s)) s2).
Proof.
  unfold fence_passes. intros H.
  repeat (apply andb_true_iff in H; destruct H as [H ?]).
  repeat match goal with
         | E : negb _ = true |- _ => apply negb_true_iff in E
         end.
  unfold next_fault, site_fences, updateVirtualFence.
  cbv zeta.
  repeat match goal with
         | E : _ = true |- _ => rewrite E; clear E
         | E : _ = false |- _ => rewrite E; clear E
         end.
  open_site s. simpl. intros H1 H2 Hne.
  assert (Hlen : Nat.eqb (length (map (fun r => num (f_id r))
                                     (filter (fence_matches fence 1)
                                             (virtual_fences db)))) 0
                 = false)
    by (destruct (filter (fence_matches fence 1) (virtual_fences db));
        [contradiction|reflexivity]).
  destruct faults as [|[d1 f1] [|[d2 f2] rest]]; simpl in H1, H2; subst;
    unfold try_catchS, bindS, executeStatement, next_fault; simpl;
    unfold site_fences; simpl; rewrite Hlen; reflexivity.
Qed.

Lemma no_faults_elapsed w : no_faults w -> no_faults (elapsed w).
Proof.
  unfold no_faults. simpl. intros H.
  destruct (w_faults w); simpl; [constructor|now inversion H].
Qed.

Lemma sql_id_matches_num rid i : sql_id_matches rid (num i) = (i =? rid).
Proof.
  unfold sql_id_matches, num. simpl.
  destruct (Z.eqb_spec i rid) as [E|E].
  - subst. apply Qeq_bool_iff. reflexivity.
  - destruct (Qeq_bool (inject_Z i) (inject_Z rid)) eqn:Q; [|reflexivity].
    apply Qeq_bool_iff in Q. unfold Qeq in Q. simpl in Q. lia.
Qed.

Lemma filter_none {A} (f : A -> bool) (l : list A) :
  (forall x, In x l -> f x = true) -> filter f l = l.
Proof.
  induction l as [|a l IH]; simpl; intros H; [reflexivity|].
  rewrite (H a) by now left. f_equal. apply IH. intros x Hx. apply H. now right.
Qed.

(** X24. A fence that was created can be deleted under the id the creation
    answered: when the body passes the checks, the statements run and the
    stored ids are below the next id (as auto-increment keeps them), creating
    and then deleting answers success twice and leaves virtual_fences
    exactly as it was. *)
Theorem created_fence_can_be_deleted (b : FenceBody) (s : Site) :
  fence_passes b = true ->
  site_no_faults s ->
  (forall r, In r (site_fences s) ->
             f_id r < virtual_fences_next (w_db (site_world s))) ->
  let s' := snd (create_then_delete b s) in
  fst (create_then_delete b s)
    = Returned (respond 200 true "Virtual fence deleted successfully")
  /\ site_fences s' = site_fences s.
Proof.
  intros Hp Hf Hids s'. subst s'. unfold site_no_faults in Hf.
  set (i := virtual_fences_next (w_db (site_world s))).
  set (q := InsertFence (stored_fence b 0)).
  set (s1 := with_world (ran q (site_world s)) s).
  assert (E1 : create_then_delete b s = deleteVirtualFence (num i) s1).
  { unfold create_then_delete, bindS, liftS.
    rewrite (createVirtualFence_checked b _ Hp), (next_fault_ok _ Hf).
    reflexivity. }
  assert (Hrows : site_fences s1 = site_fences s ++ [stored_fence b i])
    by reflexivity.
  assert (Hnew : fence_matches (num i) 1 (stored_fence b i) = true).
  { unfold fence_matches. rewrite sql_id_matches_num. simpl.
    now rewrite Z.eqb_refl. }
  assert (Hold : forall r, In r (site_fences s) ->
                           fence_matches (num i) 1 r = false).
  { intros r Hr. unfold fence_matches. rewrite sql_id_matches_num.
    apply Hids in Hr. fold i in Hr.
    destruct (Z.eqb_spec i (f_id r)); [lia|reflexivity]. }
  assert (Hf1 : no_faults (site_world s1)) by (apply no_faults_ran, Hf).
  assert (F1 : next_fault (site_world s1) = FOk) by now apply next_fault_ok.
  assert (F2 : next_fault (elapsed (site_world s1)) = FOk)
    by now apply next_fault_ok, no_faults_elapsed.
  assert (Hne : filter (fence_matches (num i) 1) (site_fences s1) <> []).
  { rewrite Hrows, filter_app. simpl. rewrite Hnew.
    intros E. now apply app_eq_nil in E. }
  rewrite E1, (deleteVirtualFence_ok (num i) s1 F1 F2 Hne). cbn [fst snd].
  split; [reflexivity|].
  cbv zeta. unfold set_fence_rows, site_fences at 1. simpl.
  rewrite Hrows, filter_app. simpl. rewrite Hnew. simpl.
  rewrite app_nil_r. apply filter_none.
  intros r Hr. now rewrite (Hold r Hr).
Qed.

(** X25. updateVirtualFence turns a body down exactly as createVirtualFence
    does: for a body that fails a check both answer the same 400 response,
    whatever fence the path names, and neither calls the database or changes
    anything. *)
Theorem fence_update_checks_like_create (fence : JsVal) (b : FenceBody) (s : Site) :
  fence_passes b = false ->
  updateVirtualFence fence b s = liftS (createVirtualFence b) s
  /\ snd (updateVirtualFence fence b s) = s
  /\ exists msg,
       fst (updateVirtualFence fence b s) = Returned (respond 400 false msg).
Proof.
  unfold fence_passes, updateVirtualFence, createVirtualFence, liftS,
    try_catchS, try_catch, retS, ret.
  cbv zeta. intros H.
  destruct s as [w controls marks beasts]. simpl.
  destruct (truthy (name b)); simpl in *;
    [|repeat split; eexists; reflexivity].
  destruct (truthy (center_latitude b)); simpl in *;
    [|repeat split; eexists; reflexivity].
  destruct (truthy (center_longitude b)); simpl in *;
    [|repeat split; eexists; reflexivity].
  destruct (truthy (radius_meters b)); simpl in *;
    [|repeat split; eexists; reflexivity].
  destruct (js_lt (center_latitude b) (inject_Z (-90))); simpl in *;
    [repeat split; eexists; reflexivity|].
  destruct (js_gt (center_latitude b) (inject_Z 90)); simpl in *;
    [repeat split; eexists; reflexivity|].
  destruct (js_lt (center_longitude b) (inject_Z (-180))); simpl in *;
    [repeat split; eexists; reflexivity|].
  destruct (js_gt (center_longitude b) (inject_Z 180)); simpl in *;
    [repeat split; eexists; reflexivity|].
  destruct (js_lt (radius_meters b) (inject_Z 50)); simpl in *;
    [repeat split; eexists; reflexivity|].
  destruct (js_gt (radius_meters b) (inject_Z 10000)); simpl in *;
    [repeat split; eexists; reflexivity|].
  discriminate.
Qed.

Lemma site_fences_set rows s : site_fences (set_fence_rows rows s) = rows.
Proof. reflexivity. Qed.

Lemma site_fences_elapsed s :
  site_fences (with_world (elapsed (site_world s)) s) = site_fences s.
Proof. reflexivity. Qed.

(** X26. An update that finds its fence rewrites the seven fields of the
    body and nothing else: when the body passes the checks and the
    statements run, every fence the id addresses in farm 1 holds the body's
    name, coordinates and radius, the description or NULL, the type or
    'custom', and is inactive only for [is_active: false]; it keeps its id,
    farm and creator.  The other fences are untouched, none is added or
    removed, and a fence of another farm is never addressed. *)
Theorem fence_update_keeps_identity (fence : JsVal) (b : FenceBody) (s : Site) :
  fence_passes b = true ->
  next_fault (site_world s) = FOk ->
  next_fault (elapsed (site_world s)) = FOk ->
  filter (fence_matches fence 1) (site_fences s) <> [] ->
  let s' := snd (updateVirtualFence fence b s) in
  fst (updateVirtualFence fence b s)
    = Returned (respond 200 true "Virtual fence updated successfully")
  /\ map f_id (site_fences s') = map f_id (site_fences s)
  /\ map f_farm_id (site_fences s') = map f_farm_id (site_fences s)
  /\ map f_created_by (site_fences s') = map f_created_by (site_fences s)
  /\ (forall r, In r (site_fences s') -> fence_matches fence 1 r = true ->
        f_name r = name b
        /\ f_center_latitude r = center_latitude b
        /\ f_center_longitude r = center_longitude b
        /\ f_radius_meters r = radius_meters b
        /\ f_description r = js_or (description b) JNull
        /\ f_fence_type r = js_or (fence_type b) (JStr "custom")
        /\ f_is_active r = not_false (is_active b))
  /\ filter (fun r => negb (fence_matches fence 1 r)) (site_fences s')
     = filter (fun r => negb (fence_matches fence 1 r)) (site_fences s)
  /\ (forall r, In r (site_fences s) -> f_farm_id r <> 1 -> In r (site_fences s')).
Proof.
  intros Hp H1 H2 Hne s'. subst s'.
  rewrite (updateVirtualFence_ok fence b s Hp H1 H2 Hne). cbn [fst snd].
  cbv zeta. rewrite site_fences_set.
  split; [reflexivity|].
  split; [rewrite map_map; apply map_ext; intros r;
          now destruct (fence_matches fence 1 r)|].
  split; [rewrite map_map; apply map_ext; intros r;
          now destruct (fence_matches fence 1 r)|].
  split; [rewrite map_map; apply map_ext; intros r;
          now destruct (fence_matches fence 1 r)|].
  split.
  { intros r Hr Hm. apply in_map_iff in Hr. destruct Hr as [r0 [E Hr0]].
    destruct (fence_matches fence 1 r0) eqn:M.
    - subst r. now repeat split.
    - subst r. congruence. }
  split.
  { clear Hne. induction (site_fences s) as [|r l IH]; [reflexivity|]. simpl.
    destruct (fence_matches fence 1 r) eqn:M; simpl.
    - unfold fence_matches at 1. simpl. fold (fence_matches fence 1 r).
      rewrite M. simpl. exact IH.
    - rewrite M. simpl. now rewrite IH. }
  intros r Hr Hfarm. apply in_map_iff. exists r. split; [|exact Hr].
  unfold fence_matches.
  destruct (Z.eqb_spec (f_farm_id r) 1); [contradiction|].
  now rewrite andb_false_r.
Qed.

(** ** updateAnimalLocation *)

(** X27. updateAnimalLocation writes history only: whatever the request and
    however the database calls end, it leaves current_locations as it is and
    publishes no location event, so a position saved through it never shows
    as a current position. *)
Theorem location_update_bypasses_current (animal : JsVal) (b : GpsBody) (s : Site) :
  let s' := snd (updateAnimalLocation animal b s) in
  current_locations (w_db (site_world s')) = current_locations (w_db (site_world s))
  /\ w_emitted (site_world s') = w_emitted (site_world s)
  /\ animals s' = animals s.
Proof.
  unfold updateAnimalLocation, try_catchS, bindS, liftS, executeStatement,
    executeQuery, recorded_or_now, next_fault.
  cbv zeta. open_site s. simpl.
  destruct (truthy (latitude b)); [|now repeat split].
  destruct (truthy (longitude b)); [|now repeat split].
  simpl.
  destruct faults as [|[d1 f1] [|[d2 f2] rest]];
    try destruct f1; try destruct f2; simpl;
    destruct (filter (animal_matches animal) beasts); simpl;
    try (now repeat split);
    destruct (truthy (default_null (recorded_at b))); now repeat split.
Qed.

(** X28. A location saved for a known animal: with truthy coordinates, an
    animal that the path id addresses and statements that run, the answer
    is 201 "Location saved" with a null id, and animal_locations gains one
    row under the next id.  The row carries the id of the path, whatever
    [animal_id] the body has, the coordinates as numbers and the stamp of
    the request. *)
Theorem location_update_appends_history (animal : JsVal) (b : GpsBody) (s : Site) :
  truthy (latitude b) = true -> truthy (longitude b) = true ->
  filter (animal_matches animal) (animals s) <> [] ->
  site_no_faults s ->
  let s' := snd (updateAnimalLocation animal b s) in
  fst (updateAnimalLocation animal b s)
    = Returned (with_id JNull (respond 201 true "Location saved"))
  /\ exists row,
       animal_locations (w_db (site_world s'))
       = animal_locations (w_db (site_world s)) ++ [row]
       /\ h_id row = animal_locations_next (w_db (site_world s))
       /\ l_animal_id (h_cols row) = animal
       /\ l_collar_id (h_cols row) = default_null (collar_id b)
       /\ l_latitude (h_cols row) = to_Number (latitude b)
       /\ l_longitude (h_cols row) = to_Number (longitude b)
       /\ l_recorded_at (h_cols row) = stamp b (elapsed (site_world s)).
Proof.
  unfold site_no_faults, no_faults, stamp.
  unfold updateAnimalLocation, try_catchS, bindS, liftS, executeStatement,
    executeQuery, recorded_or_now, next_fault.
  cbv zeta. intros Hlat Hlon. rewrite Hlat, Hlon.
  open_site s. simpl. intros Hne Hf.
  assert (Hlen : Nat.eqb (length (map (fun r => num (an_id r))
                                     (filter (animal_matches animal) beasts))) 0
                 = false)
    by (destruct (filter (animal_matches animal) beasts);
        [contradiction|reflexivity]).
  destruct faults as [|[d1 f1] [|[d2 f2] rest]].
  - simpl. rewrite Hlen.
    destruct (truthy (default_null (recorded_at b))); simpl;
      (split; [reflexivity|]); eexists; (split; [reflexivity|]);
      now repeat split.
  - inversion Hf as [|? ? F1 Hr]. simpl in F1. subst f1.
    simpl. rewrite Hlen.
    destruct (truthy (default_null (recorded_at b))); simpl;
      (split; [reflexivity|]); eexists; (split; [reflexivity|]);
      now repeat split.
  - inversion Hf as [|? ? F1 Hr]. simpl in F1. subst f1.
    inversion Hr as [|? ? F2 Hr']. simpl in F2. subst f2.
    simpl. rewrite Hlen.
    destruct (truthy (default_null (recorded_at b))); simpl;
      (split; [reflexivity|]); eexists; (split; [reflexivity|]);
      now repeat split.
Qed.

(** X29. What updateAnimalLocation turns down before it stores anything: a
    latitude or longitude that is falsy, the number 0 included, is answered
    400 without a database call; an id that addresses no animal is answered
    404, and so is a lookup that resolves to a failure.  No row is added in
    either case. *)
Theorem location_update_rejections (animal : JsVal) (b : GpsBody) (s : Site) :
  let s' := snd (updateAnimalLocation animal b s) in
  (truthy (latitude b) && truthy (longitude b) = false ->
   fst (updateAnimalLocation animal b s)
     = Returned (respond 400 false "latitude and longitude are required")
   /\ s' = s)
  /\ (truthy (latitude b) && truthy (longitude b) = true ->
      (exists e, next_fault (site_world s) = FFail e)
      \/ (next_fault (site_world s) = FOk
          /\ filter (animal_matches animal) (animals s) = []) ->
      fst (updateAnimalLocation animal b s)
        = Returned (respond 404 false "Animal not found")
      /\ w_db (site_world s') = w_db (site_world s)).
Proof.
  unfold updateAnimalLocation, try_catchS, bindS, liftS, executeStatement,
    executeQuery, recorded_or_now, next_fault.
  cbv zeta. open_site s. simpl.
  destruct (truthy (latitude b)); simpl;
    [|split; [now split|discriminate]].
  destruct (truthy (longitude b)); simpl;
    [|split; [now split|discriminate]].
  split; [discriminate|].
  intros _ [[e H]|[H Hnone]].
  - destruct faults as [|[d f] rest]; simpl in H; [discriminate|]. subst f.
    now split.
  - destruct faults as [|[d f] rest]; simpl in H; subst; simpl;
      rewrite Hnone; now split.
Qed.

(** ** GET /gps/current *)

(** The first row a filter on the animal id finds after an upsert, when the
    filter picks the rows under the key of the new row. *)
Lemma filter_upsert_position (f : CurrentRow -> bool) new rows :
  (forall a b, c_animal_id a = c_animal_id b -> f a = f b) ->
  f new = true ->
  (forall r, In r rows -> (f r = true <-> row_key r = row_key new)) ->
  exists r0 rest,
    filter f (upsert overwrite_position new rows) = r0 :: rest
    /\ c_latitude r0 = c_latitude new
    /\ c_longitude r0 = c_longitude new
    /\ c_recorded_at r0 = c_recorded_at new
    /\ c_battery_level r0 = c_battery_level new
    /\ c_signal_quality r0 = c_signal_quality new.
Proof.
  intros Hid Hnew. induction rows as [|r rows IH]; intros Hrows.
  - exists new, []. simpl. rewrite Hnew. now repeat split.
  - simpl. destruct (key_eqb (row_key r) (row_key new)) eqn:K.
    + exists (overwrite_position new r), (filter f rows). simpl.
      assert (E : f (overwrite_position new r) = true).
      { rewrite (Hid (overwrite_position new r) r) by reflexivity.
        apply Hrows; [now left|]. now apply key_eqb_eq. }
      rewrite E. now repeat split.
    + simpl. assert (E : f r = false).
      { destruct (f r) eqn:F; [|reflexivity].
        apply Hrows in F; [|now left].
        apply key_eqb_eq in F. congruence. }
      rewrite E. apply IH. intros x Hx. apply Hrows. now right.
Qed.

Lemma joined_first beasts r :
  exists x rest,
    joined beasts r = x :: rest
    /\ m_animal_id x = c_animal_id r
    /\ m_latitude x = c_latitude r
    /\ m_longitude x = c_longitude r
    /\ m_recorded_at x = c_recorded_at r
    /\ m_battery_level x = c_battery_level r
    /\ m_signal_quality x = c_signal_quality r.
Proof.
  unfold joined.
  destruct (filter _ beasts) as [|a l]; simpl; eexists; eexists;
    (split; [reflexivity|]); now repeat split.
Qed.

Lemma get_current_by_animal p c s :
  loose_null p = false ->
  next_fault (site_world s) = FOk ->
  fst (get_current p c s)
  = Returned {| cu_status := 200; cu_success := true;
                cu_data := hd_error (select_current (ByAnimal p) s);
                cu_message := None; cu_error := JUndefined |}.
Proof.
  unfold get_current, try_catchS, bindS, executeSelectCurrent, retS.
  cbv zeta. intros Hp Hf. rewrite Hp, Hf. reflexivity.
Qed.

(** X30. What POST /gps stores for an animal, GET /gps/current returns for
    it: for a report with coordinates that names an animal, when the
    statements run and the rows of current_locations with that animal id
    are the rows under the report's key, a lookup with an [animal_id] that
    equals the report's as a number answers a row with the report's
    coordinates, battery and signal, and with the report's [recorded_at]
    when it carries one. *)
Theorem current_follows_report (b : GpsBody) (p c : JsVal) (s : Site) :
  is_correction b = false -> has_coordinates b = true ->
  truthy (default_null (animal_id b)) = true ->
  site_no_faults s ->
  loose_null p = false ->
  animal_id_equal (default_null (animal_id b)) p = true ->
  (forall r, In r (current_locations (w_db (site_world s))) ->
             (animal_id_equal (c_animal_id r) p = true
              <-> row_key r = report_key b)) ->
  exists row,
    fst (report_then_lookup b p c s)
    = Returned {| cu_status := 200; cu_success := true; cu_data := Some row;
                  cu_message := None; cu_error := JUndefined |}
    /\ animal_id_equal (m_animal_id row) p = true
    /\ m_latitude row = to_Number (latitude b)
    /\ m_longitude row = to_Number (longitude b)
    /\ m_battery_level row = default_null (battery_level b)
    /\ m_signal_quality row = default_null (signal_quality b)
    /\ (truthy (default_null (recorded_at b)) = true ->
        m_recorded_at row = SJs (default_null (recorded_at b))).
Proof.
  intros Hc Hxy Hanimal Hf Hp Heq Hrows. unfold site_no_faults in Hf.
  assert (Ha : attributed b = true)
    by (unfold attributed; now rewrite Hanimal).
  set (w := site_world s) in *.
  set (q1 := InsertLocation (report_cols b (stamp b w))).
  set (w1 := ran q1 w).
  set (new := report_row b (stamp b w1)).
  set (q2 := UpsertCurrent new).
  set (w2 := published (report_event b (stamp b w1))
                       "Failed to emit gps location event:" (ran q2 w1)).
  assert (Hf1 : no_faults w1) by now apply no_faults_ran.
  assert (Hf2 : no_faults w2) by now apply no_faults_published, no_faults_ran.
  assert (E1 : liftS (post_gps b) s
               = (Returned (with_id JNull (respond 200 true "Animal location saved")),
                  with_world w2 s)).
  { unfold liftS. fold w. rewrite (post_gps_attributed b w Hc Hxy Ha).
    cbv zeta. fold q1. fold w1. rewrite (next_fault_ok w Hf).
    now rewrite (next_fault_ok w1 Hf1). }
  assert (Hcur : current_locations (w_db w2)
                 = upsert overwrite_position new (current_locations (w_db w))).
  { unfold w2. rewrite w_db_published. reflexivity. }
  destruct (filter_upsert_position
              (fun r => animal_id_equal (c_animal_id r) p) new
              (current_locations (w_db w)))
    as [r0 [rest [Efilter [Elat [Elon [Et [Eb Es]]]]]]].
  { intros x y E. now rewrite E. }
  { exact Heq. }
  { exact Hrows. }
  destruct (joined_first (animals s) r0)
    as [x [more [Ej [Xa [Xlat [Xlon [Xt [Xb Xs]]]]]]]].
  exists x. split.
  - unfold report_then_lookup, bindS. rewrite E1.
    rewrite get_current_by_animal;
      [|exact Hp|now apply next_fault_ok].
    unfold select_current. simpl site_world. simpl animals.
    rewrite Hcur.
    assert (Efilter' : filter (passes (ByAnimal p))
                              (upsert overwrite_position new
                                      (current_locations (w_db w)))
                       = r0 :: rest) by exact Efilter.
    rewrite Efilter'. simpl flat_map.
    rewrite Ej. reflexivity.
  - assert (Hr0 : animal_id_equal (c_animal_id r0) p = true).
    { assert (I : In r0 (filter (fun r => animal_id_equal (c_animal_id r) p)
                                (upsert overwrite_position new
                                        (current_locations (w_db w)))))
        by (rewrite Efilter; now left).
      apply filter_In in I. exact (proj2 I). }
    rewrite Xa, Xlat, Xlon, Xb, Xs, Xt, Elat, Elon, Eb, Es, Et.
    split; [exact Hr0|]. do 4 (split; [reflexivity|]).
    intros Ht. simpl. unfold stamp. now rewrite Ht.
Qed.

(** ** handleAlert on a title that may be an array *)

Lemma field_or_plain a b : field_or (Plain a) (Plain b) = Plain (js_or a b).
Proof. unfold field_or, js_or. simpl. now destruct (truthy a). Qed.

Lemma js_gt_length n max :
  js_gt (num (Z.of_nat n)) (inject_Z (Z.of_nat max)) = Nat.ltb max n.
Proof.
  unfold js_gt, num. simpl.
  destruct (Nat.ltb max n) eqn:E.
  - apply Nat.ltb_lt in E. apply num_lt_spec.
    unfold Qlt. simpl. lia.
  - apply Nat.ltb_ge in E. apply num_lt_false.
    unfold Qle. simpl. lia.
Qed.

Lemma too_long_plain v :
  js_gt (field_length (Plain v)) (inject_Z (Z.of_nat MAX_TITLE)) = title_too_long v.
Proof.
  destruct v as [| |b|n|s]; try reflexivity.
  simpl field_length. apply js_gt_length.
Qed.

(** On a payload of primitives the handler with the title given apart is
    [handleAlert]. *)
Lemma handleAlertTitled_plain payload w :
  handleAlertTitled (Plain (a_alert payload)) (Plain (a_title payload)) payload w
  = handleAlert payload w.
Proof.
  unfold handleAlertTitled, handleAlert. cbv zeta.
  rewrite !field_or_plain. fold (raw_title payload).
  rewrite too_long_plain.
  assert (E : forall w0,
             (if title_too_long (raw_title payload)
              then field_substring (Plain (raw_title payload))
              else ret (Plain (raw_title payload))) w0
             = (Returned (Plain (cap_title (raw_title payload))), w0)).
  { intros w0. unfold title_too_long, cap_title.
    destruct (raw_title payload) as [| |b|n|s]; try reflexivity.
    now destruct (Nat.ltb MAX_TITLE (String.length s)). }
  unfold try_catch at 1 3. unfold bind at 1. rewrite E.
  reflexivity.
Qed.

(** A title that is an array of more than [MAX_TITLE] elements: the call of
    [substring] throws before anything is logged, stored or mailed, and the
    request is answered 500. *)
Lemma long_array_title_is_dropped alert title payload w l :
  field_or (field_or alert title) (Plain (JStr "Device Alert")) = Items l ->
  (MAX_TITLE < length l)%nat ->
  handleAlertTitled alert title payload w
  = (Returned (respond 500 false "Internal server error"),
     logged (Error "Device alert route error:") w).
Proof.
  intros Hraw Hlen. unfold handleAlertTitled. cbv zeta. rewrite Hraw.
  simpl field_length. rewrite js_gt_length.
  apply Nat.ltb_lt in Hlen. rewrite Hlen.
  reflexivity.
Qed.
End Backend.

(** ** The handlers on concrete requests *)

Local Abbreviation gps := (post_gps decimal_to_number (option Z) animal_key animal_key_eqb).

(** C1. The report [{ latitude: 40.1, longitude: -73.9, animal_id: 7 }] on
    an empty store, where the insert into animal_locations runs and the
    upsert call resolves to [{ success: false }]: the route answers success
    and the history row is stored, current_locations stays empty, and yet
    nothing is logged and the location event is emitted. *)
Theorem failed_upsert_is_published_unlogged :
  let w := world_of empty_db [(5, FOk); (7, FFail "ER_LOCK_WAIT_TIMEOUT")] in
  let w' := snd (gps report_7 w) in
  fst (gps report_7 w)
    = Returned (with_id JNull (respond 200 true "Animal location saved"))
  /\ map h_id (animal_locations (w_db w')) = [1]
  /\ current_locations (w_db w') = []
  /\ w_console w' = []
  /\ map ev_latitude (w_emitted w') = [Fin (401 # 10)].
Proof. vm_compute. now repeat split. Qed.

(** The end-to-end run of the specification: a report for animal 7, then a
    second one at latitude 40.2.  The current row of the animal follows the
    second report, and animal_locations grows by one row per report. *)
Example two_reports_for_animal_7 :
  let w1 := snd (gps report_7 (world_of empty_db [])) in
  let w2 := snd (gps report_7_moved w1) in
  map c_latitude (current_locations (w_db w1)) = [Fin (401 # 10)]
  /\ map c_latitude (current_locations (w_db w2)) = [Fin (402 # 10)]
  /\ map c_battery_level (current_locations (w_db w2)) = [JNull]
  /\ map h_id (animal_locations (w_db w1)) = [1]
  /\ map h_id (animal_locations (w_db w2)) = [1; 2]
  /\ length (w_emitted w2) = 2%nat.
Proof. vm_compute. now repeat split. Qed.

(** A report without coordinates is answered 400 and touches nothing. *)
Example report_without_coordinates :
  gps absent_gps (world_of empty_db [])
  = (Returned (respond 400 false "Missing coordinates"), world_of empty_db []).
Proof. reflexivity. Qed.

(** A failed insert into animal_locations: status 500, no upsert, no event. *)
Example report_with_failed_insert :
  let w := world_of empty_db [(5, FFail "ER_LOCK_WAIT_TIMEOUT")] in
  let w' := snd (gps report_7 w) in
  (exists r, fst (gps report_7 w) = Returned r /\ r_status r = 500)
  /\ length (w_queries w') = 1%nat
  /\ animal_locations (w_db w') = []
  /\ current_locations (w_db w') = []
  /\ w_emitted w' = [].
Proof. vm_compute. split; [eexists; now split|now repeat split]. Qed.

(** An upsert call that rejects after the insert ran: the route answers
    success, keeps the history row, logs the failure and emits nothing. *)
Example report_with_rejected_upsert :
  let w := world_of empty_db [(5, FOk); (7, FThrow "ECONNRESET")] in
  let w' := snd (gps report_7 w) in
  fst (gps report_7 w)
    = Returned (with_id JNull (respond 200 true "Animal location saved"))
  /\ map h_id (animal_locations (w_db w')) = [1]
  /\ w_console w' = [Warn "Failed to upsert current_locations:"]
  /\ w_emitted w' = [].
Proof. vm_compute. now repeat split. Qed.

Local Abbreviation fence :=
  (createVirtualFence decimal_to_number (option Z) animal_key animal_key_eqb).

(** C8. A fence centred on the equator,
    [{ name, center_latitude: 0, center_longitude: 30.1, radius_meters: 500 }],
    has every value inside its range and is answered 400 "Name, coordinates,
    and radius are required"; nothing is inserted.  The same request centred
    at latitude 40.1 is inserted and answered 201. *)
Theorem fence_on_equator_rejected :
  let w := world_of empty_db [] in
  in_fence_ranges 0 (301 # 10) (inject_Z 500)
  /\ fence equator_fence w
     = (Returned (respond 400 false "Name, coordinates, and radius are required"), w)
  /\ (exists r, fst (fence north_fence w) = Returned r /\ r_status r = 201).
Proof.
  split; [|split].
  - unfold in_fence_ranges, Qle. simpl. lia.
  - reflexivity.
  - eexists. split; reflexivity.
Qed.

Local Abbreviation remote_config :=
  (updateRemoteConfig decimal_to_number (option Z) animal_key animal_key_eqb).

(** C7. The request [{ soundEnabled: true, wifiSSID: "barn",
    wifiPassword: "hunter2" }] without device id, where the UPDATE of
    system_settings resolves to a failure: nothing of the credentials is
    stored, in system_settings or in device_commands, and yet the request is
    answered 200 with success, not 400. *)
Theorem wifi_without_device_accepted_on_settings_failure :
  let w := world_of empty_db [(3, FFail "ER_NO_SUCH_TABLE")] in
  let w' := snd (remote_config global_wifi_request w) in
  (exists r, fst (remote_config global_wifi_request w) = Returned r
             /\ r_status r = 200 /\ r_success r = true)
  /\ system_settings (w_db w') = system_settings (w_db w)
  /\ device_commands (w_db w') = [].
Proof.
  split; [eexists; split; [reflexivity|now split]|]. now split.
Qed.

(** ** The theorems on concrete requests *)

Lemma animal_key_eqb_eq (a b : option Z) : animal_key_eqb a b = true <-> a = b.
Proof.
  destruct a as [x|], b as [y|]; simpl; split; intros H;
    try reflexivity; try discriminate.
  - apply Z.eqb_eq in H. now subst.
  - inversion H. apply Z.eqb_refl.
Qed.

Lemma ingest_attributed_dual_write_witness :
  let w := world_of empty_db [] in
  is_correction report_7 = false
  /\ attributed report_7 = true
  /\ no_faults w
  /\ unique_keys (option Z) animal_key (current_locations (w_db w))
  /\ animal_locations (w_db (snd (gps report_7 w)))
     = animal_locations (w_db w)
       ++ [{| h_id := animal_locations_next (w_db w);
              h_cols := report_cols decimal_to_number report_7 (stamp report_7 w) |}].
Proof.
  intros w.
  assert (Hc : is_correction report_7 = false) by reflexivity.
  assert (Ha : attributed report_7 = true) by reflexivity.
  assert (Hf : no_faults w) by constructor.
  assert (Hu : unique_keys (option Z) animal_key (current_locations (w_db w)))
    by constructor.
  repeat (split; [assumption|]).
  exact (proj1 (proj2
    (ingest_attributed_dual_write decimal_to_number (option Z) animal_key
       animal_key_eqb animal_key_eqb_eq report_7 w (401 # 10) (-739 # 10)
       eq_refl eq_refl Hc Ha Hf Hu))).
Defined.

Lemma ingest_unattributed_sentinel_only_witness :
  let w := world_of db_with_row_3 [] in
  is_correction raw_point = false
  /\ has_coordinates raw_point = true
  /\ attributed raw_point = false
  /\ animal_locations (w_db (snd (gps raw_point w))) = animal_locations (w_db w).
Proof.
  intros w.
  assert (Hc : is_correction raw_point = false) by reflexivity.
  assert (Hxy : has_coordinates raw_point = true) by reflexivity.
  assert (Ha : attributed raw_point = false) by reflexivity.
  repeat (split; [assumption|]).
  exact (proj1
    (ingest_unattributed_sentinel_only decimal_to_number (option Z) animal_key
       animal_key_eqb animal_key_eqb_eq raw_point w Hc Hxy Ha)).
Defined.

Lemma correction_twice_one_row_witness :
  let w := world_of db_with_row_3 [] in
  let orig := {| h_id := 3; h_cols := no_cols |} in
  is_correction correction_3 = true
  /\ rows_with_id decimal_to_number (correction_id correction_3)
       (animal_locations (w_db w)) = [orig]
  /\ no_faults w
  /\ unique_keys (option Z) animal_key (current_locations (w_db w))
  /\ length (animal_locations
               (w_db (twice decimal_to_number (option Z) animal_key
                        animal_key_eqb correction_3 w)))
     = length (animal_locations (w_db w)).
Proof.
  intros w orig.
  assert (Hc : is_correction correction_3 = true) by reflexivity.
  assert (Ho : rows_with_id decimal_to_number (correction_id correction_3)
                 (animal_locations (w_db w)) = [orig]) by reflexivity.
  assert (Hf : no_faults w) by constructor.
  assert (Hu : unique_keys (option Z) animal_key (current_locations (w_db w)))
    by constructor.
  repeat (split; [assumption|]).
  exact (proj1 (proj2
    (correction_twice_one_row decimal_to_number (option Z) animal_key
       animal_key_eqb animal_key_eqb_eq correction_3 w orig Hc Ho Hf Hu))).
Defined.

Lemma correction_of_unknown_id_witness :
  let w := world_of empty_db [] in
  is_correction correction_3 = true
  /\ rows_with_id decimal_to_number (correction_id correction_3)
       (animal_locations (w_db w)) = []
  /\ no_faults w
  /\ unique_keys (option Z) animal_key (current_locations (w_db w))
  /\ fst (gps correction_3 w)
     = Returned (with_id (correction_id correction_3)
                   (respond 200 true "GPS record updated")).
Proof.
  intros w.
  assert (Hc : is_correction correction_3 = true) by reflexivity.
  assert (Ho : rows_with_id decimal_to_number (correction_id correction_3)
                 (animal_locations (w_db w)) = []) by reflexivity.
  assert (Hf : no_faults w) by constructor.
  assert (Hu : unique_keys (option Z) animal_key (current_locations (w_db w)))
    by constructor.
  repeat (split; [assumption|]).
  exact (proj1
    (correction_of_unknown_id decimal_to_number (option Z) animal_key
       animal_key_eqb animal_key_eqb_eq correction_3 w Hc Ho Hf Hu)).
Defined.


Lemma alert_recorded_with_capped_fields_witness :
  let w := world_with_broken_mail empty_db in
  let alert := handleAlert decimal_to_number integer_to_string (option Z)
                 animal_key animal_key_eqb in
  next_fault w = FOk
  /\ alerts (w_db (snd (alert long_alert w)))
     = alerts (w_db w)
       ++ [{| al_id := alerts_next (w_db w);
              al_cols := alert_cols decimal_to_number integer_to_string long_alert |}].
Proof.
  intros w alert.
  assert (Hf : next_fault w = FOk) by reflexivity.
  split; [assumption|].
  exact (proj1 (proj2 (proj2 (proj2 (proj2 (proj2 (proj2 (proj2
    (alert_recorded_with_capped_fields decimal_to_number integer_to_string
       (option Z) animal_key animal_key_eqb long_alert w Hf))))))))).
Defined.

Lemma expired_command_never_polled_witness :
  let c := stale_command pending in
  cmd_expires_at c = Some 1699999999999
  /\ 1699999999999 < 1700000000000
  /\ ~ In c (poll 1700000000000 (JStr "collar-12") [c; fresh_command]).
Proof.
  intros c.
  assert (Ht : cmd_expires_at c = Some 1699999999999) by reflexivity.
  assert (Hl : 1699999999999 < 1700000000000) by reflexivity.
  repeat (split; [assumption|]).
  exact (proj1
    (expired_command_never_polled 1700000000000 (JStr "collar-12")
       [c; fresh_command] c 1699999999999 Ht Hl)).
Defined.

(** ** Further properties on concrete requests *)

Local Abbreviation alert_route :=
  (handleAlert decimal_to_number integer_to_string (option Z) animal_key
               animal_key_eqb).
Local Abbreviation authenticate := (authenticateToken sample_verify).
Local Abbreviation save_location :=
  (updateAnimalLocation decimal_to_number (option Z) animal_key animal_key_eqb).
Local Abbreviation update_fence := (updateVirtualFence decimal_to_number).
Local Abbreviation set_control := (post_control decimal_to_number integer_to_string).
Local Abbreviation read_control := (get_control decimal_to_number integer_to_string).
Local Abbreviation mark_read := (markAlertRead decimal_to_number).
Local Abbreviation resolve := (resolveAlert decimal_to_number).
Local Abbreviation clear_alerts := (deleteAllAlerts decimal_to_number).

Lemma correction_update_failure_is_fatal_witness :
  let w := world_of db_with_row_3 [(5, FFail "ER_LOCK_WAIT_TIMEOUT")] in
  is_correction correction_3 = true
  /\ next_fault w <> FOk
  /\ w_db (snd (gps correction_3 w)) = w_db w
  /\ w_emitted (snd (gps correction_3 w)) = w_emitted w.
Proof.
  intros w.
  assert (Hc : is_correction correction_3 = true) by reflexivity.
  assert (Hf : next_fault w <> FOk) by discriminate.
  split; [exact Hc|]. split; [exact Hf|].
  exact (proj2 (proj2
    (correction_update_failure_is_fatal decimal_to_number (option Z) animal_key
       animal_key_eqb correction_3 w Hc Hf))).
Defined.

Lemma raw_upsert_failure_is_fatal_witness :
  let w := world_of db_with_row_3 [(5, FThrow "ECONNRESET")] in
  is_correction raw_point = false
  /\ has_coordinates raw_point = true
  /\ attributed raw_point = false
  /\ next_fault w <> FOk
  /\ w_db (snd (gps raw_point w)) = w_db w.
Proof.
  intros w.
  assert (Hc : is_correction raw_point = false) by reflexivity.
  assert (Hxy : has_coordinates raw_point = true) by reflexivity.
  assert (Ha : attributed raw_point = false) by reflexivity.
  assert (Hf : next_fault w <> FOk) by discriminate.
  repeat (split; [assumption|]).
  exact (proj1 (proj2
    (raw_upsert_failure_is_fatal decimal_to_number (option Z) animal_key
       animal_key_eqb raw_point w Hc Hxy Ha Hf))).
Defined.

Lemma correction_without_latitude_binds_nan_witness :
  let w := world_of db_with_row_3 [] in
  is_correction correction_3_no_latitude = true
  /\ latitude correction_3_no_latitude = JUndefined
  /\ exists r, fst (gps correction_3_no_latitude w) = Returned r
               /\ r_status r <> 400.
Proof.
  intros w.
  assert (Hc : is_correction correction_3_no_latitude = true) by reflexivity.
  assert (Hl : latitude correction_3_no_latitude = JUndefined) by reflexivity.
  repeat (split; [assumption|]).
  exact (proj1 (proj2 (proj2
    (correction_without_latitude_binds_nan decimal_to_number (option Z)
       animal_key animal_key_eqb correction_3_no_latitude w Hc Hl)))).
Defined.

Lemma current_follows_report_witness :
  let s := farm_of (world_of stocked_db []) in
  is_correction report_7 = false
  /\ has_coordinates report_7 = true
  /\ site_no_faults s
  /\ animal_id_equal decimal_to_number (default_null (animal_id report_7))
                     (JStr "7") = true
  /\ exists row,
       cu_data (match fst (report_then_lookup decimal_to_number (option Z)
                             animal_key animal_key_eqb same_text
                             report_7 (JStr "7") JUndefined s) with
                | Returned r => r
                | Thrown _ =>
                    {| cu_status := 500; cu_success := false; cu_data := None;
                       cu_message := None; cu_error := JUndefined |}
                end) = Some row
       /\ m_latitude row = Fin (401 # 10).
Proof.
  intros s.
  assert (Hc : is_correction report_7 = false) by reflexivity.
  assert (Hxy : has_coordinates report_7 = true) by reflexivity.
  assert (Ht : truthy (default_null (animal_id report_7)) = true) by reflexivity.
  assert (Hf : site_no_faults s) by constructor.
  assert (Hp : loose_null (JStr "7") = false) by reflexivity.
  assert (He : animal_id_equal decimal_to_number
                 (default_null (animal_id report_7)) (JStr "7") = true)
    by reflexivity.
  assert (Hrows :
            forall r, In r (current_locations (w_db (site_world s))) ->
                      (animal_id_equal decimal_to_number (c_animal_id r) (JStr "7")
                       = true
                       <-> row_key (option Z) animal_key r
                           = report_key (option Z) animal_key report_7)).
  { intros r [E|[E|[]]]; subst r; vm_compute; split; intros H;
      try reflexivity; discriminate. }
  repeat (split; [assumption|]).
  destruct (current_follows_report decimal_to_number (option Z) animal_key
              animal_key_eqb animal_key_eqb_eq same_text report_7 (JStr "7")
              JUndefined s Hc Hxy Ht Hf Hp He Hrows)
    as [row [E [_ [Hlat _]]]].
  exists row. rewrite E. split; [reflexivity|exact Hlat].
Defined.

Lemma location_update_appends_history_witness :
  let s := farm_of (world_of stocked_db []) in
  truthy (latitude report_7) = true
  /\ truthy (longitude report_7) = true
  /\ filter (animal_matches decimal_to_number (JStr "7")) (animals s) <> []
  /\ site_no_faults s
  /\ fst (save_location (JStr "7") report_7 s)
     = Returned (with_id JNull (respond 201 true "Location saved")).
Proof.
  intros s.
  assert (H1 : truthy (latitude report_7) = true) by reflexivity.
  assert (H2 : truthy (longitude report_7) = true) by reflexivity.
  assert (H3 : filter (animal_matches decimal_to_number (JStr "7")) (animals s)
               <> []) by discriminate.
  assert (H4 : site_no_faults s) by constructor.
  repeat (split; [assumption|]).
  exact (proj1
    (location_update_appends_history decimal_to_number (option Z) animal_key
       animal_key_eqb (JStr "7") report_7 s H1 H2 H3 H4)).
Defined.

Lemma location_update_rejections_witness :
  let s := farm_of (world_of stocked_db []) in
  truthy (latitude equator_point) && truthy (longitude equator_point) = false
  /\ fst (save_location (JStr "7") equator_point s)
     = Returned (respond 400 false "latitude and longitude are required").
Proof.
  intros s.
  assert (H : truthy (latitude equator_point) && truthy (longitude equator_point)
              = false) by reflexivity.
  split; [exact H|].
  exact (proj1 (proj1
    (location_update_rejections decimal_to_number (option Z) animal_key
       animal_key_eqb (JStr "7") equator_point s) H)).
Defined.

Lemma fence_stored_with_defaults_witness :
  let w := world_of stocked_db [] in
  fence_passes decimal_to_number north_fence = true
  /\ next_fault w = FOk
  /\ fst (fence north_fence w)
     = Returned (with_data (FenceId 4)
                   (respond 201 true "Virtual fence created successfully")).
Proof.
  intros w.
  assert (Hp : fence_passes decimal_to_number north_fence = true) by reflexivity.
  assert (Hf : next_fault w = FOk) by reflexivity.
  repeat (split; [assumption|]).
  exact (proj2 (proj2 (proj2 (proj2 (proj2
    (fence_stored_with_defaults decimal_to_number (option Z) animal_key
       animal_key_eqb north_fence w Hp Hf)))))).
Defined.

Lemma fence_non_numeric_latitude_passes_witness :
  let w := world_of empty_db [] in
  decimal_to_number "north" = NaN
  /\ center_latitude typo_fence = JStr "north"
  /\ exists row,
       virtual_fences (w_db (snd (fence typo_fence w))) = [row]
       /\ f_center_latitude row = JStr "north".
Proof.
  intros w.
  assert (Hnan : decimal_to_number "north" = NaN) by reflexivity.
  assert (Hlat : center_latitude typo_fence = JStr "north") by reflexivity.
  repeat (split; [assumption|]).
  apply (fence_non_numeric_latitude_passes decimal_to_number (option Z)
           animal_key animal_key_eqb typo_fence w "north" (301 # 10)
           (inject_Z 500)); try reflexivity; try discriminate.
Defined.

Lemma created_fence_can_be_deleted_witness :
  let s := site_of (world_of stocked_db []) in
  fence_passes decimal_to_number north_fence = true
  /\ site_no_faults s
  /\ (forall r, In r (site_fences s) ->
                f_id r < virtual_fences_next (w_db (site_world s)))
  /\ site_fences
       (snd (create_then_delete decimal_to_number (option Z) animal_key
               animal_key_eqb north_fence s))
     = site_fences s.
Proof.
  intros s.
  assert (Hp : fence_passes decimal_to_number north_fence = true) by reflexivity.
  assert (Hf : site_no_faults s) by constructor.
  assert (Hids : forall r, In r (site_fences s) ->
                           f_id r < virtual_fences_next (w_db (site_world s))).
  { intros r [E|[E|[]]]; subst r; reflexivity. }
  repeat (split; [assumption|]).
  exact (proj2
    (created_fence_can_be_deleted decimal_to_number (option Z) animal_key
       animal_key_eqb north_fence s Hp Hf Hids)).
Defined.

Lemma fence_update_checks_like_create_witness :
  let s := site_of (world_of stocked_db []) in
  fence_passes decimal_to_number equator_fence = false
  /\ snd (update_fence (JStr "2") equator_fence s) = s.
Proof.
  intros s.
  assert (Hp : fence_passes decimal_to_number equator_fence = false)
    by reflexivity.
  split; [exact Hp|].
  exact (proj1 (proj2
    (fence_update_checks_like_create decimal_to_number (option Z) animal_key
       animal_key_eqb (JStr "2") equator_fence s Hp))).
Defined.

Lemma fence_update_keeps_identity_witness :
  let s := site_of (world_of stocked_db []) in
  fence_passes decimal_to_number north_fence = true
  /\ filter (fence_matches decimal_to_number (JStr "2") 1) (site_fences s) <> []
  /\ map f_created_by (site_fences (snd (update_fence (JStr "2") north_fence s)))
     = map f_created_by (site_fences s).
Proof.
  intros s.
  assert (Hp : fence_passes decimal_to_number north_fence = true) by reflexivity.
  assert (H1 : next_fault (site_world s) = FOk) by reflexivity.
  assert (H2 : next_fault (elapsed (site_world s)) = FOk) by reflexivity.
  assert (Hne : filter (fence_matches decimal_to_number (JStr "2") 1)
                       (site_fences s) <> []) by discriminate.
  repeat (split; [assumption|]).
  exact (proj1 (proj2 (proj2 (proj2
    (fence_update_keeps_identity decimal_to_number (JStr "2") north_fence s
       Hp H1 H2 Hne))))).
Defined.

Lemma enqueue_stops_at_first_failure_witness :
  let w := world_of empty_db [(5, FFail "ER_LOCK_WAIT_TIMEOUT")] in
  truthy (device_id device_request) = true
  /\ wants_control device_request = true
  /\ wants_wifi device_request = true
  /\ truthy (expires_hours device_request) = false
  /\ 0 <= w_now w <= MAX_TIME - 24 * HOUR
  /\ next_fault w <> FOk
  /\ device_commands (w_db (snd (remote_config device_request w)))
     = device_commands (w_db w).
Proof.
  intros w.
  assert (Hd : truthy (device_id device_request) = true) by reflexivity.
  assert (Hc : wants_control device_request = true) by reflexivity.
  assert (Hw : wants_wifi device_request = true) by reflexivity.
  assert (He : truthy (expires_hours device_request) = false) by reflexivity.
  assert (Hn : 0 <= w_now w <= MAX_TIME - 24 * HOUR)
    by (split; discriminate).
  assert (Hf : next_fault w <> FOk) by discriminate.
  repeat (split; [assumption|]).
  exact (proj1 (proj2 (proj1
    (enqueue_stops_at_first_failure decimal_to_number (option Z) animal_key
       animal_key_eqb device_request w Hd Hc Hw He Hn) Hf))).
Defined.


Lemma settings_update_reads_back_witness :
  let w := world_of empty_db [] in
  truthy (device_id settings_request) = false
  /\ wants_wifi settings_request = false
  /\ settings_updates settings_request <> []
  /\ next_fault w = FOk
  /\ forall row,
       In row (system_settings (w_db (snd (remote_config settings_request w)))) ->
       get_column "sensor_threshold" row = Some (SJs (num 35)).
Proof.
  intros w.
  assert (Hd : truthy (device_id settings_request) = false) by reflexivity.
  assert (Hw : wants_wifi settings_request = false) by reflexivity.
  assert (Hu : settings_updates settings_request <> []) by discriminate.
  assert (Hf : next_fault w = FOk) by reflexivity.
  repeat (split; [assumption|]).
  intros row Hrow.
  exact (proj1 (proj1 (proj2 (proj2
    (settings_update_reads_back decimal_to_number (option Z) animal_key
       animal_key_eqb settings_request w Hd Hw Hu Hf))) row Hrow) eq_refl).
Defined.

Lemma alert_insert_failure_witness :
  let w := world_with_mail empty_db [(5, FFail "ER_LOCK_WAIT_TIMEOUT")] in
  next_fault w <> FOk
  /\ w_db (snd (alert_route long_alert w)) = w_db w
  /\ w_outbox (snd (alert_route long_alert w)) = w_outbox w.
Proof.
  intros w.
  assert (Hf : next_fault w <> FOk) by discriminate.
  split; [exact Hf|].
  destruct (alert_insert_failure decimal_to_number integer_to_string (option Z)
              animal_key animal_key_eqb long_alert w Hf)
    as [_ [Hdb [Hout _]]].
  split; [exact Hdb|exact Hout].
Defined.

Lemma alert_mail_when_configured_witness :
  let w := world_with_mail empty_db [] in
  next_fault w = FOk
  /\ w_smtp_fault w = None
  /\ map mail_to (w_outbox (snd (alert_route long_alert w)))
     = [JStr "owner@example.org"].
Proof.
  intros w.
  assert (Hf : next_fault w = FOk) by reflexivity.
  assert (Hs : w_smtp_fault w = None) by reflexivity.
  repeat (split; [assumption|]).
  rewrite (proj1
    (alert_mail_when_configured decimal_to_number integer_to_string (option Z)
       animal_key animal_key_eqb long_alert w Hf) eq_refl Hs).
  reflexivity.
Defined.

Lemma token_is_second_word_witness :
  no_space "Bearer" = true
  /\ no_space "good" = true
  /\ token_of (Some "Bearer good") = Some "good"
  /\ token_of (Some "Bearer good extra") = Some "good".
Proof.
  assert (H1 : no_space "Bearer" = true) by reflexivity.
  assert (H2 : no_space "good" = true) by reflexivity.
  repeat (split; [assumption|]).
  destruct (token_is_second_word "Bearer" "good" "extra" H1 H2)
    as [E1 [E2 _]].
  split; [exact E1|exact E2].
Defined.

Lemma production_needs_session_or_token_witness :
  let w := world_of empty_db [] in
  NODE_ENV production_env = JStr "production"
  /\ session_user anonymous = None
  /\ fst (authenticate production_env anonymous w)
     = Returned (Reject (respond 401 false "Access token required")).
Proof.
  intros w.
  assert (Hp : NODE_ENV production_env = JStr "production") by reflexivity.
  assert (Hs : session_user anonymous = None) by reflexivity.
  repeat (split; [assumption|]).
  exact (proj1 (proj2
    (production_needs_session_or_token sample_verify production_env anonymous
       w Hp Hs)) eq_refl).
Defined.

Lemma injected_user_is_viewer_witness :
  let w := world_of empty_db [] in
  fst (authenticate dev_env anonymous w)
    = Returned (Next (Some (dev_user "Dev User")))
  /\ (session_user anonymous = Some (dev_user "Dev User")
      \/ (exists t, token_of (authorization anonymous) = Some t
                    /\ sample_verify t (JWT_SECRET dev_env)
                       = Some (dev_user "Dev User"))
      \/ (user_role (dev_user "Dev User") = JStr "viewer"
          /\ not_production dev_env = true)).
Proof.
  intros w.
  assert (H : fst (authenticate dev_env anonymous w)
              = Returned (Next (Some (dev_user "Dev User")))) by reflexivity.
  split; [exact H|].
  exact (injected_user_is_viewer sample_verify dev_env anonymous w
           (dev_user "Dev User") H).
Defined.

Lemma optional_and_mandatory_auth_agree_witness :
  let w := world_of empty_db [] in
  optionalAuth sample_verify production_env bearer_good = Some admin_user
  /\ authenticate production_env bearer_good w
     = (Returned (Next (Some admin_user)), w).
Proof.
  intros w.
  assert (H : optionalAuth sample_verify production_env bearer_good
              = Some admin_user) by reflexivity.
  split; [exact H|].
  exact (proj1
    (optional_and_mandatory_auth_agree sample_verify production_env bearer_good
       w admin_user) H).
Defined.

Lemma rejected_request_reaches_nothing_witness :
  let w := world_of empty_db [] in
  let r := respond 401 false "Access token required" in
  fst (authenticate production_env anonymous w) = Returned (Reject r)
  /\ remote_config_route decimal_to_number (option Z) animal_key animal_key_eqb
       sample_verify production_env anonymous device_request w
     = (Returned r, w).
Proof.
  intros w r.
  assert (H : fst (authenticate production_env anonymous w)
              = Returned (Reject r)) by reflexivity.
  split; [exact H|].
  exact (proj1
    (rejected_request_reaches_nothing decimal_to_number (option Z) animal_key
       animal_key_eqb sample_verify production_env anonymous device_request
       w r H)).
Defined.

Lemma control_state_round_trip_witness :
  let s := site_of (world_of empty_db []) in
  site_no_faults s
  /\ exists state,
       fst (set_control (JStr "OFF") s)
       = Returned (control_response 200 true (Some state) None)
       /\ fst (read_control (snd (set_control (JStr "OFF") s)))
          = Returned (control_response 200 true (Some state) None).
Proof.
  intros s.
  assert (Hf : site_no_faults s) by constructor.
  split; [exact Hf|].
  destruct (control_state_round_trip decimal_to_number integer_to_string
              (JStr "OFF") s Hf)
    as [state [E1 [_ [_ [_ E2]]]]].
  exists state. split; [exact E1|exact E2].
Defined.

Lemma control_get_defaults_to_on_witness :
  let s := site_of (world_of empty_db [(4, FFail "ER_NO_SUCH_TABLE")]) in
  next_fault (site_world s) = FFail "ER_NO_SUCH_TABLE"
  /\ fst (read_control s)
     = Returned (control_response 200 true (Some "on") None).
Proof.
  intros s.
  assert (H : next_fault (site_world s) = FFail "ER_NO_SUCH_TABLE")
    by reflexivity.
  split; [exact H|].
  exact (proj1 (proj2
    (control_get_defaults_to_on decimal_to_number integer_to_string s))
    "ER_NO_SUCH_TABLE" H).
Defined.

Lemma control_post_failures_witness :
  let s := site_of (world_of empty_db [(4, FFail "ER_DBACCESS_DENIED"); (4, FOk)]) in
  next_fault (site_world s) = FFail "ER_DBACCESS_DENIED"
  /\ next_fault (elapsed (site_world s)) = FOk
  /\ exists state,
       fst (set_control (JStr "off") s)
       = Returned (control_response 200 true (Some state) None).
Proof.
  intros s.
  assert (H1 : next_fault (site_world s) = FFail "ER_DBACCESS_DENIED")
    by reflexivity.
  assert (H2 : next_fault (elapsed (site_world s)) = FOk) by reflexivity.
  repeat (split; [assumption|]).
  destruct (proj1
    (control_post_failures decimal_to_number integer_to_string (JStr "off") s
       "ER_DBACCESS_DENIED") H1 H2) as [state [E _]].
  exists state. exact E.
Defined.

Lemma lifecycle_lookup_failure_is_not_found_witness :
  let s := site_of (world_of db_with_alerts []) in
  next_fault (site_world s) = FOk
  /\ addressed decimal_to_number (JStr "9") s = []
  /\ fst (mark_read None (JStr "9") s)
     = Returned (respond 404 false "Alert not found")
  /\ fst (resolve None (JStr "9") s)
     = Returned (respond 404 false "Alert not found").
Proof.
  intros s.
  assert (H1 : next_fault (site_world s) = FOk) by reflexivity.
  assert (H2 : addressed decimal_to_number (JStr "9") s = []) by reflexivity.
  repeat (split; [assumption|]).
  destruct (lifecycle_lookup_failure_is_not_found decimal_to_number None
              (JStr "9") s (or_intror (conj H1 H2)))
    as [E1 [E2 _]].
  split; [exact E1|exact E2].
Defined.

Lemma mark_read_overrides_status_witness :
  let s := site_of (world_of db_with_alerts []) in
  addressed decimal_to_number (JStr "5") s <> []
  /\ status_of 5 s = Some "resolved"
  /\ status_of 5 (snd (mark_read None (JStr "5") s)) = Some "acknowledged"
  /\ status_of 6 (snd (mark_read None (JStr "5") s)) = Some "active".
Proof.
  intros s.
  assert (H1 : next_fault (site_world s) = FOk) by reflexivity.
  assert (H2 : next_fault (elapsed (site_world s)) = FOk) by reflexivity.
  assert (Hne : addressed decimal_to_number (JStr "5") s <> []) by discriminate.
  assert (Hs : status_of 5 s = Some "resolved") by reflexivity.
  repeat (split; [assumption|]).
  destruct (mark_read_overrides_status decimal_to_number None (JStr "5") s
              H1 H2 Hne) as [_ [_ Hall]].
  split; [rewrite (Hall 5)|rewrite (Hall 6)]; reflexivity.
Defined.

Lemma resolved_alert_marked_read_witness :
  let s := site_of (world_of db_with_alerts []) in
  let r := {| al_id := 6; al_cols := sample_alert_cols "active" |} in
  let s1 := snd (resolve (Some admin_user) (JStr "6") s) in
  let s2 := snd (mark_read None (JStr "6") s1) in
  site_no_faults s
  /\ addressed decimal_to_number (JStr "6") s = [r]
  /\ resolved_by (mark_of 6 (alert_marks s2)) = num 2
  /\ acknowledged_by (mark_of 6 (alert_marks s2)) = JNull.
Proof.
  intros s r s1 s2.
  assert (Hf : site_no_faults s) by constructor.
  assert (Hr : addressed decimal_to_number (JStr "6") s = [r]) by reflexivity.
  repeat (split; [assumption|]).
  destruct (resolved_alert_marked_read decimal_to_number (Some admin_user) None
              (JStr "6") s r Hf Hr)
    as [_ [_ [_ [_ [_ [E1 E2]]]]]].
  split; [exact E1|exact E2].
Defined.

Lemma clear_alerts_truncate_then_delete_witness :
  let s := site_of (world_of db_with_alerts [(3, FFail "ER_TRUNCATE_ILLEGAL_FK")]) in
  is_admin (Some admin_user) = true
  /\ next_fault (site_world s) = FFail "ER_TRUNCATE_ILLEGAL_FK"
  /\ next_fault (elapsed (site_world s)) = FOk
  /\ fst (clear_alerts production_env (Some admin_user) s)
     = Returned (respond 200 true "All alerts cleared")
  /\ site_alerts (snd (clear_alerts production_env (Some admin_user) s)) = [].
Proof.
  intros s.
  assert (Ha : is_admin (Some admin_user) = true) by reflexivity.
  assert (H1 : next_fault (site_world s) = FFail "ER_TRUNCATE_ILLEGAL_FK")
    by reflexivity.
  assert (H2 : next_fault (elapsed (site_world s)) = FOk) by reflexivity.
  repeat (split; [assumption|]).
  destruct (proj1 (proj2
    (clear_alerts_truncate_then_delete decimal_to_number production_env
       (Some admin_user) s (or_introl Ha))) "ER_TRUNCATE_ILLEGAL_FK" H1 H2)
    as [E1 [E2 _]].
  split; [exact E1|exact E2].
Defined.

(** C9. Over-length input that is rejected, not truncated: for the body
    [{ animal_id: 7, severity: "high", title: [...] }] whose title is an
    array of 256 elements, [raw_title.length > MAX_TITLE] holds and an array
    has no [substring], so the route throws before the INSERT and answers
    500 "Internal server error"; no alert is stored, no statement reaches
    the database and no mail is sent, with a mail transport that works.
    The same body with a title that is a string of 256 characters is stored
    with the first 255 of them, answered 201 and mailed. *)
Theorem array_title_alert_is_dropped (bound : list JsVal -> JsVal) :
  let route := handleAlertTitled decimal_to_number integer_to_string (option Z)
                 animal_key animal_key_eqb bound (Plain JUndefined) in
  let w := world_with_mail empty_db [] in
  let array_title := Items (repeat (JStr "x") 256) in
  let string_title := Plain (JStr (filler 256)) in
  let w1 := snd (route array_title untitled_alert w) in
  let w2 := snd (route string_title untitled_alert w) in
  fst (route array_title untitled_alert w)
    = Returned (respond 500 false "Internal server error")
  /\ alerts (w_db w1) = []
  /\ w_queries w1 = []
  /\ w_outbox w1 = []
  /\ w_console w1 = [Error "Device alert route error:"]
  /\ fst (route string_title untitled_alert w)
     = Returned (with_id (num 1) (respond 201 true "Alert recorded"))
  /\ map (fun r => al_title (al_cols r)) (alerts (w_db w2)) = [JStr (filler 255)]
  /\ length (w_outbox w2) = 1%nat.
Proof. intros route w array_title string_title w1 w2. vm_compute. now repeat split. Qed.
